(** * FinScope: the workflow session logic of the React front end

    A shallow embedding of the session-affecting code of the FinScope
    front end: the [WorkflowProvider] context (WorkflowContext.jsx), the
    start-up effect of App.jsx, the SEC search page (SECSearchPage.jsx),
    the analysis page (AnalysisPage.jsx), the upload page (UploadPage.jsx)
    and the history list of the landing page (LandingPage.jsx).

    Modelling conventions.
    - React state is a record; a state setter is an operation ([op]) that a
      handler emits.  A handler is a function of the state it was rendered
      with (its closure) and of the outcomes of the gateway calls it awaits,
      and returns the operations it performs, in program order.  [run]
      applies them to the current state.
    - [localStorage] is a finite map from keys to strings.
    - A [fetch] is an operation recorded in the log; what the gateway
      answers is an input of the handler ([HttpResult]).
    - A JavaScript string is modelled by [string], each character being
      one UTF-16 code unit in the range 0-255; [trim] and [toLowerCase]
      are those of the platform on such strings.  Strings with other code
      units are outside the model.  The empty string stands for every
      falsy string-valued field ([undefined], [null], ['']).
    - A Number that holds an integer is modelled by that integer;
      [JS.Number_toString] is [String] on it: the shortest decimal that
      denotes the Number, in exponent notation from 10^21 on.  An integer
      that no Number holds stands for the nearest Number.
    - [JSON.parse] and [JSON.stringify] are the platform's; the persistence
      code is parametric in them (class [JSON]).  So is the history list
      in [Date.prototype.getTime].
    - The handlers of the second half read more of the pages' state;
      [XWorld] adds it to [World] and [xop] its operations to [op].  The
      landing page shares no state with the others and is modelled by
      functions on its own state. *)

From Stdlib Require Import ZArith Ascii String List Sorted Lia.
From stdpp Require Import base tactics option list gmap strings pretty.

Local Open Scope Z_scope.

(* ================================================================== *)
(** * JavaScript primitives used by the pages *)
(* ================================================================== *)

Module JS.

(** Truthiness of a string value. *)
Definition truthy (s : string) : bool :=
  match s with EmptyString => false | String _ _ => true end.

(** Truthiness of a value that is an object or [null]. *)
Definition non_null {A} (x : option A) : bool :=
  match x with Some _ => true | None => false end.

(** [a || b] on strings. *)
Definition or_else (a b : string) : string := if truthy a then a else b.

(** [x || ''] where [x] may be undefined. *)
Definition or_empty (x : option string) : string := default EmptyString x.

(** The white space and line terminators of ECMAScript among the code
    units below 256: TAB, LF, VT, FF, CR, SP and NBSP. *)
Definition is_whitespace (c : ascii) : bool :=
  let n := N_of_ascii c in
  ((9 <=? n) && (n <=? 13) || (n =? 32) || (n =? 160))%N.

(** [String.prototype.trim]. *)
Fixpoint trimStart (s : string) : string :=
  match s with
  | EmptyString => EmptyString
  | String c s' => if is_whitespace c then trimStart s' else s
  end.

Definition trimEnd (s : string) : string :=
  String.rev (trimStart (String.rev s)).

Definition trim (s : string) : string := trimEnd (trimStart s).

(** [String.prototype.toLowerCase] on one code unit below 256: the
    upper-case letters are A-Z and U+00C0-U+00DE without the
    multiplication sign U+00D7, each 32 below its lower-case letter. *)
Definition lower_ascii (c : ascii) : ascii :=
  let n := N_of_ascii c in
  if ((65 <=? n) && (n <=? 90)
      || (192 <=? n) && (n <=? 222) && negb (n =? 215))%N
  then ascii_of_N (n + 32) else c.

Fixpoint toLowerCase (s : string) : string :=
  match s with
  | EmptyString => EmptyString
  | String c s' => String (lower_ascii c) (toLowerCase s')
  end.

(** [s.lastIndexOf(c)]: the index of the last occurrence, or -1. *)
Fixpoint lastIndexOf_from (c : ascii) (s : string) (i acc : Z) : Z :=
  match s with
  | EmptyString => acc
  | String a s' =>
      lastIndexOf_from c s' (i + 1) (if Ascii.eqb a c then i else acc)
  end.

Definition lastIndexOf (c : ascii) (s : string) : Z :=
  lastIndexOf_from c s 0 (-1).

(** [s.substring(start)]: a negative start is clamped to 0, a start past
    the end gives the empty string. *)
Fixpoint drop_chars (n : nat) (s : string) : string :=
  match n, s with
  | O, _ => s
  | S _, EmptyString => EmptyString
  | S n', String _ s' => drop_chars n' s'
  end.

Definition substring (start : Z) (s : string) : string :=
  drop_chars (Z.to_nat start) s.

(** [Array.prototype.includes] on strings. *)
Definition includes (l : list string) (s : string) : bool :=
  existsb (String.eqb s) l.

(** The Number nearest to a natural number [a] (round to nearest, ties
    to even); [None] stands for [Infinity]. *)
Definition to_Number (a : Z) : option Z :=
  if a <? 2 ^ 53 then Some a
  else
    let e := Z.log2 a - 52 in
    let q := a / 2 ^ e in
    let r := a mod 2 ^ e in
    let half := 2 ^ (e - 1) in
    let q' := if r <? half then q
              else if half <? r then q + 1
              else if Z.even q then q else q + 1 in
    let x := q' * 2 ^ e in
    if 2 ^ 1024 <=? x then None else Some x.

(** The number of decimal digits of a positive integer. *)
Definition digits (a : Z) : Z := Z.of_nat (String.length (pretty a)).

(** Among the decimals [s * 10^(n - k)], with [s] of [k] digits, that
    denote the Number [x] (those that lie between [lo] and [hi], the
    ends counting when [incl]): the one nearest to [x], with its distance
    from [x]. *)
Definition candidate (x lo hi : Z) (incl : bool) (k n : Z) : option (Z * Z) :=
  let j := n - k in
  if j <? 0 then None
  else
    let p := 10 ^ j in
    let smin := Z.max (10 ^ (k - 1))
                  (if incl then (lo + p - 1) / p else lo / p + 1) in
    let smax := Z.min (10 ^ k - 1)
                  (if incl then hi / p else (hi + p - 1) / p - 1) in
    if smax <? smin then None
    else
      let clamp s := Z.max smin (Z.min smax s) in
      let c1 := clamp (x / p) in
      let c2 := clamp (x / p + 1) in
      let d1 := Z.abs (c1 * p - x) in
      let d2 := Z.abs (c2 * p - x) in
      if d1 <? d2 then Some (d1, c1)
      else if d2 <? d1 then Some (d2, c2)
      else Some (d1, if Z.even c1 then c1 else c2).

Definition nearer (a b : option (Z * Z * Z)) : option (Z * Z * Z) :=
  match a, b with
  | Some (d1, s1, n1), Some (d2, s2, n2) => if d2 <? d1 then b else a
  | Some _, None => a
  | None, _ => b
  end.

(** The digits [s] and the exponent [n] of [Number::toString] for a
    Number [x >= 2^53]: [s] is the shortest such that [s * 10^(n - k)]
    rounds to [x], and the nearest to [x] when there are several.  The
    decimals that round to [x = m * 2^e], with [m] of 53 bits, lie within
    half a step of it, where the step below a power of two is half the
    step above; the ends round to [x] when [m] is even. *)
Definition shortest (x : Z) : Z * Z :=
  let e := Z.log2 x - 52 in
  let m := x / 2 ^ e in
  let lo := x - (if m =? 2 ^ 52 then 2 ^ (e - 2) else 2 ^ (e - 1)) in
  let hi := x + 2 ^ (e - 1) in
  let N := digits x in
  let at_k k :=
    let c n := match candidate x lo hi (Z.even m) k n with
               | Some (d, s) => Some (d, s, n)
               | None => None
               end in
    nearer (c N) (nearer (c (N - 1)) (c (N + 1))) in
  match omap at_k (map Z.of_nat (seq 1 17)) with
  | (_, s, n) :: _ => (s, n)
  | [] => (x, N)
  end.

(** [s] followed by [n - k] zeros when [n <= 21], else the exponent
    notation: the first digit, the others after a point, and [e+(n-1)]. *)
Definition digits_string (s n : Z) : string :=
  if n <=? 21 then pretty (s * 10 ^ (n - digits s))
  else
    match pretty s with
    | String d EmptyString => String d ("e+" +:+ pretty (n - 1))
    | String d rest => String d ("." +:+ rest +:+ "e+" +:+ pretty (n - 1))
    | EmptyString => EmptyString
    end.

(** [String(y)] for the Number that the integer [y] stands for
    ([Number::toString]).  Below 2^53 the digits of the Number are its
    shortest decimal; from there on the shortest decimal that rounds to
    it is printed, filled with zeros up to 21 digits ([String(2**64)] is
    ['18446744073709552000']) and in exponent notation beyond. *)
Definition Number_toString (y : Z) : string :=
  let sign := if y <? 0 then "-" else "" in
  match to_Number (Z.abs y) with
  | None => sign +:+ "Infinity"
  | Some x =>
      if x <? 2 ^ 53 then sign +:+ pretty x
      else let '(s, n) := shortest x in sign +:+ digits_string s n
  end.

#[global] Arguments Number_toString : simpl never.

(** Two decimal digits of a number below 100. *)
Definition two_digits (n : N) : string :=
  ((if (n <? 10)%N then "0" else "") +:+ pretty n)%string.

(** [(size / 1024 / 1024).toFixed(2)] for a byte count: both divisions
    are exact in binary floating point, and [toFixed] rounds the exact
    value to the nearest hundredth, ties upwards. *)
Definition size_MB_toFixed2 (size : N) : string :=
  let n := ((200 * size + 1048576) / 2097152)%N in
  (pretty (n / 100)%N +:+ "." +:+ two_digits (n mod 100)%N)%string.

End JS.

(* ================================================================== *)
(** * Data model *)
(* ================================================================== *)

(** A filing as returned by [/api/get-filings]. *)
Record Filing := mkFiling {
  accession_number : string;
  form_type : string;
  filing_date : string
}.

(** A company suggestion: [{ company_name, ticker }]. *)
Record Company := mkCompany {
  co_company_name : string;
  co_ticker : string
}.

(** [secWorkflowData]: [{ ticker, company_name, selected_filing }]. *)
Record SecWorkflowData := mkSecWorkflowData {
  wf_ticker : string;
  wf_company_name : string;
  wf_selected_filing : option Filing
}.

(** [selectionMetadata]: [{ ticker, company_name, selected_filing }]. *)
Record SelectionMetadata := mkSelectionMetadata {
  sm_ticker : string;
  sm_company_name : string;
  sm_selected_filing : option Filing
}.

Inductive Role := user | assistant.

(** A chat message: [{ role, content, references?, isError?, timestamp }]. *)
Record Message := mkMessage {
  role : Role;
  content : string;
  references : option string;
  isError : bool;
  timestamp : string
}.

(** News articles are opaque to the session logic. *)
Definition Article := string.

(** [analysisData]:
    [{ sessionId, executiveSummary, newsArticles, chatMessages, sourceType }]. *)
Record AnalysisData := mkAnalysisData {
  ad_sessionId : string;
  ad_executiveSummary : string;
  ad_newsArticles : list Article;
  ad_chatMessages : list Message;
  ad_sourceType : option string
}.

(** [uploadMetadata]: [{ companyName, docTitle, docType, year }]; every
    field may be missing.  [year] is a number ([parseInt]) or [''];
    [None] stands for the values that [year || ''] turns into ['']
    other than 0. *)
Record UploadMeta := mkUploadMeta {
  um_companyName : option string;
  um_docTitle : option string;
  um_docType : option string;
  um_year : option Z
}.

(** A browser [File]: the page reads its [name] and [size] only. *)
Record File := mkFile {
  file_name : string;
  file_size : N
}.

(** [uploadAnalysisData]: the backend response plus the submitted form. *)
Record UploadAnalysisData := mkUploadAnalysisData {
  ua_sessionId : string;
  ua_executiveSummary : string;
  ua_newsArticles : list Article;
  ua_submittedMetadata : option UploadMeta;
  ua_submittedFileName : option string
}.

(** The record kept under [finscope_active_session].  The provider
    writes the first four fields; [uploadMetadata] is a field that the
    application looks for, and deletes, when it starts. *)
Record SessionData := mkSessionData {
  sd_analysisData : option AnalysisData;
  sd_selectionMetadata : option SelectionMetadata;
  sd_secWorkflowData : option SecWorkflowData;
  sd_timestamp : string;
  sd_uploadMetadata : option UploadMeta
}.

#[global] Instance Filing_eq_dec : EqDecision Filing.
Proof. solve_decision. Defined.
#[global] Instance Company_eq_dec : EqDecision Company.
Proof. solve_decision. Defined.
#[global] Instance SecWorkflowData_eq_dec : EqDecision SecWorkflowData.
Proof. solve_decision. Defined.
#[global] Instance SelectionMetadata_eq_dec : EqDecision SelectionMetadata.
Proof. solve_decision. Defined.
#[global] Instance Role_eq_dec : EqDecision Role.
Proof. solve_decision. Defined.
#[global] Instance Message_eq_dec : EqDecision Message.
Proof. solve_decision. Defined.
#[global] Instance AnalysisData_eq_dec : EqDecision AnalysisData.
Proof. solve_decision. Defined.
#[global] Instance UploadMeta_eq_dec : EqDecision UploadMeta.
Proof. solve_decision. Defined.
#[global] Instance File_eq_dec : EqDecision File.
Proof. solve_decision. Defined.
#[global] Instance UploadAnalysisData_eq_dec : EqDecision UploadAnalysisData.
Proof. solve_decision. Defined.

(* ================================================================== *)
(** * The gateway *)
(* ================================================================== *)

(** The calls the pages issue. *)
Inductive Request :=
| StartAnalysis (ticker companyName filingId : string)
| UploadAnalysis (file : File) (companyName : string)
    (docTitle docType year : option string)
| ChatHistory (sessionId : string)
| Chat (sessionId userMessage : string)
| EndSession (sessionId : string).

#[global] Instance Request_eq_dec : EqDecision Request.
Proof. solve_decision. Defined.

(** How an awaited [fetch] settles.  [errorData] and [data] are the
    outcome of [await response.json()]: [inl m] when it throws an error
    with message [m], [inr v] when it yields [v].  On a response that is
    not ok only [errorData.error] is read. *)
Inductive HttpResult (B : Type) : Type :=
| NetworkFailure (message : string)
| HttpError (status : nat) (errorData : string + option string)
| HttpOk (data : string + B).
Arguments NetworkFailure {B} message.
Arguments HttpError {B} status errorData.
Arguments HttpOk {B} data.

(** [errorData.error || `HTTP error! status: ${response.status}`]. *)
Definition http_error_message (status : nat) (error : option string) : string :=
  JS.or_else (JS.or_empty error) ("HTTP error! status: " +:+ pretty status).

(** The message of the error that the usual
    [if (!response.ok) { throw ... } const data = await response.json()]
    sequence raises, or the data it yields. *)
Definition read_json {B} (r : HttpResult B) : string + B :=
  match r with
  | NetworkFailure m => inl m
  | HttpError _ (inl m) => inl m
  | HttpError st (inr e) => inl (http_error_message st e)
  | HttpOk d => d
  end.

(** The same sequence when the body of an ok response is not read. *)
Definition read_ok {B} (r : HttpResult B) : option string :=
  match r with
  | NetworkFailure m => Some m
  | HttpError _ (inl m) => Some m
  | HttpError st (inr e) => Some (http_error_message st e)
  | HttpOk _ => None
  end.

(** The body of [/api/start-analysis]. *)
Record StartAnalysisData := mkStartAnalysisData {
  sa_sessionId : string;
  sa_executiveSummary : option string;
  sa_newsArticles : option (list Article)
}.

(** The body of [/api/chat]. *)
Record ChatData := mkChatData {
  assistantResponse : string;
  chat_references : option string
}.

(** What the pages read of [/api/history/chat/:id]:
    [metadata.news_articles]. *)
Record HistoryData := mkHistoryData {
  hist_news_articles : option (list Article)
}.

(* ================================================================== *)
(** * State *)
(* ================================================================== *)

(** The state held by [WorkflowProvider]. *)
Record Context := mkContext {
  secWorkflowData : option SecWorkflowData;
  analysisData : option AnalysisData;
  selectionMetadata : option SelectionMetadata;
  uploadMetadata : option UploadMeta;
  selectedUploadFile : option File;
  uploadAnalysisData : option UploadAnalysisData;
  analysisLoading : bool
}.

(** [conflictData] of the SEC search page. *)
Record ConflictData := mkConflictData {
  existingTicker : string;
  currentTicker : string;
  currentFilingId : string
}.

(** The local state of [SECSearchPage] that the session logic reads. *)
Record SecPage := mkSecPage {
  selectedCompany : option Company;
  filings : list Filing;
  selectedFiling : option Filing;
  showConflictDialog : bool;
  conflictData : option ConflictData
}.

(** [companyInfo] as the SEC branch of the analysis page sets it. *)
Record CompanyInfo := mkCompanyInfo {
  ci_ticker : string;
  ci_companyName : string;
  ci_filing : Filing
}.

(** The local state of [AnalysisPage].  [sessionId] starts as [null],
    modelled by the empty string. *)
Record AnaPage := mkAnaPage {
  loading : bool;
  error : option string;
  sessionId : string;
  executiveSummary : string;
  newsArticles : list Article;
  companyInfo : option CompanyInfo;
  chatMessages : list Message;
  userInput : string;
  sendingMessage : bool;
  showEndSessionDialog : bool;
  endingSession : bool
}.

(** The local state of [UploadPage]; [fileInputValue] is the value of
    the file input behind [fileInputRef]. *)
Record UplPage := mkUplPage {
  submittedMetadata : option UploadMeta;
  submittedFileName : option string;
  showReplaceModal : bool;
  fileError : option string;
  isLoading : bool;
  fileInputValue : string
}.

(** What a handler does to the outside, in order. *)
Inductive Event :=
| EvFetch (r : Request)
| EvAlert (message : string)
| EvNavigate (path : string) (isUpload : bool)
| EvConsoleError (message : string).

Record World := mkWorld {
  ctx : Context;
  localStorage : gmap string string;
  log : list Event;
  uncaught : option string;
  sec : SecPage;
  ana : AnaPage;
  upl : UplPage
}.

(* ================================================================== *)
(** * Operations *)
(* ================================================================== *)

Inductive op :=
(* context setters *)
| SetSecWorkflowDataState (d : option SecWorkflowData)
| SetSelectionMetadata (m : option SelectionMetadata)
| SetAnalysisData (a : option AnalysisData)
| SetUploadMetadata (m : option UploadMeta)
| SetSelectedUploadFile (f : option File)
| SetUploadAnalysisData (d : option UploadAnalysisData)
| SetAnalysisLoading (b : bool)
(* localStorage *)
| RemoveItem (key : string)
| SetItem (key value : string)
(* the outside *)
| Fetch (r : Request)
| Alert (message : string)
| Navigate (path : string) (isUpload : bool)
| ConsoleError (message : string)
| Throw (message : string)
(* SECSearchPage setters *)
| SetShowConflictDialog (b : bool)
| SetConflictData (c : option ConflictData)
(* AnalysisPage setters *)
| SetLoading (b : bool)
| SetError (e : option string)
| SetSessionId (s : string)
| SetExecutiveSummary (s : string)
| SetNewsArticles (l : list Article)
| SetCompanyInfo (c : option CompanyInfo)
| SetChatMessages (l : list Message)
| AppendChatMessage (m : Message)
| AppendChatMessageSynced (m : Message)
| SetUserInput (s : string)
| SetSendingMessage (b : bool)
| SetShowEndSessionDialog (b : bool)
| SetEndingSession (b : bool)
(* UploadPage setters *)
| SetSubmittedMetadata (m : option UploadMeta)
| SetSubmittedFileName (n : option string)
| SetShowReplaceModal (b : bool)
| SetFileError (e : option string)
| SetIsLoading (b : bool)
| ClearFileInput.

Definition with_ctx (w : World) (c : Context) : World :=
  mkWorld c (localStorage w) (log w) (uncaught w) (sec w) (ana w) (upl w).
Definition with_localStorage (w : World) (s : gmap string string) : World :=
  mkWorld (ctx w) s (log w) (uncaught w) (sec w) (ana w) (upl w).
Definition emit (w : World) (e : Event) : World :=
  mkWorld (ctx w) (localStorage w) (log w ++ [e]) (uncaught w)
          (sec w) (ana w) (upl w).
Definition with_uncaught (w : World) (m : string) : World :=
  mkWorld (ctx w) (localStorage w) (log w) (Some m) (sec w) (ana w) (upl w).
Definition with_sec (w : World) (p : SecPage) : World :=
  mkWorld (ctx w) (localStorage w) (log w) (uncaught w) p (ana w) (upl w).
Definition with_ana (w : World) (p : AnaPage) : World :=
  mkWorld (ctx w) (localStorage w) (log w) (uncaught w) (sec w) p (upl w).
Definition with_upl (w : World) (p : UplPage) : World :=
  mkWorld (ctx w) (localStorage w) (log w) (uncaught w) (sec w) (ana w) p.

(** [setAnalysisData(prevData => prevData ? {...prevData, chatMessages} : prevData)]. *)
Definition sync_chat (msgs : list Message) (a : option AnalysisData)
  : option AnalysisData :=
  match a with
  | None => None
  | Some d =>
      Some (mkAnalysisData (ad_sessionId d) (ad_executiveSummary d)
              (ad_newsArticles d) msgs (ad_sourceType d))
  end.

Definition step_ctx (o : op) (c : Context) : Context :=
  match o with
  | SetSecWorkflowDataState d =>
      mkContext d (analysisData c) (selectionMetadata c) (uploadMetadata c)
        (selectedUploadFile c) (uploadAnalysisData c) (analysisLoading c)
  | SetAnalysisData a =>
      mkContext (secWorkflowData c) a (selectionMetadata c) (uploadMetadata c)
        (selectedUploadFile c) (uploadAnalysisData c) (analysisLoading c)
  | SetSelectionMetadata m =>
      mkContext (secWorkflowData c) (analysisData c) m (uploadMetadata c)
        (selectedUploadFile c) (uploadAnalysisData c) (analysisLoading c)
  | SetUploadMetadata m =>
      mkContext (secWorkflowData c) (analysisData c) (selectionMetadata c) m
        (selectedUploadFile c) (uploadAnalysisData c) (analysisLoading c)
  | SetSelectedUploadFile f =>
      mkContext (secWorkflowData c) (analysisData c) (selectionMetadata c)
        (uploadMetadata c) f (uploadAnalysisData c) (analysisLoading c)
  | SetUploadAnalysisData d =>
      mkContext (secWorkflowData c) (analysisData c) (selectionMetadata c)
        (uploadMetadata c) (selectedUploadFile c) d (analysisLoading c)
  | SetAnalysisLoading b =>
      mkContext (secWorkflowData c) (analysisData c) (selectionMetadata c)
        (uploadMetadata c) (selectedUploadFile c) (uploadAnalysisData c) b
  | _ => c
  end.

Definition step_sec (o : op) (p : SecPage) : SecPage :=
  match o with
  | SetShowConflictDialog b =>
      mkSecPage (selectedCompany p) (filings p) (selectedFiling p) b (conflictData p)
  | SetConflictData c =>
      mkSecPage (selectedCompany p) (filings p) (selectedFiling p)
        (showConflictDialog p) c
  | _ => p
  end.

Definition step_ana (o : op) (p : AnaPage) : AnaPage :=
  match o with
  | SetLoading b =>
      mkAnaPage b (error p) (sessionId p) (executiveSummary p) (newsArticles p)
        (companyInfo p) (chatMessages p) (userInput p) (sendingMessage p)
        (showEndSessionDialog p) (endingSession p)
  | SetError e =>
      mkAnaPage (loading p) e (sessionId p) (executiveSummary p) (newsArticles p)
        (companyInfo p) (chatMessages p) (userInput p) (sendingMessage p)
        (showEndSessionDialog p) (endingSession p)
  | SetSessionId s =>
      mkAnaPage (loading p) (error p) s (executiveSummary p) (newsArticles p)
        (companyInfo p) (chatMessages p) (userInput p) (sendingMessage p)
        (showEndSessionDialog p) (endingSession p)
  | SetExecutiveSummary s =>
      mkAnaPage (loading p) (error p) (sessionId p) s (newsArticles p)
        (companyInfo p) (chatMessages p) (userInput p) (sendingMessage p)
        (showEndSessionDialog p) (endingSession p)
  | SetNewsArticles l =>
      mkAnaPage (loading p) (error p) (sessionId p) (executiveSummary p) l
        (companyInfo p) (chatMessages p) (userInput p) (sendingMessage p)
        (showEndSessionDialog p) (endingSession p)
  | SetCompanyInfo c =>
      mkAnaPage (loading p) (error p) (sessionId p) (executiveSummary p)
        (newsArticles p) c (chatMessages p) (userInput p) (sendingMessage p)
        (showEndSessionDialog p) (endingSession p)
  | SetChatMessages l =>
      mkAnaPage (loading p) (error p) (sessionId p) (executiveSummary p)
        (newsArticles p) (companyInfo p) l (userInput p) (sendingMessage p)
        (showEndSessionDialog p) (endingSession p)
  | AppendChatMessage m | AppendChatMessageSynced m =>
      mkAnaPage (loading p) (error p) (sessionId p) (executiveSummary p)
        (newsArticles p) (companyInfo p) (chatMessages p ++ [m]) (userInput p)
        (sendingMessage p) (showEndSessionDialog p) (endingSession p)
  | SetUserInput s =>
      mkAnaPage (loading p) (error p) (sessionId p) (executiveSummary p)
        (newsArticles p) (companyInfo p) (chatMessages p) s (sendingMessage p)
        (showEndSessionDialog p) (endingSession p)
  | SetSendingMessage b =>
      mkAnaPage (loading p) (error p) (sessionId p) (executiveSummary p)
        (newsArticles p) (companyInfo p) (chatMessages p) (userInput p) b
        (showEndSessionDialog p) (endingSession p)
  | SetShowEndSessionDialog b =>
      mkAnaPage (loading p) (error p) (sessionId p) (executiveSummary p)
        (newsArticles p) (companyInfo p) (chatMessages p) (userInput p)
        (sendingMessage p) b (endingSession p)
  | SetEndingSession b =>
      mkAnaPage (loading p) (error p) (sessionId p) (executiveSummary p)
        (newsArticles p) (companyInfo p) (chatMessages p) (userInput p)
        (sendingMessage p) (showEndSessionDialog p) b
  | _ => p
  end.

Definition step_upl (o : op) (p : UplPage) : UplPage :=
  match o with
  | SetSubmittedMetadata m =>
      mkUplPage m (submittedFileName p) (showReplaceModal p) (fileError p)
        (isLoading p) (fileInputValue p)
  | SetSubmittedFileName n =>
      mkUplPage (submittedMetadata p) n (showReplaceModal p) (fileError p)
        (isLoading p) (fileInputValue p)
  | SetShowReplaceModal b =>
      mkUplPage (submittedMetadata p) (submittedFileName p) b (fileError p)
        (isLoading p) (fileInputValue p)
  | SetFileError e =>
      mkUplPage (submittedMetadata p) (submittedFileName p) (showReplaceModal p)
        e (isLoading p) (fileInputValue p)
  | SetIsLoading b =>
      mkUplPage (submittedMetadata p) (submittedFileName p) (showReplaceModal p)
        (fileError p) b (fileInputValue p)
  | ClearFileInput =>
      mkUplPage (submittedMetadata p) (submittedFileName p) (showReplaceModal p)
        (fileError p) (isLoading p) EmptyString
  | _ => p
  end.

Definition step_storage (o : op) (s : gmap string string) : gmap string string :=
  match o with
  | RemoveItem k => delete k s
  | SetItem k v => <[k := v]> s
  | _ => s
  end.

Definition step_log (o : op) (l : list Event) : list Event :=
  match o with
  | Fetch r => l ++ [EvFetch r]
  | Alert m => l ++ [EvAlert m]
  | Navigate p u => l ++ [EvNavigate p u]
  | ConsoleError m => l ++ [EvConsoleError m]
  | _ => l
  end.

(** One operation.  [AppendChatMessageSynced] is the nested update of
    [handleSendMessage]: the transcript grows and the grown transcript is
    copied into [analysisData]. *)
Definition step (o : op) (w : World) : World :=
  let c :=
    match o with
    | AppendChatMessageSynced m =>
        step_ctx (SetAnalysisData
                    (sync_chat (chatMessages (ana w) ++ [m]) (analysisData (ctx w))))
                 (ctx w)
    | _ => step_ctx o (ctx w)
    end in
  mkWorld c (step_storage o (localStorage w)) (step_log o (log w))
          (uncaught w) (step_sec o (sec w)) (step_ana o (ana w))
          (step_upl o (upl w)).

(** A handler's operations, applied in order; an uncaught exception ends
    the handler: what it had done stays done, the rest is not executed. *)
Fixpoint run (ops : list op) (w : World) : World :=
  match ops with
  | [] => w
  | Throw m :: _ => with_uncaught w m
  | o :: rest => run rest (step o w)
  end.

(** A handler fired on the state it was rendered with. *)
Definition fire (handler : World -> list op) (w : World) : World :=
  run (handler w) w.

(** The gateway calls in a log. *)
Definition requests (l : list Event) : list Request :=
  omap (fun e => match e with EvFetch r => Some r | _ => None end) l.

(** The alerts in a log. *)
Definition alerts (l : list Event) : list string :=
  omap (fun e => match e with EvAlert m => Some m | _ => None end) l.

(* ================================================================== *)
(** * Control flow: exceptions and awaited calls *)
(* ================================================================== *)

(** [try { body } catch (err) { handler(err.message) }]: the body runs up
    to its first [Throw]; the handler takes over from there. *)
Fixpoint try_catch (body : list op) (handler : string -> list op) : list op :=
  match body with
  | [] => []
  | Throw m :: _ => handler m
  | o :: rest => o :: try_catch rest handler
  end.

(** [a === b] where either side may be [undefined]. *)
Definition strict_eq (a b : option string) : bool := bool_decide (a = b).

(** [analysisData && analysisData.sourceType === 'upload'], a test that
    the analysis and upload pages both write out. *)
Definition isUploadSourceType (c : Context) : bool :=
  match analysisData c with
  | Some a => strict_eq (ad_sourceType a) (Some "upload")
  | None => false
  end.

(** A call of an identifier that the module does not declare. *)
Definition undeclared (name : string) : op :=
  Throw ("ReferenceError: " +:+ name +:+ " is not defined").

(** What a handler has done when its first gateway call is in flight:
    its operations up to and including the first [Fetch]. *)
Fixpoint until_fetch (ops : list op) : list op :=
  match ops with
  | [] => []
  | Fetch r :: _ => [Fetch r]
  | Throw m :: _ => [Throw m]
  | o :: rest => o :: until_fetch rest
  end.

(* ================================================================== *)
(** * WorkflowContext.jsx: the provider *)
(* ================================================================== *)

Definition ACTIVE_SESSION_KEY : string := "finscope_active_session".
Definition UPLOAD_META_KEY : string := "finscope_upload_meta".
Definition UPLOAD_DATA_KEY : string := "finscope_upload_data".

(** The projection [{ ticker, company_name, selected_filing }] that
    [updateSecWorkflowData] builds. *)
Definition selection_of (d : SecWorkflowData) : SelectionMetadata :=
  mkSelectionMetadata (wf_ticker d) (wf_company_name d) (wf_selected_filing d).

(** [updateSecWorkflowData], exported as [setSecWorkflowData]. *)
Definition updateSecWorkflowData (data : option SecWorkflowData) : list op :=
  [ SetSecWorkflowDataState data;
    match data with
    | Some d => SetSelectionMetadata (Some (selection_of d))
    | None => SetSelectionMetadata None
    end ].

(** [clearActiveSession].  Inside the provider the state setter is named
    [setSecWorkflowDataState] and the wrapper [updateSecWorkflowData]; the
    name [setSecWorkflowData] that the third statement calls is not
    declared in the module. *)
Definition clearActiveSession : list op :=
  [ SetAnalysisData None;
    SetSelectionMetadata None;
    undeclared "setSecWorkflowData";
    RemoveItem ACTIVE_SESSION_KEY ].

(** The platform's JSON codec at one record type.  [JSON_parse s] is
    [None] when [JSON.parse(s)] throws, [Some None] when it yields [null]
    and [Some (Some v)] when it yields the object [v]. *)
Class JSON (A : Type) := {
  JSON_stringify : A -> string;
  JSON_parse : string -> option (option A)
}.

Section Persistence.
Context `{JSON_session : !JSON SessionData}
        `{JSON_meta : !JSON UploadMeta}
        `{JSON_data : !JSON UploadAnalysisData}.

(** The lazy initialisers of [uploadMetadata] and [uploadAnalysisData]:
    [try { const stored = localStorage.getItem(key);
           return stored ? JSON.parse(stored) : null }
     catch (error) { console.error(...); return null }].
    The result is the initial state and what was logged. *)
Definition init_from_storage {A} `{!JSON A} (key what : string)
    (s : gmap string string) : option A * list op :=
  match s !! key with
  | None => (None, [])
  | Some stored =>
      if JS.truthy stored then
        match JSON_parse stored with
        | None =>
            (None, [ConsoleError ("Failed to load " +:+ what +:+ " from localStorage:")])
        | Some v => (v, [])
        end
      else (None, [])
  end.

Definition init_uploadMetadata (s : gmap string string) :=
  init_from_storage (A := UploadMeta) UPLOAD_META_KEY "upload metadata" s.

Definition init_uploadAnalysisData (s : gmap string string) :=
  init_from_storage (A := UploadAnalysisData) UPLOAD_DATA_KEY
    "upload analysis data" s.

(** The effect that loads the active session on initialisation. *)
Definition load_active_session (s : gmap string string) : list op :=
  try_catch
    (match s !! ACTIVE_SESSION_KEY with
     | None => []
     | Some stored =>
         if JS.truthy stored then
           match JSON_parse (A := SessionData) stored with
           | None => [Throw "SyntaxError"]
           | Some None => [Throw "TypeError: Cannot read properties of null"]
           | Some (Some parsed) =>
               match sd_analysisData parsed with
               | Some a => [SetAnalysisData (Some a)]
               | None => []
               end ++
               match sd_selectionMetadata parsed with
               | Some m => [SetSelectionMetadata (Some m)]
               | None => []
               end ++
               match sd_secWorkflowData parsed with
               | Some d => [undeclared "setSecWorkflowData"]
               | None => []
               end
           end
         else []
     end)
    (fun m => [ConsoleError "Failed to load active session from localStorage:"]).

(** Mounting the provider: the two initialisers, then the load effect. *)
Definition WorkflowProvider_mount (s : gmap string string) : list op :=
  let m := init_uploadMetadata s in
  let d := init_uploadAnalysisData s in
  snd m ++ snd d ++
  [SetUploadMetadata (fst m); SetUploadAnalysisData (fst d)] ++
  load_active_session s.

(** The effect on [analysisData, selectionMetadata, secWorkflowData];
    [now] is [new Date().toISOString()]. *)
Definition persist_active_session (now : string) (c : Context) : list op :=
  let sessionData :=
    mkSessionData (analysisData c) (selectionMetadata c) (secWorkflowData c)
      now None in
  if JS.non_null (analysisData c) || JS.non_null (selectionMetadata c)
     || JS.non_null (secWorkflowData c)
  then [SetItem ACTIVE_SESSION_KEY (JSON_stringify sessionData)]
  else [RemoveItem ACTIVE_SESSION_KEY].

(** The effect on [uploadMetadata, uploadAnalysisData]. *)
Definition persist_upload (c : Context) : list op :=
  [ match uploadMetadata c with
    | Some m => SetItem UPLOAD_META_KEY (JSON_stringify m)
    | None => RemoveItem UPLOAD_META_KEY
    end;
    match uploadAnalysisData c with
    | Some d => SetItem UPLOAD_DATA_KEY (JSON_stringify d)
    | None => RemoveItem UPLOAD_DATA_KEY
    end ].

(** App.jsx, the effect that runs when the application mounts: two
    keys of an earlier version are removed, and a [uploadMetadata] field
    found in the session record is deleted from it. *)
Definition App_cleanup (s : gmap string string) : list op :=
  [RemoveItem "upload_session"; RemoveItem "upload_metadata"] ++
  try_catch
    (match s !! "finscope_active_session" with
     | None => []
     | Some stored =>
         if JS.truthy stored then
           match JSON_parse (A := SessionData) stored with
           | None => [Throw "SyntaxError"]
           | Some None => [Throw "TypeError: Cannot read properties of null"]
           | Some (Some parsed) =>
               match sd_uploadMetadata parsed with
               | Some _ =>
                   [SetItem "finscope_active_session"
                      (JSON_stringify
                         (mkSessionData (sd_analysisData parsed)
                            (sd_selectionMetadata parsed)
                            (sd_secWorkflowData parsed)
                            (sd_timestamp parsed) None))]
               | None => []
               end
           end
         else []
     end)
    (fun m => [ConsoleError "Failed to clean upload metadata from active session:"]).

(** Both persistence effects, as they run after a commit that changed
    their dependencies. *)
Definition persist (now : string) (w : World) : World :=
  run (persist_active_session now (ctx w) ++ persist_upload (ctx w)) w.

End Persistence.

(* ================================================================== *)
(** * SECSearchPage.jsx *)
(* ================================================================== *)

Module SECSearchPage.

(** [hasAnalysisForCurrentSelection]. *)
Definition hasAnalysisForCurrentSelection (w : World) : bool :=
  match analysisData (ctx w), selectionMetadata (ctx w), selectedFiling (sec w) with
  | Some _, Some sm, Some f =>
      let currentTicker := co_ticker <$> selectedCompany (sec w) in
      let currentFilingId := Some (accession_number f) in
      let storedTicker := Some (sm_ticker sm) in
      let storedFilingId := accession_number <$> sm_selected_filing sm in
      strict_eq currentTicker storedTicker && strict_eq currentFilingId storedFilingId
  | _, _, _ => false
  end.

(** The action button of the filing list, which is rendered when
    [filings.length > 0]:
    [selectedFiling && (hasAnalysisForCurrentSelection() ? Resume : Start)]. *)
Inductive SecButton := ResumeAnalysisButton | StartAnalysisButton.

Definition SECSearchPage_button (w : World) : option SecButton :=
  match filings (sec w), selectedFiling (sec w) with
  | _ :: _, Some _ =>
      Some (if hasAnalysisForCurrentSelection w
            then ResumeAnalysisButton else StartAnalysisButton)
  | _, _ => None
  end.

(** The [try]/[catch] around the end-session call that
    [proceedWithNewAnalysis] and [handleBackConfirm] share: both branches
    only log (Continue anyway - don't block the user). *)
Definition end_old_session (sid : string) (r : HttpResult unit) : list op :=
  try_catch
    (Fetch (EndSession sid) ::
     match r with
     | NetworkFailure m => [Throw m]
     | HttpError _ (inl m) => [Throw m]
     | HttpError _ (inr _) => [ConsoleError "Failed to end session:"]
     | HttpOk _ => []
     end)
    (fun m => [ConsoleError ("Error ending session: " +:+ m)]).

(** [proceedWithNewAnalysis]; [r] is how the end-session call settles. *)
Definition proceedWithNewAnalysis (r : HttpResult unit) (w : World) : list op :=
  match selectedCompany (sec w), selectedFiling (sec w) with
  | Some company, Some filing =>
      match analysisData (ctx w) with
      | Some a =>
          if JS.truthy (ad_sessionId a) then end_old_session (ad_sessionId a) r
          else []
      | None => []
      end ++
      [SetAnalysisData None] ++
      updateSecWorkflowData None ++
      [RemoveItem "finscope_active_session"] ++
      updateSecWorkflowData
        (Some (mkSecWorkflowData (co_ticker company) (co_company_name company)
                 (Some filing))) ++
      [SetShowConflictDialog false; SetConflictData None;
       Navigate "/analysis" false]
  | _, _ => []
  end.

(** The conflict test of [handleStartAnalysis]:
    [existingTicker !== currentTicker || existingFilingId !== currentFilingId]
    under [analysisData && selectionMetadata]. *)
Definition conflict_detected (w : World) (company : Company) (filing : Filing) : bool :=
  match analysisData (ctx w), selectionMetadata (ctx w) with
  | Some _, Some sm =>
      let existingTicker := Some (sm_ticker sm) in
      let existingFilingId := accession_number <$> sm_selected_filing sm in
      negb (strict_eq existingTicker (Some (co_ticker company)))
      || negb (strict_eq existingFilingId (Some (accession_number filing)))
  | _, _ => false
  end.

(** [handleStartAnalysis]. *)
Definition handleStartAnalysis (r : HttpResult unit) (w : World) : list op :=
  match selectedCompany (sec w), selectedFiling (sec w) with
  | Some company, Some filing =>
      if conflict_detected w company filing then
        match selectionMetadata (ctx w) with
        | Some sm =>
            [SetConflictData
               (Some (mkConflictData (JS.or_else (sm_ticker sm) "another company")
                        (co_ticker company) (accession_number filing)));
             SetShowConflictDialog true]
        | None => []
        end
      else proceedWithNewAnalysis r w
  | _, _ => []
  end.

(** [handleResumeExistingAnalysis] and [handleResumeAnalysis]. *)
Definition handleResumeExistingAnalysis (w : World) : list op :=
  [SetShowConflictDialog false; SetConflictData None; Navigate "/analysis" false].

Definition handleResumeAnalysis (w : World) : list op :=
  [Navigate "/analysis" false].

End SECSearchPage.

(* ================================================================== *)
(** * AnalysisPage.jsx *)
(* ================================================================== *)

Module AnalysisPage.

(** [analysisData && analysisData.sessionId], as a condition. *)
Definition has_sessionId (a : option AnalysisData) : bool :=
  match a with Some d => JS.truthy (ad_sessionId d) | None => false end.

(** The three parts of [startAnalysis]: restoring an upload session,
    recovering an upload session from [uploadAnalysisData] or the
    location state, and the SEC workflow. *)
Inductive StartBranch := UploadRestore | UploadRecover | SecWorkflow.

Definition startAnalysis_branch (c : Context) : StartBranch :=
  if isUploadSourceType c && has_sessionId (analysisData c)
     && negb (JS.non_null (secWorkflowData c))
  then UploadRestore
  else if negb (JS.non_null (secWorkflowData c))
          && JS.non_null (uploadMetadata c)
          && negb (has_sessionId (analysisData c))
  then UploadRecover
  else SecWorkflow.

(** The news of a new SEC session: from the response when it carries an
    array, else from the session's history ([h]); a failure of that call
    is only warned about.  The result is [newNewsArticles] and the
    operations performed. *)
Definition news_of (data : StartAnalysisData) (h : HttpResult HistoryData)
  : list Article * list op :=
  match sa_newsArticles data with
  | Some l => (l, [SetNewsArticles l])
  | None =>
      match h with
      | HttpOk (inr hd) =>
          match hist_news_articles hd with
          | Some l => (l, [Fetch (ChatHistory (sa_sessionId data)); SetNewsArticles l])
          | None => ([], [Fetch (ChatHistory (sa_sessionId data))])
          end
      | _ => ([], [Fetch (ChatHistory (sa_sessionId data))])
      end
  end.

(** The SEC workflow of [startAnalysis] (from the comment
    [SEC workflow: Check if we have workflow data] on); [r] settles the
    start-analysis call, [h] the history call. *)
Definition startAnalysis_sec (r : HttpResult StartAnalysisData)
    (h : HttpResult HistoryData) (w : World) : list op :=
  match secWorkflowData (ctx w) with
  | Some (mkSecWorkflowData ticker company_name (Some selected_filing)) =>
      let cached :=
        match analysisData (ctx w), selectionMetadata (ctx w) with
        | Some a, Some sm =>
            Some (JS.truthy (ad_sessionId a)
                  && strict_eq (Some (sm_ticker sm)) (Some ticker)
                  && strict_eq (Some (accession_number selected_filing))
                       (accession_number <$> sm_selected_filing sm),
                  a)
        | _, _ => None
        end in
      match cached with
      | Some (true, a) =>
          [SetSessionId (ad_sessionId a);
           SetExecutiveSummary (ad_executiveSummary a);
           SetNewsArticles (ad_newsArticles a);
           SetChatMessages (ad_chatMessages a);
           SetCompanyInfo (Some (mkCompanyInfo ticker company_name selected_filing));
           SetLoading false]
      | _ =>
          match cached with Some _ => [SetAnalysisData None] | None => [] end ++
          try_catch
            ([SetLoading true; SetError None;
              Fetch (StartAnalysis ticker company_name
                       (accession_number selected_filing))] ++
             match read_json r with
             | inl m => [Throw m]
             | inr data =>
                 let news := news_of data h in
                 [SetSessionId (sa_sessionId data);
                  SetExecutiveSummary (JS.or_empty (sa_executiveSummary data));
                  SetCompanyInfo
                    (Some (mkCompanyInfo ticker company_name selected_filing))] ++
                 snd news ++
                 [SetAnalysisData
                    (Some (mkAnalysisData (sa_sessionId data)
                             (JS.or_empty (sa_executiveSummary data))
                             (fst news) [] None));
                  SetLoading false]
             end)
            (fun m => [ConsoleError "Failed to start analysis:";
                       SetError (Some m); SetLoading false])
      end
  | _ =>
      [SetError (Some "Missing workflow data. Please start from the company search page or upload page.");
       SetLoading false]
  end.

(** [startAnalysis]: the SEC workflow is modelled; on the two upload
    parts, which restore a session and never create one, the model is
    silent. *)
Definition startAnalysis (r : HttpResult StartAnalysisData)
    (h : HttpResult HistoryData) (w : World) : option (list op) :=
  match startAnalysis_branch (ctx w) with
  | SecWorkflow => Some (startAnalysis_sec r h w)
  | _ => None
  end.

(** [handleSendMessage]; [now1] and [now2] are the two timestamps, [r]
    settles the chat call. *)
Definition handleSendMessage (now1 now2 : string) (r : HttpResult ChatData)
    (w : World) : list op :=
  let p := ana w in
  if negb (JS.truthy (JS.trim (userInput p))) || negb (JS.truthy (sessionId p))
     || sendingMessage p
  then []
  else
    let messageText := JS.trim (userInput p) in
    let userMessage := mkMessage user messageText None false now1 in
    [SetUserInput ""; AppendChatMessage userMessage; SetSendingMessage true] ++
    try_catch
      (Fetch (Chat (sessionId p) messageText) ::
       match read_json r with
       | inl m => [Throw m]
       | inr data =>
           [AppendChatMessageSynced
              (mkMessage assistant (assistantResponse data)
                 (Some (JS.or_empty (chat_references data))) false now2)]
       end)
      (fun m => [ConsoleError "Failed to send message:";
                 AppendChatMessage
                   (mkMessage assistant ("Error: " +:+ m) None true now2)]) ++
    [SetSendingMessage false].

(** [handleEndSessionClick]. *)
Definition handleEndSessionClick (w : World) : list op :=
  if JS.truthy (sessionId (ana w)) then [SetShowEndSessionDialog true] else [].

(** [handleEndSessionConfirm]; [r] settles the end-session call. *)
Definition handleEndSessionConfirm (r : HttpResult unit) (w : World) : list op :=
  if negb (JS.truthy (sessionId (ana w))) then []
  else
    SetEndingSession true ::
    try_catch
      (Fetch (EndSession (sessionId (ana w))) ::
       match read_ok r with
       | Some m => [Throw m]
       | None =>
           (if isUploadSourceType (ctx w)
            then [SetUploadAnalysisData None; SetUploadMetadata None;
                  RemoveItem "finscope_upload_data";
                  RemoveItem "finscope_upload_meta"]
            else []) ++
           updateSecWorkflowData None ++
           [SetAnalysisData None;
            RemoveItem "finscope_active_session";
            Navigate "/" false]
       end)
      (fun m => [ConsoleError "Failed to end session:";
                 Alert ("Failed to end session: " +:+ m);
                 SetEndingSession false;
                 SetShowEndSessionDialog false]).

(** [displayChatMessages]: the transcript the page renders.  For an
    upload session it is the copy held in [analysisData]. *)
Definition displayChatMessages (w : World) : list Message :=
  match analysisData (ctx w) with
  | Some a =>
      if isUploadSourceType (ctx w) then ad_chatMessages a else chatMessages (ana w)
  | None => chatMessages (ana w)
  end.

(** The [disabled] attributes of the analysis page's controls. *)
Definition endSessionButton_disabled (p : AnaPage) : bool :=
  negb (JS.truthy (sessionId p)) || endingSession p.

Definition confirmEndButton_disabled (p : AnaPage) : bool := endingSession p.

Definition sendButton_disabled (p : AnaPage) : bool :=
  negb (JS.truthy (JS.trim (userInput p))) || sendingMessage p
  || negb (JS.truthy (sessionId p)).

End AnalysisPage.

(* ================================================================== *)
(** * UploadPage.jsx *)
(* ================================================================== *)

Module UploadPage.

(** [uploadAnalysisData && uploadAnalysisData.sessionId], as a condition. *)
Definition hasActiveAnalysis (c : Context) : bool :=
  match uploadAnalysisData c with
  | Some d => JS.truthy (ua_sessionId d)
  | None => false
  end.

(** [(m?.field || '').trim()]. *)
Definition trimmed (m : option UploadMeta) (field : UploadMeta -> option string) : string :=
  JS.trim (JS.or_empty (m ≫= field)).

(** [String(m?.year || '')]: a missing year and the year 0 both give
    the empty string. *)
Definition year_string (m : option UploadMeta) : string :=
  match m ≫= um_year with
  | Some y => if (y =? 0)%Z then "" else JS.Number_toString y
  | None => ""
  end.

(** [selectedUploadFile?.name || '']. *)
Definition currentFileName (c : Context) : string :=
  JS.or_empty (file_name <$> selectedUploadFile c).

(** [isDirty]. *)
Definition isDirty (w : World) : bool :=
  let c := ctx w in
  if negb (hasActiveAnalysis c) || negb (isUploadSourceType c) then false
  else
    match submittedMetadata (upl w) with
    | None => false
    | Some submitted =>
        let metadataMatches :=
          String.eqb (trimmed (uploadMetadata c) um_companyName)
                     (trimmed (Some submitted) um_companyName)
          && String.eqb (trimmed (uploadMetadata c) um_docTitle)
                        (trimmed (Some submitted) um_docTitle)
          && String.eqb (trimmed (uploadMetadata c) um_docType)
                        (trimmed (Some submitted) um_docType)
          && String.eqb (year_string (uploadMetadata c))
                        (year_string (Some submitted)) in
        let fileNameMatches :=
          String.eqb (currentFileName c)
                     (JS.or_empty (submittedFileName (upl w))) in
        negb (metadataMatches && fileNameMatches)
    end.

Inductive ButtonText := StartAnalysisText | ResumeAnalysisText | StartNewAnalysisText.

(** [buttonText]. *)
Definition buttonText (w : World) : ButtonText :=
  if hasActiveAnalysis (ctx w)
  then (if isDirty w then StartNewAnalysisText else ResumeAnalysisText)
  else StartAnalysisText.

(** What the page renders: the loading screen replaces the whole form
    while [isLoading]. *)
Inductive UploadView :=
| LoadingScreen
| UploadForm (button : ButtonText) (replaceModalOpen : bool).

Definition UploadPage_view (w : World) : UploadView :=
  if isLoading (upl w) then LoadingScreen
  else UploadForm (buttonText w) (showReplaceModal (upl w)).

(** [{ ...uploadMetadata }]: the copy of a missing object has no field. *)
Definition spread (m : option UploadMeta) : UploadMeta :=
  default (mkUploadMeta None None None None) m.

(** The effect that records the submitted form of an active analysis. *)
Definition sync_submitted (w : World) : list op :=
  let c := ctx w in
  if hasActiveAnalysis c && isUploadSourceType c then
    match uploadAnalysisData c ≫= ua_submittedMetadata with
    | Some m =>
        [SetSubmittedMetadata (Some m);
         SetSubmittedFileName
           (Some (JS.or_empty (uploadAnalysisData c ≫= ua_submittedFileName)))]
    | None =>
        if JS.non_null (uploadMetadata c) && negb (JS.non_null (submittedMetadata (upl w)))
        then [SetSubmittedMetadata (Some (spread (uploadMetadata c)));
              SetSubmittedFileName (Some (currentFileName c))]
        else []
    end
  else [SetSubmittedMetadata None; SetSubmittedFileName None].

(** The effect that runs once when the page mounts: without an active
    upload analysis the form is cleared. *)
Definition clear_on_mount (w : World) : list op :=
  let c := ctx w in
  if negb (hasActiveAnalysis c) || negb (isUploadSourceType c)
  then [SetUploadMetadata None; SetSelectedUploadFile None;
        SetSubmittedMetadata None; SetSubmittedFileName None]
  else [].

(** Mounting the page: its local state starts afresh, then the two
    effects run. *)
Definition mount (w : World) : World :=
  let w0 := with_upl w (mkUplPage None None false None false "") in
  let w1 := run (clear_on_mount w0) w0 in
  run (sync_submitted w1) w1.

Definition allowedExtensions : list string := [".pdf"; ".txt"].

(** [maxSize = 10 * 1024 * 1024]. *)
Definition maxSize : N := 10 * 1024 * 1024.

(** [fileName.substring(fileName.lastIndexOf('.'))] of the lower-cased
    name. *)
Definition fileExtension (name : string) : string :=
  let fileName := JS.toLowerCase name in
  JS.substring (JS.lastIndexOf "."%char fileName) fileName.

(** [handleFileSelect]. *)
Definition handleFileSelect (file : option File) : list op :=
  match file with
  | None => []
  | Some f =>
      SetFileError None ::
      if negb (JS.includes allowedExtensions (fileExtension (file_name f))) then
        [SetFileError (Some "Invalid file type. Please select a PDF or TXT file.");
         SetSelectedUploadFile None;
         ClearFileInput]
      else if (maxSize <? file_size f)%N then
        [SetFileError
           (Some ("File size (" +:+ JS.size_MB_toFixed2 (file_size f)
                  +:+ " MB) exceeds the 10MB limit. Please select a smaller file."));
         SetSelectedUploadFile None;
         ClearFileInput]
      else [SetSelectedUploadFile (Some f)]
  end.

(** The body of [/api/upload-analysis]. *)
Record UploadResponse := mkUploadResponse {
  ur_sessionId : string;
  ur_executiveSummary : option string;
  ur_newsArticles : option (list Article)
}.

(** An optional form field: appended when truthy. *)
Definition form_field (x : option string) : option string :=
  match x with
  | Some s => if JS.truthy s then Some s else None
  | None => None
  end.

(** [handleStartAnalysis] of the upload page; [r] settles the upload
    call. *)
Definition handleStartAnalysis (r : HttpResult UploadResponse)
    (w : World) : list op :=
  let c := ctx w in
  match selectedUploadFile c with
  | None => [SetFileError (Some "Please select a file to upload.")]
  | Some file =>
      let companyName := trimmed (uploadMetadata c) um_companyName in
      if negb (JS.truthy companyName) then [Alert "Please enter a company name."]
      else
        [SetIsLoading true; SetAnalysisLoading true] ++
        try_catch
          (Fetch (UploadAnalysis file companyName
                    (form_field (uploadMetadata c ≫= um_docTitle))
                    (form_field (uploadMetadata c ≫= um_docType))
                    (form_field (Some (year_string (uploadMetadata c))))) ::
           match read_json r with
           | inl m => [Throw m]
           | inr data =>
               [SetUploadAnalysisData
                  (Some (mkUploadAnalysisData (ur_sessionId data)
                           (JS.or_empty (ur_executiveSummary data))
                           (default [] (ur_newsArticles data))
                           (Some (spread (uploadMetadata c)))
                           (Some (file_name file))));
                SetAnalysisData
                  (Some (mkAnalysisData (ur_sessionId data)
                           (JS.or_empty (ur_executiveSummary data))
                           (default [] (ur_newsArticles data))
                           [] (Some "upload")));
                SetSubmittedMetadata (Some (spread (uploadMetadata c)));
                SetSubmittedFileName (Some (file_name file));
                Navigate "/analysis" true]
           end)
          (fun m => [ConsoleError "Failed to start upload analysis:";
                     SetIsLoading false]) ++
        [SetAnalysisLoading false]
  end.

(** [handleProceedWithNew]: the primary action of the Replace Session
    modal. *)
Definition handleProceedWithNew (r : HttpResult UploadResponse) (w : World) : list op :=
  [SetUploadAnalysisData None; SetSelectedUploadFile None;
   RemoveItem "finscope_upload_data"] ++
  (if isUploadSourceType (ctx w) then [SetAnalysisData None] else []) ++
  [SetSubmittedMetadata None; SetSubmittedFileName None;
   SetShowReplaceModal false] ++
  handleStartAnalysis r w.

(** [handleResumeCurrent]. *)
Definition handleResumeCurrent (w : World) : list op :=
  [SetShowReplaceModal false; Navigate "/analysis" false].

(** [handleButtonClick]. *)
Definition handleButtonClick (r : HttpResult UploadResponse) (w : World) : list op :=
  match buttonText w with
  | ResumeAnalysisText => [Navigate "/analysis" false]
  | StartNewAnalysisText => [SetShowReplaceModal true]
  | StartAnalysisText => handleStartAnalysis r w
  end.

End UploadPage.

(* ================================================================== *)
(** * Further state and operations *)
(* ================================================================== *)

(** The handlers below read and write state that the session logic
    above does not: the rest of the search page's local state, the
    upload page's back-warning modal, and the form fields one at a
    time.  [XWorld] adds that state to [World], [xop] the operations
    on it to [op]. *)

(** [GET /api/get-filings?ticker=...]. *)
Inductive XRequest := GetFilings (ticker : string).

(** An edit of one form field, as [handleInputChange(field, value)]
    receives it; the year arrives as [parseInt(value)] or ['']. *)
Inductive FieldEdit :=
| EditCompanyName (value : string)
| EditDocTitle (value : string)
| EditDocType (value : string)
| EditYear (value : option Z).

(** [companyInfo] as the upload branches of the analysis page set it. *)
Record UploadCompanyInfo := mkUploadCompanyInfo {
  uci_companyName : string;
  uci_docTitle : string;
  uci_docType : string
}.

Record Extra := mkExtra {
  searchQuery : string;
  loadingFilings : bool;
  showBackWarningDialog : bool;
  hasRestoredFromContext : bool;
  showBackWarningModal : bool;
  uploadCompanyInfo : option UploadCompanyInfo;
  xrequests : list XRequest;
  warnings : list string
}.

Record XWorld := mkXWorld {
  base : World;
  extra : Extra
}.

Inductive xop :=
| Base (o : op)
(* SECSearchPage *)
| SetSelectedCompany (c : option Company)
| SetSearchQuery (q : string)
| SetFilings (l : list Filing)
| SetSelectedFiling (f : option Filing)
| SetLoadingFilings (b : bool)
| SetShowBackWarningDialog (b : bool)
| SetHasRestoredFromContext (b : bool)
(* UploadPage *)
| SetShowBackWarningModal (b : bool)
| EditUploadMetadata (e : FieldEdit)
(* AnalysisPage, upload branches *)
| SetUploadCompanyInfo (c : option UploadCompanyInfo)
| SyncChatMessages (msgs : list Message)
(* the outside *)
| XFetch (r : XRequest)
| ConsoleWarn (m : string).

(** [{ ...(prev || {}), [field]: value }]. *)
Definition apply_edit (e : FieldEdit) (prev : option UploadMeta) : UploadMeta :=
  let m := UploadPage.spread prev in
  match e with
  | EditCompanyName v =>
      mkUploadMeta (Some v) (um_docTitle m) (um_docType m) (um_year m)
  | EditDocTitle v =>
      mkUploadMeta (um_companyName m) (Some v) (um_docType m) (um_year m)
  | EditDocType v =>
      mkUploadMeta (um_companyName m) (um_docTitle m) (Some v) (um_year m)
  | EditYear v =>
      mkUploadMeta (um_companyName m) (um_docTitle m) (um_docType m) v
  end.

Definition xstep_sec (o : xop) (p : SecPage) : SecPage :=
  match o with
  | SetSelectedCompany c =>
      mkSecPage c (filings p) (selectedFiling p) (showConflictDialog p)
        (conflictData p)
  | SetFilings l =>
      mkSecPage (selectedCompany p) l (selectedFiling p) (showConflictDialog p)
        (conflictData p)
  | SetSelectedFiling f =>
      mkSecPage (selectedCompany p) (filings p) f (showConflictDialog p)
        (conflictData p)
  | _ => p
  end.

Definition xstep_extra (o : xop) (e : Extra) : Extra :=
  match o with
  | SetSearchQuery q =>
      mkExtra q (loadingFilings e) (showBackWarningDialog e)
        (hasRestoredFromContext e) (showBackWarningModal e)
        (uploadCompanyInfo e) (xrequests e) (warnings e)
  | SetLoadingFilings b =>
      mkExtra (searchQuery e) b (showBackWarningDialog e)
        (hasRestoredFromContext e) (showBackWarningModal e)
        (uploadCompanyInfo e) (xrequests e) (warnings e)
  | SetShowBackWarningDialog b =>
      mkExtra (searchQuery e) (loadingFilings e) b
        (hasRestoredFromContext e) (showBackWarningModal e)
        (uploadCompanyInfo e) (xrequests e) (warnings e)
  | SetHasRestoredFromContext b =>
      mkExtra (searchQuery e) (loadingFilings e) (showBackWarningDialog e)
        b (showBackWarningModal e) (uploadCompanyInfo e) (xrequests e)
        (warnings e)
  | SetShowBackWarningModal b =>
      mkExtra (searchQuery e) (loadingFilings e) (showBackWarningDialog e)
        (hasRestoredFromContext e) b (uploadCompanyInfo e) (xrequests e)
        (warnings e)
  | SetUploadCompanyInfo c =>
      mkExtra (searchQuery e) (loadingFilings e) (showBackWarningDialog e)
        (hasRestoredFromContext e) (showBackWarningModal e) c (xrequests e)
        (warnings e)
  | XFetch r =>
      mkExtra (searchQuery e) (loadingFilings e) (showBackWarningDialog e)
        (hasRestoredFromContext e) (showBackWarningModal e)
        (uploadCompanyInfo e) (xrequests e ++ [r]) (warnings e)
  | ConsoleWarn m =>
      mkExtra (searchQuery e) (loadingFilings e) (showBackWarningDialog e)
        (hasRestoredFromContext e) (showBackWarningModal e)
        (uploadCompanyInfo e) (xrequests e) (warnings e ++ [m])
  | _ => e
  end.

(** One operation on the extended state.  [EditUploadMetadata] and
    [SyncChatMessages] are the functional updates
    [setUploadMetadata(prev => ...)] and [setAnalysisData(prevData => ...)]:
    they read the state at the time they are applied. *)
Definition xstep (o : xop) (x : XWorld) : XWorld :=
  match o with
  | Base o' => mkXWorld (step o' (base x)) (extra x)
  | EditUploadMetadata e =>
      mkXWorld
        (step (SetUploadMetadata (Some (apply_edit e (uploadMetadata (ctx (base x))))))
           (base x))
        (extra x)
  | SyncChatMessages msgs =>
      mkXWorld
        (step (SetAnalysisData (sync_chat msgs (analysisData (ctx (base x)))))
           (base x))
        (extra x)
  | _ =>
      mkXWorld (with_sec (base x) (xstep_sec o (sec (base x))))
        (xstep_extra o (extra x))
  end.

(** A handler's operations on the extended state, with the rule of [run]
    for an uncaught exception. *)
Fixpoint xrun (ops : list xop) (x : XWorld) : XWorld :=
  match ops with
  | [] => x
  | Base (Throw m) :: _ => mkXWorld (with_uncaught (base x) m) (extra x)
  | o :: rest => xrun rest (xstep o x)
  end.

Definition xfire (handler : XWorld -> list xop) (x : XWorld) : XWorld :=
  xrun (handler x) x.

(** The operations of [op], as operations on the extended state. *)
Definition lift (ops : list op) : list xop := map Base ops.

(** The sequence
    [if (!response.ok) throw new Error(`HTTP error! status: ${status}`);
     const data = await response.json()]
    where the body of a failed response is not read. *)
Definition read_status {B} (r : HttpResult B) : string + B :=
  match r with
  | NetworkFailure m => inl m
  | HttpError st _ => inl ("HTTP error! status: " +:+ pretty st)
  | HttpOk d => d
  end.

(* ================================================================== *)
(** * SECSearchPage.jsx: the rest of the handlers *)
(* ================================================================== *)

Module SECSearchPage2.

(** [handleFetchFilingsForCompany(ticker, restoreFiling = null)]; [r]
    settles the get-filings call. *)
Definition handleFetchFilingsForCompany (ticker : string)
    (restoreFiling : option Filing) (r : HttpResult (list Filing)) : list xop :=
  if negb (JS.truthy ticker) then []
  else
    [SetLoadingFilings true; XFetch (GetFilings ticker)] ++
    match read_status r with
    | inl m =>
        [Base (ConsoleError "Failed to fetch filings:");
         Base (Alert ("Failed to fetch filings: " +:+ m))]
    | inr data =>
        SetFilings data ::
        match restoreFiling with
        | Some rf =>
            match List.find
                    (fun f => String.eqb (accession_number f) (accession_number rf))
                    data with
            | Some filingToSelect => [SetSelectedFiling (Some filingToSelect)]
            | None => [SetSelectedFiling (Some rf)]
            end
        | None => []
        end
    end ++
    [SetLoadingFilings false].

(** The effect that restores the selection from the context, once. *)
Definition restore_from_context (r : HttpResult (list Filing)) (x : XWorld) : list xop :=
  match secWorkflowData (ctx (base x)) with
  | Some wf =>
      if negb (hasRestoredFromContext (extra x)) then
        SetHasRestoredFromContext true ::
        if JS.truthy (wf_company_name wf) && JS.truthy (wf_ticker wf) then
          [SetSelectedCompany (Some (mkCompany (wf_company_name wf) (wf_ticker wf)));
           SetSearchQuery (wf_company_name wf +:+ " (" +:+ wf_ticker wf +:+ ")")] ++
          handleFetchFilingsForCompany (wf_ticker wf) (wf_selected_filing wf) r
        else []
      else []
  | None => []
  end.

(** [hasActiveSession] of [handleBackClick]. *)
Definition hasActiveSession (x : XWorld) : bool :=
  let w := base x in
  JS.non_null (selectedCompany (sec w)) || JS.non_null (selectedFiling (sec w))
  || JS.non_null (analysisData (ctx w))
  || JS.non_null (secWorkflowData (ctx w))
  || JS.non_null (selectionMetadata (ctx w)).

(** [handleBackClick]. *)
Definition handleBackClick (x : XWorld) : list xop :=
  if hasActiveSession x then [SetShowBackWarningDialog true]
  else [Base (Navigate "/" false)].

(** [handleBackConfirm]; [r] settles the end-session call. *)
Definition handleBackConfirm (r : HttpResult unit) (x : XWorld) : list xop :=
  match analysisData (ctx (base x)) with
  | Some a =>
      if JS.truthy (ad_sessionId a)
      then lift (SECSearchPage.end_old_session (ad_sessionId a) r)
      else []
  | None => []
  end ++
  [SetSelectedCompany None; SetSearchQuery ""; SetFilings [];
   SetSelectedFiling None] ++
  lift (updateSecWorkflowData None) ++
  [Base (SetAnalysisData None);
   Base (RemoveItem "finscope_active_session");
   SetShowBackWarningDialog false;
   Base (Navigate "/" false)].

(** [handleBackCancel]. *)
Definition handleBackCancel (x : XWorld) : list xop :=
  [SetShowBackWarningDialog false].

End SECSearchPage2.

(* ================================================================== *)
(** * UploadPage.jsx: the rest of the handlers *)
(* ================================================================== *)

Module UploadPage2.

(** [hasActiveSession]. *)
Definition hasActiveSession (w : World) : bool :=
  let c := ctx w in
  let hasAnalysis := UploadPage.hasActiveAnalysis c in
  let hasMetadata :=
    match uploadMetadata c with
    | Some m =>
        JS.truthy (JS.or_empty (um_companyName m))
        || JS.truthy (JS.or_empty (um_docTitle m))
        || JS.truthy (JS.or_empty (um_docType m))
        || match um_year m with Some y => negb (y =? 0)%Z | None => false end
    | None => false
    end in
  let hasFile := JS.non_null (selectedUploadFile c) in
  hasAnalysis || hasMetadata || hasFile.

(** [handleBackClick]. *)
Definition handleBackClick (x : XWorld) : list xop :=
  if hasActiveSession (base x) then [SetShowBackWarningModal true]
  else [Base (Navigate "/" false)].

(** [handleBackCancel]. *)
Definition handleBackCancel (x : XWorld) : list xop :=
  [SetShowBackWarningModal false].

(** [handleBackProceed]. *)
Definition handleBackProceed (x : XWorld) : list xop :=
  lift [SetUploadAnalysisData None; SetUploadMetadata None;
        SetSelectedUploadFile None; SetSubmittedMetadata None;
        SetSubmittedFileName None;
        RemoveItem "finscope_upload_data"; RemoveItem "finscope_upload_meta"] ++
  (if isUploadSourceType (ctx (base x)) then [Base (SetAnalysisData None)] else []) ++
  [SetShowBackWarningModal false; Base (Navigate "/" false)].

(** [handleInputChange]. *)
Definition handleInputChange (e : FieldEdit) : list xop := [EditUploadMetadata e].

(** [handleRemoveFile]. *)
Definition handleRemoveFile : list op :=
  [SetSelectedUploadFile None; SetFileError None; ClearFileInput].

(** [handleDrop] and [handleFileInputChange]: the first of the files,
    when there is one, goes to [handleFileSelect]. *)
Definition handleFileInputChange (files : list File) : list op :=
  match files with
  | f :: _ => UploadPage.handleFileSelect (Some f)
  | [] => []
  end.

End UploadPage2.

(* ================================================================== *)
(** * AnalysisPage.jsx: the rest of the page *)
(* ================================================================== *)

Module AnalysisPage2.

(** [toggleReferences], as the update of [expandedReferences]. *)
Definition toggleReferences (messageIndex : nat) (prev : gset nat) : gset nat :=
  if decide (messageIndex ∈ prev) then prev ∖ {[messageIndex]}
  else prev ∪ {[messageIndex]}.

Definition secLoadingTeasers : list string :=
  ["Fetching SEC Filings: Accessing the EDGAR database for the latest reports...";
   "RAG Initialization: Building a searchable vector index of the document...";
   "AI Synthesis: Gemini is generating your executive summary...";
   "Market Context: Gathering real-time news for broader perspective..."].

Definition uploadLoadingTeasers : list string :=
  ["Processing your local document...";
   "Gemini is reading your PDF/TXT...";
   "RAG Initialization: Building a searchable vector index of the document...";
   "AI Synthesis: Gemini is generating your executive summary...";
   "Market Context: Gathering real-time news for broader perspective..."].

(** [isUploadWorkflow] of the component body. *)
Definition isUploadWorkflow (c : Context) : bool :=
  negb (JS.non_null (secWorkflowData c))
  || isUploadSourceType c
  || UploadPage.hasActiveAnalysis c.

Definition loadingTeasers (c : Context) : list string :=
  if isUploadWorkflow c then uploadLoadingTeasers else secLoadingTeasers.

(** One tick of the rotation:
    [setLoadingTeaser(prev => (prev + 1) % loadingTeasers.length)]. *)
Definition next_teaser (c : Context) (prev : nat) : nat :=
  ((prev + 1) mod length (loadingTeasers c))%nat.

(** [loadingTeasers[loadingTeaser]]. *)
Definition teaser_shown (c : Context) (loadingTeaser : nat) : option string :=
  loadingTeasers c !! loadingTeaser.

(** The body of [/api/history/chat/:sessionId], as far as the page reads
    it. *)
Record HistoryMetadata := mkHistoryMetadata {
  hm_company : option string;
  hm_doc_title : option string;
  hm_doc_type : option string;
  hm_executive_summary : option string;
  hm_news_articles : option (list Article)
}.

Record BackendMessage := mkBackendMessage {
  bm_role : option Role;
  bm_sender : option string;
  bm_content : option string;
  bm_message : option string;
  bm_references : option string;
  bm_timestamp : option string
}.

Record ChatHistoryData := mkChatHistoryData {
  ch_metadata : option HistoryMetadata;
  ch_messages : option (list BackendMessage)
}.

(** [historyData.metadata || {}]. *)
Definition metadata_of (hd : ChatHistoryData) : HistoryMetadata :=
  default (mkHistoryMetadata None None None None None) (ch_metadata hd).

(** The conversion of a backend message; [now] is [new Date().toISOString()]. *)
Definition format_message (now : string) (msg : BackendMessage) : Message :=
  mkMessage
    (match bm_role msg with
     | Some r => r
     | None => if bool_decide (bm_sender msg = Some "user") then user else assistant
     end)
    (JS.or_else (JS.or_empty (bm_content msg)) (JS.or_empty (bm_message msg)))
    (Some (JS.or_empty (bm_references msg)))
    false
    (JS.or_else (JS.or_empty (bm_timestamp msg)) now).

(** [{ companyName: m.companyName || 'Unknown Company', ... }]. *)
Definition companyInfo_of (companyName docTitle docType : string) : UploadCompanyInfo :=
  mkUploadCompanyInfo (JS.or_else companyName "Unknown Company") docTitle
    (JS.or_else docType "Local Upload").

Definition default_companyInfo : UploadCompanyInfo :=
  mkUploadCompanyInfo "Unknown Company" "" "Local Upload".

(** The first part of [startAnalysis]: an upload session is in
    [analysisData] ([a]) and is put back on the page.  [isFreshUpload] is
    [location.state && location.state.isUpload]; [h1] settles the call
    for the metadata, [h2] the call for the transcript, which is not
    awaited: its continuation runs after the rest.  The [setTimeout] of a
    fresh upload ends the loading screen two seconds later. *)
Definition startAnalysis_uploadRestore (isFreshUpload : bool) (now : string)
    (h1 h2 : HttpResult ChatHistoryData) (a : AnalysisData) (x : XWorld) : list xop :=
  let c := ctx (base x) in
  (* the session *)
  lift
    (match uploadAnalysisData c with
     | Some ua =>
         if JS.truthy (ua_sessionId ua) then
           [SetSessionId (ua_sessionId ua);
            SetExecutiveSummary
              (JS.or_else (ua_executiveSummary ua) (ad_executiveSummary a));
            SetNewsArticles (ua_newsArticles ua);
            SetChatMessages (ad_chatMessages a)]
         else
           [SetSessionId (ad_sessionId a);
            SetExecutiveSummary (ad_executiveSummary a);
            SetNewsArticles (ad_newsArticles a);
            SetChatMessages (ad_chatMessages a)]
     | None =>
         [SetSessionId (ad_sessionId a);
          SetExecutiveSummary (ad_executiveSummary a);
          SetNewsArticles (ad_newsArticles a);
          SetChatMessages (ad_chatMessages a)]
     end) ++
  (* the company *)
  (if JS.truthy (JS.or_empty (uploadMetadata c ≫= um_companyName)) then
     [SetUploadCompanyInfo
        (Some (companyInfo_of
                 (JS.or_empty (uploadMetadata c ≫= um_companyName))
                 (JS.or_empty (uploadMetadata c ≫= um_docTitle))
                 (JS.or_empty (uploadMetadata c ≫= um_docType))))]
   else
     Base (Fetch (ChatHistory (ad_sessionId a))) ::
     match h1 with
     | NetworkFailure _ | HttpOk (inl _) =>
         [ConsoleWarn "Could not fetch metadata on refresh:";
          SetUploadCompanyInfo (Some default_companyInfo)]
     | HttpError _ _ => [SetUploadCompanyInfo (Some default_companyInfo)]
     | HttpOk (inr hd) =>
         let metadata := metadata_of hd in
         [SetUploadCompanyInfo
            (Some (companyInfo_of (JS.or_empty (hm_company metadata))
                     (JS.or_empty (hm_doc_title metadata))
                     (JS.or_empty (hm_doc_type metadata))))]
     end) ++
  (* the transcript *)
  let refetch :=
    negb isFreshUpload && bool_decide (ad_chatMessages a = []) in
  (if refetch then [Base (Fetch (ChatHistory (ad_sessionId a)))] else []) ++
  (if isFreshUpload then [] else [Base (SetLoading false)]) ++
  (if refetch then
     match h2 with
     | NetworkFailure _ | HttpOk (inl _) =>
         [ConsoleWarn "Could not fetch chat history on refresh:"]
     | HttpError _ _ => []
     | HttpOk (inr hd) =>
         match ch_messages hd with
         | Some messages =>
             let formattedMessages := map (format_message now) messages in
             if bool_decide (formattedMessages = []) then []
             else [Base (SetChatMessages formattedMessages);
                   SyncChatMessages formattedMessages]
         | None => []
         end
     end
   else []) ++
  (if isFreshUpload then [Base (SetLoading false)] else []).

(** The second part: the form of an upload ([m]) is there but no session
    in [analysisData].  [location_sessionId] is
    [location.state.sessionId]; [h] settles the history call. *)
Definition startAnalysis_uploadRecover (location_sessionId : option string)
    (h : HttpResult ChatHistoryData) (m : UploadMeta) (x : XWorld) : list xop :=
  let not_found :=
    lift [SetError (Some "Analysis data not found. Please try uploading again.");
          SetLoading false] in
  let from_location :=
    Base (SetLoading true) ::
    match location_sessionId with
    | Some lsid =>
        if JS.truthy lsid then
          Base (Fetch (ChatHistory lsid)) ::
          match h with
          | NetworkFailure _ | HttpOk (inl _) =>
              lift [ConsoleError "Failed to fetch upload analysis:";
                    SetError (Some "Failed to load analysis. Please try again.");
                    SetLoading false]
          | HttpError _ _ => not_found
          | HttpOk (inr hd) =>
              let metadata := metadata_of hd in
              [Base (SetSessionId lsid);
               Base (SetExecutiveSummary (JS.or_empty (hm_executive_summary metadata)));
               Base (SetNewsArticles (default [] (hm_news_articles metadata)));
               SetUploadCompanyInfo
                 (Some (mkUploadCompanyInfo
                          (JS.or_else (JS.or_empty (um_companyName m))
                             (JS.or_else (JS.or_empty (hm_company metadata))
                                "Unknown Company"))
                          (JS.or_else (JS.or_empty (um_docTitle m))
                             (JS.or_empty (hm_doc_title metadata)))
                          (JS.or_else (JS.or_empty (um_docType m))
                             (JS.or_else (JS.or_empty (hm_doc_type metadata))
                                "Local Upload"))));
               Base (SetAnalysisData
                       (Some (mkAnalysisData lsid
                                (JS.or_empty (hm_executive_summary metadata))
                                (default [] (hm_news_articles metadata))
                                [] (Some "upload"))));
               Base (SetLoading false)]
          end
        else not_found
    | None => not_found
    end in
  match uploadAnalysisData (ctx (base x)) with
  | Some ua =>
      if JS.truthy (ua_sessionId ua) then
        [Base (SetLoading true);
         Base (SetSessionId (ua_sessionId ua));
         Base (SetExecutiveSummary (ua_executiveSummary ua));
         Base (SetNewsArticles (ua_newsArticles ua));
         SetUploadCompanyInfo
           (Some (companyInfo_of (JS.or_empty (um_companyName m))
                    (JS.or_empty (um_docTitle m)) (JS.or_empty (um_docType m))));
         Base (SetAnalysisData
                 (Some (mkAnalysisData (ua_sessionId ua) (ua_executiveSummary ua)
                          (ua_newsArticles ua) [] (Some "upload"))));
         Base (SetLoading false)]
      else from_location
  | None => from_location
  end.

(** What settles the calls of one run of [startAnalysis], and what the
    run reads of the location and the clock. *)
Record StartInputs := mkStartInputs {
  in_isFreshUpload : bool;
  in_location_sessionId : option string;
  in_now : string;
  in_start : HttpResult StartAnalysisData;
  in_news : HttpResult HistoryData;
  in_history : HttpResult ChatHistoryData;
  in_transcript : HttpResult ChatHistoryData
}.

(** [startAnalysis], all three parts. *)
Definition startAnalysis (i : StartInputs) (x : XWorld) : list xop :=
  let c := ctx (base x) in
  match AnalysisPage.startAnalysis_branch c with
  | AnalysisPage.UploadRestore =>
      match analysisData c with
      | Some a =>
          startAnalysis_uploadRestore (in_isFreshUpload i) (in_now i)
            (in_history i) (in_transcript i) a x
      | None => []
      end
  | AnalysisPage.UploadRecover =>
      match uploadMetadata c with
      | Some m =>
          startAnalysis_uploadRecover (in_location_sessionId i) (in_history i) m x
      | None => []
      end
  | AnalysisPage.SecWorkflow =>
      lift (AnalysisPage.startAnalysis_sec (in_start i) (in_news i) (base x))
  end.

(** [handleEndSessionCancel]. *)
Definition handleEndSessionCancel : list op := [SetShowEndSessionDialog false].

End AnalysisPage2.

(* ================================================================== *)
(** * LandingPage.jsx: the history of past analyses *)
(* ================================================================== *)

Module JS2.

(** [s.startsWith(p)]. *)
Fixpoint startsWith (s p : string) : bool :=
  match p, s with
  | EmptyString, _ => true
  | String a p', String b s' => Ascii.eqb a b && startsWith s' p'
  | String _ _, EmptyString => false
  end.

(** [s.includes(sub)] on strings: [sub] occurs in [s]. *)
Fixpoint includes (s sub : string) : bool :=
  startsWith s sub ||
  match s with
  | EmptyString => false
  | String _ s' => includes s' sub
  end.

(** [Array.prototype.sort] with a consistent comparator: the sort is
    stable, so its result is the one of an insertion sort; [le a b] is
    [compare(a, b) <= 0]. *)
Fixpoint insert_by {A} (le : A -> A -> bool) (a : A) (l : list A) : list A :=
  match l with
  | [] => [a]
  | b :: l' => if le a b then a :: l else b :: insert_by le a l'
  end.

Definition sort_by {A} (le : A -> A -> bool) (l : list A) : list A :=
  foldr (insert_by le) [] l.

End JS2.

Module LandingPage.

(** An entry of [/api/history/recent], as far as the list logic reads
    it. *)
Record HistoryItem := mkHistoryItem {
  session_id : string;
  company_name : option string;
  type : string;
  timestamp : option string
}.

(** The state of the page and what it has done to the outside: the
    DELETE calls issued and the alerts shown. *)
Record Page := mkPage {
  history : list HistoryItem;
  loading : bool;
  error : option string;
  showOlder : bool;
  deletingId : option string;
  showDeleteDialog : bool;
  sessionToDelete : option string;
  sortOrder : string;
  filterCompany : string;
  filterType : string;
  deleteCalls : list string;
  alerted : list string
}.

Section History.

(** [new Date(timestamp).getTime()] of a timestamp the backend wrote. *)
Variable getTime : string -> Z.

(** [item.timestamp ? new Date(item.timestamp).getTime() : 0]. *)
Definition date (item : HistoryItem) : Z :=
  match timestamp item with
  | Some t => if JS.truthy t then getTime t else 0
  | None => 0
  end.

(** [item.company_name?.toLowerCase().includes(filterCompany.toLowerCase())]. *)
Definition company_matches (filterCompany : string) (item : HistoryItem) : bool :=
  match company_name item with
  | Some n => JS2.includes (JS.toLowerCase n) (JS.toLowerCase filterCompany)
  | None => false
  end.

(** The comparator of the sort, as [compare(a, b) <= 0]. *)
Definition before (sortOrder : string) (a b : HistoryItem) : bool :=
  if String.eqb sortOrder "newest" then (date b - date a <=? 0)
  else (date a - date b <=? 0).

(** [filteredAndSortedHistory]. *)
Definition filteredAndSortedHistory (p : Page) : list HistoryItem :=
  let filtered := history p in
  let filtered :=
    if JS.truthy (filterCompany p)
    then List.filter (company_matches (filterCompany p)) filtered
    else filtered in
  let filtered :=
    if negb (String.eqb (filterType p) "all")
    then List.filter (fun item => String.eqb (type item) (filterType p)) filtered
    else filtered in
  JS2.sort_by (before (sortOrder p)) filtered.

(** [displayedHistory]. *)
Definition displayedHistory (p : Page) : list HistoryItem :=
  if showOlder p then filteredAndSortedHistory p
  else take 5 (filteredAndSortedHistory p).

(** [hasMoreChats]. *)
Definition hasMoreChats (p : Page) : bool :=
  (5 <? length (filteredAndSortedHistory p))%nat.

End History.

(** [handleDeleteClick]. *)
Definition handleDeleteClick (sessionId : string) (p : Page) : Page :=
  mkPage (history p) (loading p) (error p) (showOlder p) (deletingId p)
    true (Some sessionId) (sortOrder p) (filterCompany p) (filterType p)
    (deleteCalls p) (alerted p).

(** [handleDeleteCancel]. *)
Definition handleDeleteCancel (p : Page) : Page :=
  mkPage (history p) (loading p) (error p) (showOlder p) (deletingId p)
    false None (sortOrder p) (filterCompany p) (filterType p)
    (deleteCalls p) (alerted p).

(** The message of a refused DELETE:
    [errorData.detail || `HTTP error! status: ${response.status}`], where
    a body that is not JSON counts as [{ detail: 'Failed to delete chat' }]. *)
Definition delete_error (r : HttpResult unit) : option string :=
  match r with
  | NetworkFailure m => Some m
  | HttpError st (inl _) => Some "Failed to delete chat"
  | HttpError st (inr detail) =>
      Some (JS.or_else (JS.or_empty detail) ("HTTP error! status: " +:+ pretty st))
  | HttpOk _ => None
  end.

(** [handleDeleteConfirm]; [r] settles the DELETE call. *)
Definition handleDeleteConfirm (r : HttpResult unit) (p : Page) : Page :=
  match sessionToDelete p with
  | None => p
  | Some id =>
      if negb (JS.truthy id) then p
      else
        match delete_error r with
        | None =>
            mkPage
              (List.filter (fun item => negb (String.eqb (session_id item) id))
                 (history p))
              (loading p) (error p) (showOlder p) None false None
              (sortOrder p) (filterCompany p) (filterType p)
              (deleteCalls p ++ [id]) (alerted p)
        | Some m =>
            mkPage (history p) (loading p) (error p) (showOlder p) None
              (showDeleteDialog p) (sessionToDelete p)
              (sortOrder p) (filterCompany p) (filterType p)
              (deleteCalls p ++ [id])
              (alerted p ++ ["Failed to delete chat: " +:+ m])
        end
  end.

(** The page while the DELETE call of [handleDeleteConfirm] is in
    flight. *)
Definition deleting (p : Page) : Page :=
  match sessionToDelete p with
  | None => p
  | Some id =>
      if negb (JS.truthy id) then p
      else
        mkPage (history p) (loading p) (error p) (showOlder p) (Some id)
          (showDeleteDialog p) (sessionToDelete p)
          (sortOrder p) (filterCompany p) (filterType p)
          (deleteCalls p ++ [id]) (alerted p)
  end.

(** The [disabled] attribute of the dialog's two buttons. *)
Definition dialogButtons_disabled (p : Page) : bool := JS.non_null (deletingId p).

End LandingPage.

(* ================================================================== *)
(** * Vocabulary of the statements *)
(* ================================================================== *)

(** What a user or a later handler can observe of a state: everything
    but the lines written to the console. *)
Definition is_console (e : Event) : bool :=
  match e with EvConsoleError _ => true | _ => false end.

Definition observable (w : World) :=
  (ctx w, localStorage w, uncaught w, sec w, ana w, upl w,
   List.filter (fun e => negb (is_console e)) (log w)).

Section Unreadable.
Context `{JSON_session : !JSON SessionData}
        `{JSON_meta : !JSON UploadMeta}
        `{JSON_data : !JSON UploadAnalysisData}.

(** The content stored under [key] makes [JSON.parse] throw. *)
Definition unreadable (A : Type) `{!JSON A} (key : string)
    (s : gmap string string) : bool :=
  match s !! key with
  | Some stored =>
      match JSON_parse (A := A) stored with None => true | Some _ => false end
  | None => false
  end.

(** The store with an unreadable record removed. *)
Definition scrub_key (A : Type) `{!JSON A} (key : string)
    (s : gmap string string) : gmap string string :=
  if unreadable A key s then delete key s else s.

(** The store with every unreadable record of the provider removed. *)
Definition scrub (s : gmap string string) : gmap string string :=
  scrub_key UploadAnalysisData UPLOAD_DATA_KEY
    (scrub_key UploadMeta UPLOAD_META_KEY
       (scrub_key SessionData ACTIVE_SESSION_KEY s)).

End Unreadable.

(** The gateway calls a handler issues, in order. *)
Definition fetches (ops : list op) : list Request :=
  omap (fun o => match o with Fetch r => Some r | _ => None end) ops.

(** [c] occurs in [s]. *)
Fixpoint has_char (c : ascii) (s : string) : bool :=
  match s with
  | EmptyString => false
  | String a s' => Ascii.eqb a c || has_char c s'
  end.

(** [ext] is the extension of [name]: the part of the name from its last
    dot on. *)
Definition extension_of (name ext : string) : Prop :=
  exists stem rest,
    name = stem +:+ String "."%char rest
    /\ has_char "."%char rest = false
    /\ ext = String "."%char rest.

(** The extension of [name] is [e] up to the case of its letters. *)
Definition has_extension_ci (name e : string) : Prop :=
  exists ext, extension_of name ext /\ JS.toLowerCase ext = e.

(** A file the upload accepts: a .pdf or .txt extension and at most
    10 MB. *)
Definition acceptable (f : File) : Prop :=
  (has_extension_ci (file_name f) ".pdf" \/ has_extension_ci (file_name f) ".txt")
  /\ (file_size f <= 10 * 1024 * 1024)%N.

(** Identity of SEC selections: the pending [ticker] and accession
    number against the selection a session was created from. *)
Definition sec_identical (ticker accession : string) (origin : SelectionMetadata) : Prop :=
  sm_ticker origin = ticker
  /\ accession_number <$> sm_selected_filing origin = Some accession.

(** An active SEC session: analysis data that carries a session id,
    and the selection it was created from. *)
Definition active_sec_session (c : Context) (a : AnalysisData)
    (origin : SelectionMetadata) : Prop :=
  analysisData c = Some a /\ JS.truthy (ad_sessionId a) = true
  /\ selectionMetadata c = Some origin.

(** The session state is empty. *)
Definition session_empty (c : Context) : Prop :=
  analysisData c = None /\ selectionMetadata c = None /\ secWorkflowData c = None.

(** The scenario of the specification: ACME's filing 0001-23 has produced
    the session S1; the user has then picked the filing 0002-24. *)
Module Scenario.

Definition filing1 : Filing := mkFiling "0001-23" "10-K" "2024-02-01".
Definition filing2 : Filing := mkFiling "0002-24" "10-Q" "2024-05-01".
Definition acme : Company := mkCompany "Acme Corp" "ACME".
Definition origin : SecWorkflowData := mkSecWorkflowData "ACME" "Acme Corp" (Some filing1).
Definition S1 : AnalysisData := mkAnalysisData "S1" "Summary of 0001-23" [] [] None.

Definition blank_ana : AnaPage :=
  mkAnaPage true None "" "" [] None [] "" false false false.
Definition blank_upl : UplPage := mkUplPage None None false None false "".

(** The search page with S1 active and the pending filing [f]. *)
Definition searching (f : Filing) : World :=
  mkWorld
    (mkContext (Some origin) (Some S1) (Some (selection_of origin))
       None None None false)
    {[ ACTIVE_SESSION_KEY := "record of S1" ]} [] None
    (mkSecPage (Some acme) [filing1; filing2] (Some f) false None)
    blank_ana blank_upl.

(** The analysis page showing S1, with [input] typed into the chat box. *)
Definition chatting (input : string) : World :=
  mkWorld
    (mkContext (Some origin) (Some S1) (Some (selection_of origin))
       None None None false)
    {[ ACTIVE_SESSION_KEY := "record of S1" ]} [] None
    (mkSecPage None [] None false None)
    (mkAnaPage false None "S1" "Summary of 0001-23" [] None [] input
       false false false)
    blank_upl.

(** An upload session U1, created from [form] and the file [report];
    the form now shows [m] and the selected file is [f]. *)
Definition form : UploadMeta :=
  mkUploadMeta (Some "Acme Corp") (Some "Annual report") (Some "10-K") (Some 2024%Z).
Definition report : File := mkFile "acme-2024.pdf" 734003.
Definition U1 : AnalysisData :=
  mkAnalysisData "U1" "Summary of the report" [] [] (Some "upload").
Definition U1_data : UploadAnalysisData :=
  mkUploadAnalysisData "U1" "Summary of the report" []
    (Some form) (Some "acme-2024.pdf").

Definition uploaded (m : option UploadMeta) (f : option File) : World :=
  mkWorld
    (mkContext None (Some U1) None m f (Some U1_data) false)
    {[ ACTIVE_SESSION_KEY := "record of U1";
       UPLOAD_META_KEY := "form of U1";
       UPLOAD_DATA_KEY := "data of U1" ]} [] None
    (mkSecPage None [] None false None)
    (mkAnaPage false None "U1" "Summary of the report" [] None [] ""
       false false false)
    (mkUplPage (Some form) (Some "acme-2024.pdf") false None false "").

(** The upload page before any session, with the form filled in. *)
Definition filling : World :=
  mkWorld
    (mkContext None None None (Some form) (Some report) None false)
    ∅ [] None
    (mkSecPage None [] None false None) blank_ana blank_upl.

End Scenario.

(** Lists of operations that raise nothing. *)
Definition is_throw (o : op) : bool :=
  match o with Throw _ => true | _ => false end.

Definition throw_free (ops : list op) : bool := forallb (fun o => negb (is_throw o)) ops.

(** The invariant of the SEC workflow setter: [selectionMetadata] is the
    projection of [secWorkflowData], and null exactly when it is. *)
Definition selection_in_step (c : Context) : Prop :=
  selectionMetadata c = selection_of <$> secWorkflowData c.

(** A handler without its console lines. *)
Definition quiet (ops : list op) : list op :=
  List.filter (fun o => match o with ConsoleError _ => false | _ => true end) ops.

(** A setter called when its argument is non-null. *)
Definition set_if_some {A} (f : option A -> op) (x : option A) : list op :=
  match x with Some _ => [f x] | None => [] end.

(** The guard of [handleSendMessage] lets a send through. *)
Definition can_send (p : AnaPage) : Prop :=
  JS.truthy (JS.trim (userInput p)) = true
  /\ JS.truthy (sessionId p) = true
  /\ sendingMessage p = false.

(** The form and file of an upload, as [isDirty] compares them: the
    trimmed text fields, the year as a string, and the file's name. *)
Definition upload_identity (m : option UploadMeta) (fileName : string)
  : string * string * string * string * string :=
  (UploadPage.trimmed m um_companyName, UploadPage.trimmed m um_docTitle,
   UploadPage.trimmed m um_docType, UploadPage.year_string m, fileName).

(** An active upload session whose submitted form is known. *)
Definition active_upload_session (w : World) (submitted : UploadMeta) : Prop :=
  UploadPage.hasActiveAnalysis (ctx w) = true
  /\ isUploadSourceType (ctx w) = true
  /\ submittedMetadata (upl w) = Some submitted.

(** The same state with another file selected. *)
Definition select_file (f : option File) (w : World) : World :=
  run [SetSelectedUploadFile f] w.

(** The gateway calls among operations on the extended state. *)
Definition xfetches (ops : list xop) : list Request :=
  omap (fun o => match o with Base (Fetch r) => Some r | _ => None end) ops.

Definition xthrow_free (ops : list xop) : bool :=
  forallb (fun o => match o with Base (Throw _) => false | _ => true end) ops.

(** The rest of the state of a page that has just mounted. *)
Definition fresh_extra : Extra := mkExtra "" false false false false None [] [].

Definition xworld (w : World) : XWorld := mkXWorld w fresh_extra.

(** The form is ready to be submitted: a file is selected and the
    company name is not blank. *)
Definition submittable (w : World) (file : File) : Prop :=
  selectedUploadFile (ctx w) = Some file
  /\ JS.truthy (UploadPage.trimmed (uploadMetadata (ctx w)) um_companyName) = true.

(** The upload call that [handleStartAnalysis] builds from the form. *)
Definition upload_request (w : World) (file : File) : Request :=
  let c := ctx w in
  UploadAnalysis file (UploadPage.trimmed (uploadMetadata c) um_companyName)
    (UploadPage.form_field (uploadMetadata c ≫= um_docTitle))
    (UploadPage.form_field (uploadMetadata c ≫= um_docType))
    (UploadPage.form_field (Some (UploadPage.year_string (uploadMetadata c)))).

(** What the two filters of the landing page keep. *)
Definition shown_by_filters (p : LandingPage.Page) (item : LandingPage.HistoryItem) : Prop :=
  (LandingPage.filterCompany p = ""
   \/ exists n pre post,
        LandingPage.company_name item = Some n
        /\ JS.toLowerCase n
           = pre +:+ JS.toLowerCase (LandingPage.filterCompany p) +:+ post)
  /\ (LandingPage.filterType p = "all"
      \/ LandingPage.type item = LandingPage.filterType p).

(* ================================================================== *)
(** * Facts about [run] *)
(* ================================================================== *)

Lemma run_cons o rest w :
  is_throw o = false -> run (o :: rest) w = run rest (step o w).
Proof. destruct o; simpl; intros E; try reflexivity; discriminate E. Qed.

Lemma run_app a b w :
  throw_free a = true -> run (a ++ b) w = run b (run a w).
Proof.
  revert w. induction a as [|o a IH]; intros w E; [reflexivity|].
  simpl in E. apply andb_prop in E as [Eo Ea].
  apply negb_true_iff in Eo.
  rewrite <- app_comm_cons, !run_cons by exact Eo.
  apply IH, Ea.
Qed.

Lemma throw_free_app a b :
  throw_free (a ++ b) = throw_free a && throw_free b.
Proof. apply forallb_app. Qed.

(** A [try] whose handler raises nothing raises nothing. *)
Lemma try_catch_throw_free body handler :
  (forall m, throw_free (handler m) = true) ->
  throw_free (try_catch body handler) = true.
Proof.
  intros Hh. induction body as [|o body IH]; [reflexivity|].
  destruct o; simpl; try exact IH; apply Hh.
Qed.

(** Operations that raise nothing leave [uncaught] alone. *)
Lemma run_uncaught ops w :
  throw_free ops = true -> uncaught (run ops w) = uncaught w.
Proof.
  revert w. induction ops as [|o ops IH]; intros w E; [reflexivity|].
  simpl in E. apply andb_prop in E as [Eo Ea]. apply negb_true_iff in Eo.
  rewrite run_cons by exact Eo. rewrite IH by exact Ea. reflexivity.
Qed.

(** The log only grows. *)
Lemma run_log_prefix ops w : exists l, log (run ops w) = log w ++ l.
Proof.
  revert w. induction ops as [|o ops IH]; intros w.
  - exists []. simpl. symmetry. apply app_nil_r.
  - destruct (is_throw o) eqn:Eo.
    + destruct o; try discriminate Eo. exists []. simpl. symmetry. apply app_nil_r.
    + rewrite run_cons by exact Eo. destruct (IH (step o w)) as [l Hl].
      rewrite Hl. destruct o; simpl; try (exists l; reflexivity);
        rewrite <- app_assoc; eexists; reflexivity.
Qed.

Lemma non_null_is_Some {A} (x : option A) : JS.non_null x = true <-> is_Some x.
Proof.
  destruct x; simpl; split; intros H; try reflexivity; eauto.
  - discriminate H.
  - destruct H as [y Hy]; discriminate Hy.
Qed.

(* ================================================================== *)
(** * The provider keeps [selectionMetadata] in step (C8) *)
(* ================================================================== *)

(** The exported setter establishes the invariant from any state. *)
Lemma updateSecWorkflowData_in_step data w :
  let w' := run (updateSecWorkflowData data) w in
  secWorkflowData (ctx w') = data /\ selection_in_step (ctx w').
Proof.
  unfold selection_in_step. destruct data as [d|]; simpl; split; reflexivity.
Qed.

(** C8 (the failing path).  [clearActiveSession] nulls [analysisData] and
    [selectionMetadata], then stops at the call of the undeclared name
    [setSecWorkflowData]: the workflow data is left as it was and the
    stored record is not removed. *)
Theorem clearActiveSession_stops_early w :
  let w' := run clearActiveSession w in
  analysisData (ctx w') = None
  /\ selectionMetadata (ctx w') = None
  /\ secWorkflowData (ctx w') = secWorkflowData (ctx w)
  /\ localStorage w' = localStorage w
  /\ uncaught w' = Some "ReferenceError: setSecWorkflowData is not defined".
Proof.
  unfold clearActiveSession, undeclared. cbn [run step step_ctx ctx].
  unfold with_uncaught. cbn. repeat split; reflexivity.
Qed.

(** On a state that holds workflow data the invariant is lost. *)
Example clearActiveSession_out_of_step :
  let d := mkSecWorkflowData "ACME" "Acme Corp"
             (Some (mkFiling "0001-23" "10-K" "2024-02-01")) in
  let w := mkWorld
             (mkContext (Some d) None (Some (selection_of d)) None None None false)
             ∅ [] None
             (mkSecPage None [] None false None)
             (mkAnaPage false None "" "" [] None [] "" false false false)
             (mkUplPage None None false None false "") in
  selection_in_step (ctx w)
  /\ selectionMetadata (ctx (run clearActiveSession w)) = None
  /\ secWorkflowData (ctx (run clearActiveSession w)) = Some d.
Proof. repeat split. Qed.

(* ================================================================== *)
(** * The persisted record follows the state (C9) *)
(* ================================================================== *)

Section PersistenceFacts.
Context `{JSON_session : !JSON SessionData}
        `{JSON_meta : !JSON UploadMeta}
        `{JSON_data : !JSON UploadAnalysisData}.

(** C9.  After the persistence effect has run, the record under
    [finscope_active_session] exists exactly when one of [analysisData],
    [selectionMetadata], [secWorkflowData] is non-null; when all three are
    null the effect is one [removeItem], otherwise it is one [setItem]
    whose value serialises the three fields together. *)
Theorem persist_active_session_record now w :
  let c := ctx w in
  let ops := persist_active_session now c in
  let any := is_Some (analysisData c) \/ is_Some (selectionMetadata c)
             \/ is_Some (secWorkflowData c) in
  (is_Some (localStorage (run ops w) !! ACTIVE_SESSION_KEY) <-> any)
  /\ (~ any -> ops = [RemoveItem ACTIVE_SESSION_KEY]
              /\ localStorage (run ops w) = delete ACTIVE_SESSION_KEY (localStorage w))
  /\ (any ->
      let record :=
        JSON_stringify
          (mkSessionData (analysisData c) (selectionMetadata c)
             (secWorkflowData c) now None) in
      ops = [SetItem ACTIVE_SESSION_KEY record]
      /\ localStorage (run ops w) = <[ACTIVE_SESSION_KEY := record]> (localStorage w)).
Proof.
  intros c ops any.
  assert (Hany : JS.non_null (analysisData c) || JS.non_null (selectionMetadata c)
                 || JS.non_null (secWorkflowData c) = true <-> any).
  { subst any. rewrite !orb_true_iff, !non_null_is_Some. tauto. }
  subst ops. unfold persist_active_session.
  destruct (JS.non_null (analysisData c) || JS.non_null (selectionMetadata c)
            || JS.non_null (secWorkflowData c)) eqn:E.
  - assert (Ha : any) by (apply Hany; reflexivity).
    split; [| split].
    + cbn. rewrite lookup_insert_eq. split; [intros _; exact Ha | eauto].
    + intros Hno. contradiction.
    + intros _. split; reflexivity.
  - assert (Hno : ~ any) by (intros Ha; apply Hany in Ha; discriminate Ha).
    split; [| split].
    + cbn. rewrite lookup_delete_eq. split; [intros [x Hx]; discriminate Hx | intros Ha; contradiction].
    + intros _. split; reflexivity.
    + intros Ha. contradiction.
Qed.

End PersistenceFacts.

(* ================================================================== *)
(** * Unreadable records load as no record (C7) *)
(* ================================================================== *)

Lemma observable_step o w1 w2 :
  observable w1 = observable w2 -> observable (step o w1) = observable (step o w2).
Proof.
  unfold observable. intros H. injection H as Hc Hs Hu Hsec Hana Hupl Hl.
  unfold step. cbn [ctx localStorage uncaught sec ana upl log].
  rewrite Hc, Hs, Hu, Hsec, Hana, Hupl.
  assert (Hlog : List.filter (fun e => negb (is_console e)) (step_log o (log w1))
                 = List.filter (fun e => negb (is_console e)) (step_log o (log w2))).
  { destruct o; cbn [step_log]; try exact Hl; rewrite !List.filter_app, Hl; reflexivity. }
  rewrite Hlog. reflexivity.
Qed.

Lemma observable_console m w : observable (step (ConsoleError m) w) = observable w.
Proof.
  unfold observable, step. cbn.
  rewrite List.filter_app. cbn. rewrite app_nil_r.
  destruct w as [c s l u p1 p2 p3], c, p1, p2, p3; reflexivity.
Qed.

(** Dropping the console lines of a handler changes nothing observable. *)
Lemma observable_run ops : forall w1 w2,
  observable w1 = observable w2 ->
  observable (run ops w1) = observable (run (quiet ops) w2).
Proof.
  induction ops as [|o ops IH]; intros w1 w2 H; [exact H|].
  destruct o;
    try (cbn [quiet List.filter]; rewrite !run_cons by reflexivity;
         apply IH, observable_step, H).
  - (* ConsoleError *)
    rewrite run_cons by reflexivity. cbn [quiet List.filter]. apply IH.
    rewrite observable_console. exact H.
  - (* Throw *)
    cbn. unfold observable, with_uncaught. cbn.
    unfold observable in H. injection H as Hc Hs Hu Hsec Hana Hupl Hl.
    rewrite Hc, Hs, Hsec, Hana, Hupl, Hl. reflexivity.
Qed.

Section LoadFacts.
Context `{JSON_session : !JSON SessionData}
        `{JSON_meta : !JSON UploadMeta}
        `{JSON_data : !JSON UploadAnalysisData}.

(** Scrubbing touches a key only when its own record is unreadable. *)
Lemma scrub_key_lookup (A : Type) `{!JSON A} key s :
  scrub_key A key s !! key = if unreadable A key s then None else s !! key.
Proof.
  unfold scrub_key. destruct (unreadable A key s); [apply lookup_delete_eq | reflexivity].
Qed.

Lemma scrub_key_lookup_ne (A : Type) `{!JSON A} key key' s :
  key <> key' -> scrub_key A key s !! key' = s !! key'.
Proof.
  intros Hne. unfold scrub_key.
  destruct (unreadable A key s); [apply lookup_delete_ne, Hne | reflexivity].
Qed.

Lemma scrub_lookup_session s :
  scrub s !! ACTIVE_SESSION_KEY
  = if unreadable SessionData ACTIVE_SESSION_KEY s then None
    else s !! ACTIVE_SESSION_KEY.
Proof.
  unfold scrub. rewrite !scrub_key_lookup_ne by discriminate.
  apply scrub_key_lookup.
Qed.

Lemma scrub_lookup_meta s :
  scrub s !! UPLOAD_META_KEY
  = if unreadable UploadMeta UPLOAD_META_KEY s then None else s !! UPLOAD_META_KEY.
Proof.
  unfold scrub. rewrite scrub_key_lookup_ne by discriminate.
  rewrite scrub_key_lookup. unfold unreadable.
  rewrite !scrub_key_lookup_ne by discriminate. reflexivity.
Qed.

Lemma scrub_lookup_data s :
  scrub s !! UPLOAD_DATA_KEY
  = if unreadable UploadAnalysisData UPLOAD_DATA_KEY s then None
    else s !! UPLOAD_DATA_KEY.
Proof.
  unfold scrub. rewrite scrub_key_lookup. unfold unreadable.
  rewrite !scrub_key_lookup_ne by discriminate. reflexivity.
Qed.

(** An initialiser reads an unreadable record as [null], and what it
    returns does not change when that record is removed. *)
Lemma init_from_storage_unreadable (A : Type) `{!JSON A} key what s :
  unreadable A key s = true -> fst (init_from_storage (A := A) key what s) = None.
Proof.
  unfold unreadable, init_from_storage.
  destruct (s !! key) as [stored|]; [|discriminate].
  destruct (JSON_parse stored); [discriminate|].
  intros _. destruct (JS.truthy stored); reflexivity.
Qed.

Lemma init_from_storage_quiet (A : Type) `{!JSON A} key what s :
  quiet (snd (init_from_storage (A := A) key what s)) = [].
Proof.
  unfold init_from_storage.
  destruct (s !! key) as [stored|]; [|reflexivity].
  destruct (JS.truthy stored); [|reflexivity].
  destruct (JSON_parse stored); reflexivity.
Qed.

Lemma init_from_storage_ext (A : Type) `{!JSON A} key what s s' :
  s' !! key = (if unreadable A key s then None else s !! key) ->
  fst (init_from_storage (A := A) key what s')
  = fst (init_from_storage (A := A) key what s).
Proof.
  unfold unreadable, init_from_storage. intros ->.
  destruct (s !! key) as [stored|]; [|reflexivity].
  destruct (JSON_parse stored) eqn:E; [rewrite E; reflexivity|].
  destruct (JS.truthy stored); reflexivity.
Qed.

(** The load effect on an unreadable record only writes to the console. *)
Lemma load_active_session_unreadable s :
  unreadable SessionData ACTIVE_SESSION_KEY s = true ->
  quiet (load_active_session s) = [].
Proof.
  unfold unreadable, load_active_session.
  destruct (s !! ACTIVE_SESSION_KEY) as [stored|]; [|discriminate].
  destruct (JSON_parse stored); [discriminate|].
  intros _. destruct (JS.truthy stored); reflexivity.
Qed.

Lemma load_active_session_ext s s' :
  s' !! ACTIVE_SESSION_KEY
  = (if unreadable SessionData ACTIVE_SESSION_KEY s then None
     else s !! ACTIVE_SESSION_KEY) ->
  quiet (load_active_session s') = quiet (load_active_session s).
Proof.
  intros Hs'. destruct (unreadable SessionData ACTIVE_SESSION_KEY s) eqn:E.
  - rewrite (load_active_session_unreadable s E).
    unfold load_active_session. rewrite Hs'. reflexivity.
  - unfold load_active_session. rewrite Hs'. reflexivity.
Qed.

Lemma App_cleanup_ext s s' :
  s' !! ACTIVE_SESSION_KEY
  = (if unreadable SessionData ACTIVE_SESSION_KEY s then None
     else s !! ACTIVE_SESSION_KEY) ->
  quiet (App_cleanup s') = quiet (App_cleanup s).
Proof.
  unfold App_cleanup, unreadable.
  change "finscope_active_session" with ACTIVE_SESSION_KEY. intros ->.
  destruct (s !! ACTIVE_SESSION_KEY) as [stored|]; [|reflexivity].
  destruct (JSON_parse stored) eqn:E; [rewrite E; reflexivity|].
  destruct (JS.truthy stored); reflexivity.
Qed.

Lemma App_cleanup_throw_free s : throw_free (App_cleanup s) = true.
Proof.
  unfold App_cleanup. rewrite throw_free_app.
  rewrite try_catch_throw_free by reflexivity. reflexivity.
Qed.

(** The load effect never restores [secWorkflowData]: the call that would
    do so is the call of the undeclared name, and the [catch] of the
    effect swallows it. *)
Lemma load_active_session_leaves_workflow_data s w :
  secWorkflowData (ctx (run (load_active_session s) w)) = secWorkflowData (ctx w).
Proof.
  unfold load_active_session.
  destruct (s !! ACTIVE_SESSION_KEY) as [stored|]; [|reflexivity].
  destruct (JS.truthy stored); [|reflexivity].
  destruct (JSON_parse stored) as [[parsed|]|]; [|reflexivity..].
  destruct (sd_analysisData parsed), (sd_selectionMetadata parsed),
    (sd_secWorkflowData parsed); reflexivity.
Qed.

Lemma load_active_session_throw_free s : throw_free (load_active_session s) = true.
Proof. apply try_catch_throw_free. reflexivity. Qed.

Lemma quiet_app a b : quiet (a ++ b) = quiet a ++ quiet b.
Proof. apply List.filter_app. Qed.

(** Apart from console output the load effect sets [analysisData] and
    [selectionMetadata] when the record carries them, and nothing else. *)
Lemma load_active_session_quiet s :
  exists oa om,
    quiet (load_active_session s)
    = set_if_some SetAnalysisData oa ++ set_if_some SetSelectionMetadata om
    /\ (unreadable SessionData ACTIVE_SESSION_KEY s = true -> oa = None /\ om = None).
Proof.
  destruct (unreadable SessionData ACTIVE_SESSION_KEY s) eqn:E.
  - exists None, None. rewrite load_active_session_unreadable by exact E. auto.
  - unfold load_active_session.
    destruct (s !! ACTIVE_SESSION_KEY) as [stored|];
      [|exists None, None; split; [reflexivity | discriminate]].
    destruct (JS.truthy stored);
      [|exists None, None; split; [reflexivity | discriminate]].
    destruct (JSON_parse stored) as [[parsed|]|];
      [|exists None, None; split; [reflexivity | discriminate]..].
    exists (sd_analysisData parsed), (sd_selectionMetadata parsed).
    split; [|discriminate].
    destruct (sd_analysisData parsed), (sd_selectionMetadata parsed),
      (sd_secWorkflowData parsed); reflexivity.
Qed.

Lemma WorkflowProvider_mount_quiet s :
  quiet (WorkflowProvider_mount s)
  = [SetUploadMetadata (fst (init_uploadMetadata s));
     SetUploadAnalysisData (fst (init_uploadAnalysisData s))]
    ++ quiet (load_active_session s).
Proof.
  unfold WorkflowProvider_mount. cbv zeta.
  rewrite !quiet_app. unfold init_uploadMetadata, init_uploadAnalysisData.
  rewrite !init_from_storage_quiet. reflexivity.
Qed.

Lemma alerts_filter l :
  alerts (List.filter (fun e => negb (is_console e)) l) = alerts l.
Proof.
  unfold alerts. induction l as [|e l IH]; [reflexivity|].
  destruct e; cbn; rewrite ?IH; reflexivity.
Qed.

(** C7.  Mounting the provider on a store gives the state that mounting
    it on the store without its unreadable records gives; nothing is
    raised and no alert is shown.  An unreadable upload record
    initialises its state to [null]; on an unreadable session record the
    load effect sets nothing.  The clean-up of App.jsx, the other reader
    of the session record, likewise does on a store what it does on the
    store without its unreadable records, and raises nothing. *)
Theorem unreadable_record_is_no_record s w :
  let w' := run (WorkflowProvider_mount s) w in
  observable w' = observable (run (WorkflowProvider_mount (scrub s)) w)
  /\ quiet (App_cleanup s) = quiet (App_cleanup (scrub s))
  /\ throw_free (App_cleanup s) = true
  /\ uncaught w' = uncaught w
  /\ alerts (log w') = alerts (log w)
  /\ (unreadable UploadMeta UPLOAD_META_KEY s = true ->
      uploadMetadata (ctx w') = None)
  /\ (unreadable UploadAnalysisData UPLOAD_DATA_KEY s = true ->
      uploadAnalysisData (ctx w') = None)
  /\ (unreadable SessionData ACTIVE_SESSION_KEY s = true ->
      analysisData (ctx w') = analysisData (ctx w)
      /\ selectionMetadata (ctx w') = selectionMetadata (ctx w)
      /\ secWorkflowData (ctx w') = secWorkflowData (ctx w)).
Proof.
  intros w'.
  assert (Hq : observable w' = observable (run (quiet (WorkflowProvider_mount s)) w))
    by (apply observable_run; reflexivity).
  assert (Hscrub : quiet (WorkflowProvider_mount (scrub s))
                   = quiet (WorkflowProvider_mount s)).
  { rewrite !WorkflowProvider_mount_quiet.
    unfold init_uploadMetadata, init_uploadAnalysisData.
    rewrite (init_from_storage_ext UploadMeta _ _ s (scrub s))
      by apply scrub_lookup_meta.
    rewrite (init_from_storage_ext UploadAnalysisData _ _ s (scrub s))
      by apply scrub_lookup_data.
    rewrite (load_active_session_ext s (scrub s)) by apply scrub_lookup_session.
    reflexivity. }
  split.
  { rewrite Hq, <- Hscrub. symmetry. apply observable_run. reflexivity. }
  split. { symmetry. apply App_cleanup_ext, scrub_lookup_session. }
  split. { apply App_cleanup_throw_free. }
  rewrite WorkflowProvider_mount_quiet in Hq.
  destruct (load_active_session_quiet s) as (oa & om & Hload & Hun).
  rewrite Hload in Hq.
  assert (Hctx : ctx w' = ctx (run ([SetUploadMetadata (fst (init_uploadMetadata s));
                                     SetUploadAnalysisData (fst (init_uploadAnalysisData s))]
                                    ++ set_if_some SetAnalysisData oa
                                    ++ set_if_some SetSelectionMetadata om) w))
    by (unfold observable in Hq; congruence).
  assert (Hunc : uncaught w' = uncaught w).
  { transitivity (uncaught (run ([SetUploadMetadata (fst (init_uploadMetadata s));
                                  SetUploadAnalysisData (fst (init_uploadAnalysisData s))]
                                 ++ set_if_some SetAnalysisData oa
                                 ++ set_if_some SetSelectionMetadata om) w)).
    - unfold observable in Hq; congruence.
    - destruct oa, om; reflexivity. }
  assert (Hal : alerts (log w') = alerts (log w)).
  { rewrite <- (alerts_filter (log w')), <- (alerts_filter (log w)).
    unfold observable in Hq. injection Hq as _ _ _ _ _ _ ->.
    destruct oa, om; reflexivity. }
  split; [exact Hunc|]. split; [exact Hal|].
  rewrite Hctx. repeat split.
  - intros E. unfold init_uploadMetadata.
    pose proof (init_from_storage_unreadable UploadMeta UPLOAD_META_KEY
                  "upload metadata" s E) as E'.
    destruct oa, om; cbn; exact E'.
  - intros E. unfold init_uploadAnalysisData.
    pose proof (init_from_storage_unreadable UploadAnalysisData UPLOAD_DATA_KEY
                  "upload analysis data" s E) as E'.
    destruct oa, om; cbn; exact E'.
  - destruct (Hun H) as [-> ->]. reflexivity.
  - destruct (Hun H) as [-> ->]. reflexivity.
  - destruct (Hun H) as [-> ->]. reflexivity.
Qed.

End LoadFacts.

(* ================================================================== *)
(** * SEC selections: clean or conflicting (C3) *)
(* ================================================================== *)

Lemma strict_eq_Some a b : strict_eq (Some a) (Some b) = true <-> a = b.
Proof.
  unfold strict_eq. rewrite bool_decide_eq_true.
  split; [intros E; injection E; auto | intros ->; reflexivity].
Qed.

(** The comparison that the search page and the analysis page both
    write out decides [sec_identical]. *)
Lemma sec_identical_decided ticker accession origin :
  strict_eq (Some ticker) (Some (sm_ticker origin))
  && strict_eq (Some accession) (accession_number <$> sm_selected_filing origin)
  = true
  <-> sec_identical ticker accession origin.
Proof.
  unfold sec_identical. rewrite andb_true_iff, strict_eq_Some.
  unfold strict_eq. rewrite bool_decide_eq_true. split; intros [H1 H2]; auto.
Qed.

Lemma conflict_iff_not_identical w a origin company filing :
  analysisData (ctx w) = Some a ->
  selectionMetadata (ctx w) = Some origin ->
  SECSearchPage.conflict_detected w company filing = true
  <-> ~ sec_identical (co_ticker company) (accession_number filing) origin.
Proof.
  intros Ha Ho. unfold SECSearchPage.conflict_detected. rewrite Ha, Ho.
  cbv zeta. rewrite orb_true_iff, !negb_true_iff. unfold strict_eq.
  rewrite !bool_decide_eq_false. unfold sec_identical. split.
  - intros [H|H] [H1 H2]; apply H; congruence.
  - intros H. destruct (decide (sm_ticker origin = co_ticker company)) as [E|E].
    + right. intros E2. apply H. split; assumption.
    + left. intros E2. apply E. congruence.
Qed.

(** C3.  With an active SEC session and a pending selection,
    [hasAnalysisForCurrentSelection] holds exactly when the pending ticker
    and accession number are those of the session's selection, whatever
    the other fields are.  Where the filing list is shown the page then
    offers Resume, which only navigates; otherwise it offers Start, which
    opens the conflict dialog without calling the gateway.  The analysis
    page restores the session without a create call on the same
    condition, and otherwise drops the cached analysis and creates. *)
Theorem sec_selection_status w a origin company filing :
  active_sec_session (ctx w) a origin ->
  selectedCompany (sec w) = Some company ->
  selectedFiling (sec w) = Some filing ->
  let same := sec_identical (co_ticker company) (accession_number filing) origin in
  (SECSearchPage.hasAnalysisForCurrentSelection w = true <-> same)
  /\ (filings (sec w) <> [] ->
      (SECSearchPage.SECSearchPage_button w = Some SECSearchPage.ResumeAnalysisButton
       <-> same)
      /\ (SECSearchPage.SECSearchPage_button w = Some SECSearchPage.StartAnalysisButton
          <-> ~ same))
  /\ requests (log (fire SECSearchPage.handleResumeAnalysis w)) = requests (log w)
  /\ (~ same -> forall r,
        let w' := fire (SECSearchPage.handleStartAnalysis r) w in
        showConflictDialog (sec w') = true
        /\ ctx w' = ctx w /\ localStorage w' = localStorage w
        /\ requests (log w') = requests (log w))
  /\ (forall ticker name pending r h,
        secWorkflowData (ctx w) = Some (mkSecWorkflowData ticker name (Some pending)) ->
        let ops := AnalysisPage.startAnalysis_sec r h w in
        AnalysisPage.startAnalysis r h w = Some ops
        /\ (sec_identical ticker (accession_number pending) origin ->
            requests (log (run ops w)) = requests (log w)
            /\ analysisData (ctx (run ops w)) = Some a
            /\ sessionId (ana (run ops w)) = ad_sessionId a)
        /\ (~ sec_identical ticker (accession_number pending) origin ->
            exists rest,
              ops = SetAnalysisData None :: SetLoading true :: SetError None ::
                    Fetch (StartAnalysis ticker name (accession_number pending)) :: rest)).
Proof.
  intros (Ha & Hsid & Ho) Hc Hf same.
  assert (Hhas : SECSearchPage.hasAnalysisForCurrentSelection w = true <-> same).
  { unfold SECSearchPage.hasAnalysisForCurrentSelection.
    rewrite Ha, Ho, Hf, Hc. cbn [fmap option_fmap option_map].
    apply sec_identical_decided. }
  split; [exact Hhas|]. split; [|split; [|split]].
  - intros Hshown.
    assert (Hbtn : SECSearchPage.SECSearchPage_button w
                   = Some (if SECSearchPage.hasAnalysisForCurrentSelection w
                           then SECSearchPage.ResumeAnalysisButton
                           else SECSearchPage.StartAnalysisButton)).
    { unfold SECSearchPage.SECSearchPage_button. rewrite Hf.
      destruct (filings (sec w)); [contradiction | reflexivity]. }
    rewrite Hbtn, <- Hhas.
    destruct (SECSearchPage.hasAnalysisForCurrentSelection w); split; split; intros H;
      try reflexivity; try discriminate; try (exfalso; apply H; reflexivity).
  - unfold fire, SECSearchPage.handleResumeAnalysis. cbn. unfold requests.
    rewrite omap_app. cbn. apply app_nil_r.
  - intros Hno r.
    assert (Hcf : SECSearchPage.conflict_detected w company filing = true)
      by (apply (conflict_iff_not_identical w a origin); assumption).
    unfold fire, SECSearchPage.handleStartAnalysis.
    rewrite Hc, Hf, Hcf, Ho. cbn. auto.
  - intros ticker name pending r h Hwf.
    assert (Hbranch : AnalysisPage.startAnalysis_branch (ctx w) = AnalysisPage.SecWorkflow).
    { unfold AnalysisPage.startAnalysis_branch. rewrite Hwf. cbn.
      rewrite !andb_false_r. reflexivity. }
    split; [unfold AnalysisPage.startAnalysis; rewrite Hbranch; reflexivity|].
    pose proof (sec_identical_decided ticker (accession_number pending) origin) as Hdec.
    unfold AnalysisPage.startAnalysis_sec. rewrite Hwf, Ha, Ho, Hsid.
    cbn [andb].
    assert (Hswap : strict_eq (Some (sm_ticker origin)) (Some ticker)
                    = strict_eq (Some ticker) (Some (sm_ticker origin))).
    { unfold strict_eq. apply bool_decide_ext. split; congruence. }
    rewrite Hswap.
    destruct (strict_eq (Some ticker) (Some (sm_ticker origin))
              && strict_eq (Some (accession_number pending))
                   (accession_number <$> sm_selected_filing origin)) eqn:E.
    + split.
      * intros _. cbn. rewrite Ha. auto.
      * intros Hno. exfalso. apply Hno, Hdec. reflexivity.
    + split.
      * intros Hsame. apply Hdec in Hsame. discriminate Hsame.
      * intros _. cbn. eexists. reflexivity.
Qed.

Lemma sec_selection_status_witness :
  active_sec_session (ctx (Scenario.searching Scenario.filing1)) Scenario.S1
    (selection_of Scenario.origin)
  /\ SECSearchPage.SECSearchPage_button (Scenario.searching Scenario.filing1)
     = Some SECSearchPage.ResumeAnalysisButton
  /\ SECSearchPage.SECSearchPage_button (Scenario.searching Scenario.filing2)
     = Some SECSearchPage.StartAnalysisButton.
Proof.
  assert (H1 : forall f, active_sec_session (ctx (Scenario.searching f)) Scenario.S1
                           (selection_of Scenario.origin))
    by (intros f; repeat split).
  split; [exact (H1 Scenario.filing1)|]. split.
  - destruct (sec_selection_status _ _ _ Scenario.acme Scenario.filing1
                (H1 Scenario.filing1) eq_refl eq_refl) as (_ & T & _).
    apply T; [discriminate | split; reflexivity].
  - destruct (sec_selection_status _ _ _ Scenario.acme Scenario.filing2
                (H1 Scenario.filing2) eq_refl eq_refl) as (_ & T & _).
    apply T; [discriminate | intros [_ H]; discriminate H].
Defined.

(* ================================================================== *)
(** * Replacing a SEC session (C1) *)
(* ================================================================== *)

Lemma requests_app l1 l2 : requests (l1 ++ l2) = requests l1 ++ requests l2.
Proof. apply omap_app. Qed.

Lemma alerts_app l1 l2 : alerts (l1 ++ l2) = alerts l1 ++ alerts l2.
Proof. apply omap_app. Qed.

Ltac log_simpl :=
  rewrite ?requests_app, ?alerts_app; cbn [requests alerts omap list_omap];
  cbn; rewrite ?app_nil_r, <- ?app_assoc; cbn.

(** The end-session attempt of a replace raises nothing, whatever the
    gateway answers. *)
Lemma end_old_session_throw_free sid r :
  throw_free (SECSearchPage.end_old_session sid r) = true.
Proof. apply try_catch_throw_free. reflexivity. Qed.

(** It issues the end call first and touches nothing but the log. *)
Lemma end_old_session_effect sid r w :
  let w' := run (SECSearchPage.end_old_session sid r) w in
  (exists rest, SECSearchPage.end_old_session sid r = Fetch (EndSession sid) :: rest)
  /\ ctx w' = ctx w /\ localStorage w' = localStorage w
  /\ sec w' = sec w /\ ana w' = ana w /\ upl w' = upl w
  /\ requests (log w') = requests (log w) ++ [EndSession sid]
  /\ alerts (log w') = alerts (log w).
Proof.
  destruct w as [c s l u p1 p2 p3], c, p1, p2, p3.
  destruct r as [m|st [m|e]|d]; cbn;
    (split; [eexists; reflexivity|]); repeat split; log_simpl; reflexivity.
Qed.

(** What it writes: the call, and one console line when the call failed. *)
Lemma end_old_session_log sid r w :
  let w' := run (SECSearchPage.end_old_session sid r) w in
  (read_ok r = None -> log w' = log w ++ [EvFetch (EndSession sid)])
  /\ (forall m, read_ok r = Some m ->
      exists line,
        (line = "Failed to end session:" \/ line = "Error ending session: " +:+ m)
        /\ log w' = log w ++ [EvFetch (EndSession sid); EvConsoleError line]).
Proof.
  destruct w as [c s l u p1 p2 p3].
  destruct r as [m|st [m|e]|d]; cbn; split; try discriminate;
    try (intros _; reflexivity);
    intros m' E; injection E as <-;
    eexists; (split; [|rewrite <- app_assoc; reflexivity]); auto.
Qed.

(** C1 (as the code has it).  The SEC replace issues the end-session call
    for the active session first; then, whatever that call returned, it
    clears [analysisData], removes the stored record, installs the new
    selection, closes the conflict dialog and navigates to the analysis
    page, whose [startAnalysis] takes its SEC part and issues the create
    call for the new selection.  A failed end call is written to the
    console only: the log gains the call, one console line when it
    failed, and the navigation, and no alert. *)
Theorem replace_proceeds_whatever_end_returns r w company filing a :
  selectedCompany (sec w) = Some company ->
  selectedFiling (sec w) = Some filing ->
  analysisData (ctx w) = Some a ->
  JS.truthy (ad_sessionId a) = true ->
  let ops := SECSearchPage.proceedWithNewAnalysis r w in
  let w' := run ops w in
  let new := mkSecWorkflowData (co_ticker company) (co_company_name company)
               (Some filing) in
  (exists rest, ops = Fetch (EndSession (ad_sessionId a)) :: rest)
  /\ requests (log w') = requests (log w) ++ [EndSession (ad_sessionId a)]
  /\ alerts (log w') = alerts (log w)
  /\ uncaught w' = uncaught w
  /\ analysisData (ctx w') = None
  /\ secWorkflowData (ctx w') = Some new
  /\ selectionMetadata (ctx w') = Some (selection_of new)
  /\ localStorage w' = delete ACTIVE_SESSION_KEY (localStorage w)
  /\ showConflictDialog (sec w') = false
  /\ conflictData (sec w') = None
  /\ (read_ok r = None ->
      log w' = log w ++ [EvFetch (EndSession (ad_sessionId a));
                         EvNavigate "/analysis" false])
  /\ (forall m, read_ok r = Some m ->
      exists line,
        (line = "Failed to end session:" \/ line = "Error ending session: " +:+ m)
        /\ log w' = log w ++ [EvFetch (EndSession (ad_sessionId a));
                              EvConsoleError line;
                              EvNavigate "/analysis" false])
  /\ AnalysisPage.startAnalysis_branch (ctx w') = AnalysisPage.SecWorkflow
  /\ (forall r' h',
      AnalysisPage.startAnalysis r' h' w'
      = Some (AnalysisPage.startAnalysis_sec r' h' w')
      /\ until_fetch (AnalysisPage.startAnalysis_sec r' h' w')
         = [SetLoading true; SetError None;
            Fetch (StartAnalysis (co_ticker company) (co_company_name company)
                     (accession_number filing))]).
Proof.
  intros Hc Hf Ha Hsid ops w' new.
  destruct (end_old_session_effect (ad_sessionId a) r w)
    as ([rest Hrest] & Hctx & Hsto & Hsec & Hana & Hupl & Hreq & Hal).
  destruct (end_old_session_log (ad_sessionId a) r w) as [Hlog0 Hlog1].
  assert (Hops : ops = SECSearchPage.end_old_session (ad_sessionId a) r ++
                       [SetAnalysisData None] ++ updateSecWorkflowData None ++
                       [RemoveItem "finscope_active_session"] ++
                       updateSecWorkflowData (Some new) ++
                       [SetShowConflictDialog false; SetConflictData None;
                        Navigate "/analysis" false]).
  { subst ops. unfold SECSearchPage.proceedWithNewAnalysis.
    rewrite Hc, Hf, Ha, Hsid. reflexivity. }
  split. { rewrite Hops, Hrest. eexists. reflexivity. }
  subst w'. rewrite Hops, run_app by apply end_old_session_throw_free.
  pose proof (run_uncaught _ w (end_old_session_throw_free (ad_sessionId a) r)) as Hunc.
  set (w1 := run (SECSearchPage.end_old_session (ad_sessionId a) r) w) in *.
  clearbody w1. cbn. rewrite Hsto, Hunc.
  split; [log_simpl; rewrite Hreq; reflexivity|].
  split; [log_simpl; exact Hal|].
  do 7 (split; [reflexivity|]).
  split; [intros E; rewrite (Hlog0 E), <- app_assoc; reflexivity|].
  split.
  { intros m E. destruct (Hlog1 m E) as (line & Hline & ->).
    exists line. split; [exact Hline|]. rewrite <- app_assoc. reflexivity. }
  split; [reflexivity|].
  intros r' h'. split; [reflexivity|].
  destruct (read_json r'); reflexivity.
Qed.

Lemma replace_proceeds_whatever_end_returns_witness :
  let w := Scenario.searching Scenario.filing2 in
  let r : HttpResult unit := HttpError 500 (inr (Some "internal error")) in
  let w' := run (SECSearchPage.proceedWithNewAnalysis r w) w in
  JS.truthy (ad_sessionId Scenario.S1) = true
  /\ analysisData (ctx w') = None
  /\ localStorage w' = delete ACTIVE_SESSION_KEY (localStorage w).
Proof.
  cbv zeta. split; [reflexivity|].
  pose proof (replace_proceeds_whatever_end_returns
                (HttpError 500 (inr (Some "internal error")))
                (Scenario.searching Scenario.filing2)
                Scenario.acme Scenario.filing2 Scenario.S1
                eq_refl eq_refl eq_refl eq_refl) as H.
  cbv zeta in H. destruct H as (_ & _ & _ & _ & H1 & _ & _ & H2 & _).
  split; [exact H1 | exact H2].
Defined.

(** C1 (the claim fails).  S1 is active and stored; the user replaces it
    and the gateway answers the end-session call with an error.  The
    replace is not aborted: the session is gone from the state and from
    the store, the new selection is installed, and the analysis page
    then issues the create call for it. *)
Lemma replace_after_failed_end_clears_session :
  let w := Scenario.searching Scenario.filing2 in
  let r : HttpResult unit := HttpError 500 (inr (Some "internal error")) in
  let w' := fire (SECSearchPage.proceedWithNewAnalysis r) w in
  let created : HttpResult StartAnalysisData :=
    HttpOk (inr (mkStartAnalysisData "S2" (Some "Summary of 0002-24") (Some []))) in
  let w'' := fire (AnalysisPage.startAnalysis_sec created (NetworkFailure "unused")) w' in
  read_ok r = Some "internal error"
  /\ analysisData (ctx w) = Some Scenario.S1
  /\ localStorage w !! ACTIVE_SESSION_KEY = Some "record of S1"
  /\ requests (log w') = [EndSession "S1"]
  /\ analysisData (ctx w') = None
  /\ localStorage w' !! ACTIVE_SESSION_KEY = None
  /\ secWorkflowData (ctx w')
     = Some (mkSecWorkflowData "ACME" "Acme Corp" (Some Scenario.filing2))
  /\ requests (log w'')
     = [EndSession "S1"; StartAnalysis "ACME" "Acme Corp" "0002-24"]
  /\ (ad_sessionId <$> analysisData (ctx w'')) = Some "S2".
Proof. cbv zeta. repeat split; vm_compute; reflexivity. Qed.

(** The upload page's replace issues no end-session call at all: its only
    gateway call, if any, is the upload that creates the new session. *)
Lemma upload_replace_issues_no_end_call r w :
  fetches (UploadPage.handleProceedWithNew r w) = []
  \/ exists f c t d y,
       fetches (UploadPage.handleProceedWithNew r w) = [UploadAnalysis f c t d y].
Proof.
  unfold UploadPage.handleProceedWithNew, UploadPage.handleStartAnalysis.
  destruct (isUploadSourceType (ctx w));
    (destruct (selectedUploadFile (ctx w)) as [file|]; [|left; reflexivity]);
    (destruct (JS.truthy (UploadPage.trimmed (uploadMetadata (ctx w)) um_companyName));
     [|left; reflexivity]);
    right; do 5 eexists; cbn; destruct (read_json r); reflexivity.
Qed.

(* ================================================================== *)
(** * Chat: the user's message stays (C2) *)
(* ================================================================== *)




(** A send that does not pass the guard does nothing. *)
Lemma send_blocked now1 now2 r w :
  AnalysisPage.sendButton_disabled (ana w) = true ->
  AnalysisPage.handleSendMessage now1 now2 r w = [].
Proof.
  unfold AnalysisPage.sendButton_disabled, AnalysisPage.handleSendMessage.
  intros H.
  destruct (JS.truthy (JS.trim (userInput (ana w)))), (JS.truthy (sessionId (ana w))),
    (sendingMessage (ana w)); try reflexivity; discriminate H.
Qed.

(** For a SEC session the rendered transcript is the page's; for an
    upload session it is the copy in [analysisData], which a failed send
    does not reach. *)
Lemma displayChatMessages_sec w :
  isUploadSourceType (ctx w) = false ->
  AnalysisPage.displayChatMessages w = chatMessages (ana w).
Proof.
  unfold AnalysisPage.displayChatMessages. intros ->.
  destruct (analysisData (ctx w)); reflexivity.
Qed.

(* ================================================================== *)
(** * Ending a session explicitly (C6) *)
(* ================================================================== *)



Section EndThenPersist.
Context `{JSON_session : !JSON SessionData}
        `{JSON_meta : !JSON UploadMeta}
        `{JSON_data : !JSON UploadAnalysisData}.

(** After a successful end of an upload session the persistence effects
    write nothing back: the three records stay removed. *)
Lemma persist_after_end_session now r w :
  JS.truthy (sessionId (ana w)) = true ->
  read_ok r = None ->
  isUploadSourceType (ctx w) = true ->
  let w' := persist now (run (AnalysisPage.handleEndSessionConfirm r w) w) in
  localStorage w' !! ACTIVE_SESSION_KEY = None
  /\ localStorage w' !! UPLOAD_META_KEY = None
  /\ localStorage w' !! UPLOAD_DATA_KEY = None.
Proof.
  intros Hsid Hr Hu. unfold AnalysisPage.handleEndSessionConfirm.
  rewrite Hsid, Hr, Hu. cbn.
  unfold ACTIVE_SESSION_KEY, UPLOAD_META_KEY, UPLOAD_DATA_KEY.
  repeat split; simplify_map_eq; reflexivity.
Qed.

End EndThenPersist.

(* ================================================================== *)
(** * What is latched while a call is in flight (C5) *)
(* ================================================================== *)

(** What the two unlatched handlers have done when their call is in
    flight. *)
Lemma proceedWithNewAnalysis_in_flight r w company filing a :
  selectedCompany (sec w) = Some company ->
  selectedFiling (sec w) = Some filing ->
  analysisData (ctx w) = Some a ->
  JS.truthy (ad_sessionId a) = true ->
  until_fetch (SECSearchPage.proceedWithNewAnalysis r w)
  = [Fetch (EndSession (ad_sessionId a))].
Proof.
  intros Hc Hf Ha Hsid. unfold SECSearchPage.proceedWithNewAnalysis.
  rewrite Hc, Hf, Ha, Hsid. reflexivity.
Qed.

Lemma startAnalysis_sec_in_flight r h w ticker name filing :
  secWorkflowData (ctx w) = Some (mkSecWorkflowData ticker name (Some filing)) ->
  analysisData (ctx w) = None ->
  until_fetch (AnalysisPage.startAnalysis_sec r h w)
  = [SetLoading true; SetError None;
     Fetch (StartAnalysis ticker name (accession_number filing))].
Proof.
  intros Hwf Ha. unfold AnalysisPage.startAnalysis_sec.
  rewrite Hwf, Ha. reflexivity.
Qed.

(** C5 (as the code has it).  Three operations are latched while their
    call is in flight: a chat send sets [sendingMessage], and a further
    send does nothing; the explicit end sets [endingSession], which
    disables the End Session button and both buttons of its dialog; the
    upload create sets [isLoading], and the page renders the loading
    screen in place of the form.  The SEC replace and the SEC create set
    no latch: while their call is in flight the state they read is as
    before, and a second invocation issues the call again. *)
Theorem in_flight_latches :
  (forall now1 now2 r w,
      can_send (ana w) ->
      let w1 := run (until_fetch (AnalysisPage.handleSendMessage now1 now2 r w)) w in
      requests (log w1) = requests (log w)
                          ++ [Chat (sessionId (ana w)) (JS.trim (userInput (ana w)))]
      /\ sendingMessage (ana w1) = true
      /\ AnalysisPage.sendButton_disabled (ana w1) = true
      /\ forall w', sendingMessage (ana w') = true ->
           forall now3 now4 r', AnalysisPage.handleSendMessage now3 now4 r' w' = [])
  /\ (forall r w,
      JS.truthy (sessionId (ana w)) = true ->
      let w1 := run (until_fetch (AnalysisPage.handleEndSessionConfirm r w)) w in
      requests (log w1) = requests (log w) ++ [EndSession (sessionId (ana w))]
      /\ AnalysisPage.endSessionButton_disabled (ana w1) = true
      /\ AnalysisPage.confirmEndButton_disabled (ana w1) = true)
  /\ (forall r w file,
      selectedUploadFile (ctx w) = Some file ->
      JS.truthy (UploadPage.trimmed (uploadMetadata (ctx w)) um_companyName) = true ->
      let w1 := run (until_fetch (UploadPage.handleStartAnalysis r w)) w in
      (exists q, requests (log w1) = requests (log w) ++ [q])
      /\ UploadPage.UploadPage_view w1 = UploadPage.LoadingScreen)
  /\ (forall r r' w company filing a,
      selectedCompany (sec w) = Some company ->
      selectedFiling (sec w) = Some filing ->
      analysisData (ctx w) = Some a ->
      JS.truthy (ad_sessionId a) = true ->
      let w1 := run (until_fetch (SECSearchPage.proceedWithNewAnalysis r w)) w in
      let w2 := run (until_fetch (SECSearchPage.proceedWithNewAnalysis r' w1)) w1 in
      ctx w1 = ctx w /\ sec w1 = sec w /\ localStorage w1 = localStorage w
      /\ requests (log w1) = requests (log w) ++ [EndSession (ad_sessionId a)]
      /\ requests (log w2)
         = requests (log w) ++ [EndSession (ad_sessionId a); EndSession (ad_sessionId a)])
  /\ (forall r h r' h' w ticker name filing,
      secWorkflowData (ctx w) = Some (mkSecWorkflowData ticker name (Some filing)) ->
      analysisData (ctx w) = None ->
      let create := StartAnalysis ticker name (accession_number filing) in
      let w1 := run (until_fetch (AnalysisPage.startAnalysis_sec r h w)) w in
      let w2 := run (until_fetch (AnalysisPage.startAnalysis_sec r' h' w1)) w1 in
      ctx w1 = ctx w
      /\ requests (log w1) = requests (log w) ++ [create]
      /\ requests (log w2) = requests (log w) ++ [create; create]).
Proof.
  split; [|split; [|split; [|split]]].
  - intros now1 now2 r w (Hin & Hsid & Hsend) w1. subst w1.
    unfold AnalysisPage.handleSendMessage. rewrite Hin, Hsid, Hsend. cbn.
    split; [log_simpl; reflexivity|]. split; [reflexivity|].
    split; [unfold AnalysisPage.sendButton_disabled; cbn; reflexivity|].
    intros w' Hlatch now3 now4 r'. unfold AnalysisPage.handleSendMessage.
    rewrite Hlatch, orb_true_r. reflexivity.
  - intros r w Hsid w1. subst w1.
    unfold AnalysisPage.handleEndSessionConfirm. rewrite Hsid. cbn.
    split; [log_simpl; reflexivity|].
    unfold AnalysisPage.endSessionButton_disabled. cbn.
    split; [apply orb_true_r | reflexivity].
  - intros r w file Hfile Hname w1. subst w1.
    unfold UploadPage.handleStartAnalysis. cbv zeta. rewrite Hfile, Hname. cbn.
    split; [eexists; log_simpl; reflexivity | reflexivity].
  - intros r r' w company filing a Hc Hf Ha Hsid w1 w2.
    assert (E1 : w1 = step (Fetch (EndSession (ad_sessionId a))) w).
    { subst w1. rewrite (proceedWithNewAnalysis_in_flight r w company filing a)
        by assumption. reflexivity. }
    assert (E2 : w2 = step (Fetch (EndSession (ad_sessionId a))) w1).
    { subst w2. rewrite (proceedWithNewAnalysis_in_flight r' w1 company filing a);
        [reflexivity | try rewrite E1; cbn; assumption ..]. }
    clearbody w2. clearbody w1. subst w2 w1. cbn. repeat split; log_simpl; reflexivity.
  - intros r h r' h' w ticker name filing Hwf Ha create w1 w2.
    assert (E1 : w1 = run [SetLoading true; SetError None; Fetch create] w).
    { subst w1. rewrite (startAnalysis_sec_in_flight r h w ticker name filing)
        by assumption. reflexivity. }
    assert (E2 : w2 = run [SetLoading true; SetError None; Fetch create] w1).
    { subst w2. rewrite (startAnalysis_sec_in_flight r' h' w1 ticker name filing);
        [reflexivity | try rewrite E1; cbn; assumption ..]. }
    clearbody w2. clearbody w1. subst w2 w1. cbn. repeat split; log_simpl; reflexivity.
Qed.

Lemma in_flight_latches_witness :
  let w := Scenario.searching Scenario.filing2 in
  let r : HttpResult unit := HttpOk (inr tt) in
  let w1 := run (until_fetch (SECSearchPage.proceedWithNewAnalysis r w)) w in
  let w2 := run (until_fetch (SECSearchPage.proceedWithNewAnalysis r w1)) w1 in
  JS.truthy (ad_sessionId Scenario.S1) = true
  /\ requests (log w2) = requests (log w) ++ [EndSession "S1"; EndSession "S1"].
Proof.
  cbv zeta. split; [reflexivity|].
  destruct in_flight_latches as (_ & _ & _ & T & _).
  pose proof (T (HttpOk (inr tt)) (HttpOk (inr tt))
                (Scenario.searching Scenario.filing2)
                Scenario.acme Scenario.filing2 Scenario.S1
                eq_refl eq_refl eq_refl eq_refl) as H.
  cbv zeta in H. exact (proj2 (proj2 (proj2 (proj2 H)))).
Defined.

(** C5 (the claim fails).  S1 is active and the user confirms the replace
    twice before the first end-session call has settled: both
    invocations issue the call, so two end-session calls for S1 are in
    flight together.  Likewise, [startAnalysis] run twice on the new
    selection before the first create call has settled issues two create
    calls. *)
Lemma duplicate_calls_in_flight :
  let w := Scenario.searching Scenario.filing2 in
  let confirm := fun v =>
    run (until_fetch (SECSearchPage.proceedWithNewAnalysis (HttpOk (inr tt)) v)) v in
  let replaced := fire (SECSearchPage.proceedWithNewAnalysis (HttpOk (inr tt))) w in
  let start := fun v =>
    run (until_fetch
           (AnalysisPage.startAnalysis_sec (NetworkFailure "pending")
              (NetworkFailure "pending") v)) v in
  requests (log (confirm w)) = [EndSession "S1"]
  /\ requests (log (confirm (confirm w))) = [EndSession "S1"; EndSession "S1"]
  /\ requests (log replaced) = [EndSession "S1"]
  /\ requests (log (start replaced))
     = [EndSession "S1"; StartAnalysis "ACME" "Acme Corp" "0002-24"]
  /\ requests (log (start (start replaced)))
     = [EndSession "S1"; StartAnalysis "ACME" "Acme Corp" "0002-24";
        StartAnalysis "ACME" "Acme Corp" "0002-24"].
Proof. cbv zeta. repeat split; vm_compute; reflexivity. Qed.

(* ================================================================== *)
(** * The upload form: dirty or not (C4) *)
(* ================================================================== *)

(** C4 (as the code has it).  With an active upload session, the form is
    clean exactly when the four metadata fields, trimmed (the year as a
    string), and the name of the selected file equal the submitted ones.
    The file's size is not compared: selecting a file of the same name
    leaves [isDirty] as it is. *)
Theorem upload_dirty_check w submitted :
  active_upload_session w submitted ->
  (UploadPage.isDirty w = false
   <-> upload_identity (uploadMetadata (ctx w)) (UploadPage.currentFileName (ctx w))
       = upload_identity (Some submitted) (JS.or_empty (submittedFileName (upl w))))
  /\ (forall f f', selectedUploadFile (ctx w) = Some f ->
        file_name f' = file_name f ->
        UploadPage.isDirty (select_file (Some f') w) = UploadPage.isDirty w).
Proof.
  intros (Hact & Hup & Hsub). split.
  - unfold UploadPage.isDirty. cbv zeta. rewrite Hact, Hup, Hsub. cbn [negb orb].
    unfold upload_identity. rewrite negb_false_iff, !andb_true_iff, !String.eqb_eq.
    split.
    + intros ((((-> & ->) & ->) & ->) & ->). reflexivity.
    + intros E. injection E as -> -> -> -> ->. auto.
  - intros f f' Hf Hname. unfold UploadPage.isDirty, select_file.
    cbn. unfold UploadPage.hasActiveAnalysis, isUploadSourceType, UploadPage.currentFileName.
    cbn. rewrite Hf. cbn. rewrite Hname. reflexivity.
Qed.

Lemma upload_dirty_check_witness :
  let w := Scenario.uploaded (Some Scenario.form) (Some (mkFile "acme-2024.pdf" 2048)) in
  active_upload_session w Scenario.form
  /\ UploadPage.isDirty w = false.
Proof.
  cbv zeta.
  assert (H : active_upload_session
                (Scenario.uploaded (Some Scenario.form)
                   (Some (mkFile "acme-2024.pdf" 2048))) Scenario.form)
    by (repeat split).
  split; [exact H|].
  apply (proj1 (upload_dirty_check _ _ H)). reflexivity.
Defined.

(** C4 (the claim fails).  A session is created from the file
    acme-2024.pdf of 734003 bytes.  Back on the upload page the user
    selects another file of that name, of 2048 bytes: the form is not
    dirty and the button reads Resume Analysis.  Nor does trailing white
    space in the company name make it dirty. *)
Lemma same_name_other_size_is_clean :
  let created : HttpResult UploadPage.UploadResponse :=
    HttpOk (inr (UploadPage.mkUploadResponse "U1" (Some "Summary of the report")
                   (Some []))) in
  let w1 := UploadPage.mount (fire (UploadPage.handleStartAnalysis created)
                                Scenario.filling) in
  let other := mkFile "acme-2024.pdf" 2048 in
  let w2 := run (UploadPage.handleFileSelect (Some other)) w1 in
  let w3 := run [SetUploadMetadata
                   (Some (mkUploadMeta (Some "Acme Corp  ") (Some "Annual report")
                            (Some "10-K") (Some 2024%Z)))] w1 in
  requests (log w1)
  = [UploadAnalysis Scenario.report "Acme Corp" (Some "Annual report")
       (Some "10-K") (Some "2024")]
  /\ UploadPage.hasActiveAnalysis (ctx w1) = true
  /\ UploadPage.isDirty w1 = false
  /\ selectedUploadFile (ctx w2) = Some other
  /\ (file_size other =? file_size Scenario.report)%N = false
  /\ UploadPage.isDirty w2 = false
  /\ UploadPage.buttonText w2 = UploadPage.ResumeAnalysisText
  /\ UploadPage.isDirty w3 = false.
Proof. cbv zeta. repeat split; vm_compute; reflexivity. Qed.

(** A change that survives trimming does make the form dirty. *)
Example other_title_is_dirty :
  UploadPage.isDirty
    (Scenario.uploaded
       (Some (mkUploadMeta (Some "Acme Corp") (Some "Quarterly report")
                (Some "10-K") (Some 2024%Z)))
       (Some Scenario.report)) = true
  /\ UploadPage.isDirty
       (Scenario.uploaded (Some Scenario.form) (Some (mkFile "acme-2023.pdf" 734003)))
     = true.
Proof. split; vm_compute; reflexivity. Qed.

(* ================================================================== *)
(** * Which files can be selected (C10) *)
(* ================================================================== *)

Lemma append_nil s : "" +:+ s = s.
Proof. reflexivity. Qed.

Lemma append_cons c a s : String c a +:+ s = String c (a +:+ s).
Proof. reflexivity. Qed.

Lemma lastIndexOf_from_absent c s : forall i acc,
  has_char c s = false -> JS.lastIndexOf_from c s i acc = acc.
Proof.
  induction s as [|a s IH]; intros i acc H; [reflexivity|].
  cbn in H. apply orb_false_iff in H as [Ha Hs].
  cbn. rewrite Ha. apply IH, Hs.
Qed.

Lemma lastIndexOf_from_last c a b : forall i acc,
  has_char c b = false ->
  JS.lastIndexOf_from c (a +:+ String c b) i acc = i + Z.of_nat (String.length a).
Proof.
  induction a as [|x a IH]; intros i acc Hb.
  - rewrite append_nil. cbn. rewrite Ascii.eqb_refl.
    rewrite lastIndexOf_from_absent by exact Hb. lia.
  - rewrite append_cons. cbn [JS.lastIndexOf_from String.length].
    rewrite IH by exact Hb. lia.
Qed.

Lemma drop_chars_app a b : JS.drop_chars (String.length a) (a +:+ b) = b.
Proof. induction a as [|x a IH]; [destruct b; reflexivity | exact IH]. Qed.

Lemma split_last c s :
  has_char c s = true ->
  exists a b, s = a +:+ String c b /\ has_char c b = false.
Proof.
  induction s as [|x s IH]; [discriminate|].
  intros H. destruct (has_char c s) eqn:Hs.
  - destruct (IH eq_refl) as (a & b & -> & Hb).
    exists (String x a), b. split; [reflexivity | exact Hb].
  - cbn in H. rewrite Hs, orb_false_r in H. apply Ascii.eqb_eq in H as ->.
    exists "", s. split; [reflexivity | exact Hs].
Qed.

Lemma toLowerCase_app a b :
  JS.toLowerCase (a +:+ b) = JS.toLowerCase a +:+ JS.toLowerCase b.
Proof.
  induction a as [|x a IH]; [reflexivity|].
  rewrite append_cons. cbn [JS.toLowerCase]. rewrite IH. reflexivity.
Qed.

Lemma toLowerCase_split s : forall a b,
  JS.toLowerCase s = a +:+ b ->
  exists a' b', s = a' +:+ b' /\ JS.toLowerCase a' = a /\ JS.toLowerCase b' = b.
Proof.
  induction s as [|x s IH]; intros a b H.
  - destruct a; [|discriminate H]. exists "", "". rewrite append_nil in H.
    repeat split. exact H.
  - destruct a as [|y a].
    + exists "", (String x s). rewrite append_nil in H. repeat split. exact H.
    + rewrite append_cons in H. cbn [JS.toLowerCase] in H.
      injection H as Hy Hs. destruct (IH a b Hs) as (a' & b' & -> & Ha & Hb).
      exists (String x a'), b'. cbn [JS.toLowerCase]. rewrite Hy, Ha.
      repeat split. exact Hb.
Qed.

(** Lower-casing neither makes nor unmakes a dot. *)
Lemma lower_ascii_dot c : JS.lower_ascii c = "."%char <-> c = "."%char.
Proof.
  destruct c as [[] [] [] [] [] [] [] []]; vm_compute; split; intros H;
    try reflexivity; discriminate H.
Qed.

Lemma has_char_dot_lower s :
  has_char "."%char (JS.toLowerCase s) = has_char "."%char s.
Proof.
  induction s as [|x s IH]; [reflexivity|].
  cbn [JS.toLowerCase has_char]. rewrite IH. f_equal.
  destruct (Ascii.eqb x ".") eqn:E.
  - apply Ascii.eqb_eq in E as ->. reflexivity.
  - apply Ascii.eqb_neq. intros H. apply Ascii.eqb_neq in E.
    exact (E (proj1 (lower_ascii_dot x) H)).
Qed.

(** What [fileExtension] computes: the whole lower-cased name when it has
    no dot, else its part from the last dot on. *)
Lemma fileExtension_no_dot name :
  has_char "."%char name = false ->
  UploadPage.fileExtension name = JS.toLowerCase name.
Proof.
  intros H. unfold UploadPage.fileExtension, JS.lastIndexOf. cbv zeta.
  rewrite lastIndexOf_from_absent by (rewrite has_char_dot_lower; exact H).
  reflexivity.
Qed.

Lemma fileExtension_last_dot name stem rest :
  name = stem +:+ String "."%char rest ->
  has_char "."%char rest = false ->
  UploadPage.fileExtension name = String "."%char (JS.toLowerCase rest).
Proof.
  intros -> Hrest. unfold UploadPage.fileExtension, JS.lastIndexOf. cbv zeta.
  rewrite toLowerCase_app. cbn [JS.toLowerCase].
  change (JS.lower_ascii ".") with "."%char.
  rewrite lastIndexOf_from_last by (rewrite has_char_dot_lower; exact Hrest).
  unfold JS.substring. rewrite Z.add_0_l, Nat2Z.id. apply drop_chars_app.
Qed.

Lemma fileExtension_cases name :
  (has_char "."%char name = false /\ UploadPage.fileExtension name = JS.toLowerCase name)
  \/ exists ext, extension_of name ext
                 /\ UploadPage.fileExtension name = JS.toLowerCase ext.
Proof.
  destruct (has_char "."%char name) eqn:H.
  - right. destruct (split_last _ _ H) as (stem & rest & Hname & Hrest).
    exists (String "."%char rest). split.
    + exists stem, rest. auto.
    + rewrite (fileExtension_last_dot name stem rest Hname Hrest). reflexivity.
  - left. split; [reflexivity | apply fileExtension_no_dot, H].
Qed.

(** The extension test of [handleFileSelect] decides the extension up to
    case. *)
Lemma extension_allowed_iff name :
  JS.includes UploadPage.allowedExtensions (UploadPage.fileExtension name) = true
  <-> has_extension_ci name ".pdf" \/ has_extension_ci name ".txt".
Proof.
  unfold JS.includes, UploadPage.allowedExtensions. cbn [existsb].
  rewrite orb_false_r, orb_true_iff, !String.eqb_eq.
  destruct (fileExtension_cases name) as [[Hno Hext]|(ext & Hof & Hext)].
  - rewrite Hext. split.
    + intros [E|E]; exfalso; rewrite <- has_char_dot_lower, E in Hno; discriminate Hno.
    + intros [(ext & (stem & rest & -> & _ & _) & _)|(ext & (stem & rest & -> & _ & _) & _)];
        exfalso; clear Hext;
        induction stem as [|x stem IH];
        [ discriminate Hno
        | apply IH; rewrite append_cons in Hno; cbn in Hno;
          apply orb_false_iff in Hno; apply Hno
        | discriminate Hno
        | apply IH; rewrite append_cons in Hno; cbn in Hno;
          apply orb_false_iff in Hno; apply Hno ].
  - rewrite Hext. split.
    + intros [E|E]; [left|right]; exists ext; auto.
    + assert (Huniq : forall ext', extension_of name ext' -> ext' = ext).
      { intros ext' (stem' & rest' & Hn' & Hr' & ->).
        destruct Hof as (stem & rest & Hn & Hr & ->).
        pose proof (fileExtension_last_dot name stem rest Hn Hr) as E1.
        pose proof (fileExtension_last_dot name stem' rest' Hn' Hr') as E2.
        assert (Hlen : String.length stem = String.length stem').
        { assert (L : forall st rs, name = st +:+ String "."%char rs ->
                        has_char "."%char rs = false ->
                        JS.lastIndexOf "."%char name = Z.of_nat (String.length st)).
          { intros st rs -> Hrs. unfold JS.lastIndexOf.
            rewrite lastIndexOf_from_last by exact Hrs. lia. }
          pose proof (L stem rest Hn Hr) as L1.
          pose proof (L stem' rest' Hn' Hr') as L2. lia. }
        assert (Hd : JS.drop_chars (String.length stem) name = String "."%char rest)
          by (rewrite Hn; apply drop_chars_app).
        assert (Hd' : JS.drop_chars (String.length stem') name = String "."%char rest')
          by (rewrite Hn'; apply drop_chars_app).
        rewrite <- Hd', <- Hlen, Hd. reflexivity. }
      intros [(ext' & Hof' & E)|(ext' & Hof' & E)];
        rewrite (Huniq ext' Hof') in E; auto.
Qed.

(** C10.  A file is selected exactly when its extension is .pdf or .txt
    up to case and its size is at most 10 * 1024 * 1024 bytes; it then
    becomes the selected file and the error is cleared.  Any other file
    leaves no file selected, sets an error message and empties the file
    input. *)
Theorem file_selection f w :
  let w' := run (UploadPage.handleFileSelect (Some f)) w in
  (acceptable f ->
   selectedUploadFile (ctx w') = Some f /\ fileError (upl w') = None)
  /\ (~ acceptable f ->
      selectedUploadFile (ctx w') = None
      /\ is_Some (fileError (upl w'))
      /\ fileInputValue (upl w') = "")
  /\ (selectedUploadFile (ctx w') = Some f <-> acceptable f).
Proof.
  intros w'. subst w'. unfold UploadPage.handleFileSelect, acceptable.
  pose proof (extension_allowed_iff (file_name f)) as Hext.
  change (10 * 1024 * 1024)%N with UploadPage.maxSize.
  destruct (JS.includes UploadPage.allowedExtensions
              (UploadPage.fileExtension (file_name f))) eqn:Ei; cbn [negb].
  - assert (He : has_extension_ci (file_name f) ".pdf"
                 \/ has_extension_ci (file_name f) ".txt") by (apply Hext; reflexivity).
    destruct (UploadPage.maxSize <? file_size f)%N eqn:Es.
    + apply N.ltb_lt in Es. cbn. split; [|split; [|split]].
      * intros [_ Hle]. lia.
      * intros _. repeat split; eauto.
      * discriminate.
      * intros [_ Hle]. lia.
    + apply N.ltb_ge in Es. cbn. split; [|split; [|split]].
      * intros _. split; reflexivity.
      * intros Hno. exfalso. apply Hno. split; assumption.
      * intros _. split; assumption.
      * intros _. reflexivity.
  - assert (Hne : ~ (has_extension_ci (file_name f) ".pdf"
                     \/ has_extension_ci (file_name f) ".txt")).
    { intros He. apply Hext in He. discriminate He. }
    cbn. split; [|split; [|split]].
    + intros [He _]. contradiction.
    + intros _. repeat split; eauto.
    + discriminate.
    + intros [He _]. contradiction.
Qed.

(** Without a file nothing happens. *)
Lemma no_file_no_selection w : run (UploadPage.handleFileSelect None) w = w.
Proof. reflexivity. Qed.

Example selection_examples :
  let pick f := selectedUploadFile
                  (ctx (run (UploadPage.handleFileSelect (Some f)) Scenario.filling)) in
  pick (mkFile "Q3.Report.PDF" 10485760) = Some (mkFile "Q3.Report.PDF" 10485760)
  /\ pick (mkFile "notes.Txt" 0) = Some (mkFile "notes.Txt" 0)
  /\ pick (mkFile "Q3.Report.PDF" 10485761) = None
  /\ pick (mkFile "report.docx" 1024) = None
  /\ pick (mkFile "pdf" 1024) = None
  /\ fileError (upl (run (UploadPage.handleFileSelect
                            (Some (mkFile "big.pdf" 11010048))) Scenario.filling))
     = Some "File size (10.50 MB) exceeds the 10MB limit. Please select a smaller file.".
Proof. cbv zeta. repeat split; vm_compute; reflexivity. Qed.

(* ================================================================== *)
(** * The upload form: submitting *)
(* ================================================================== *)

Lemma truthy_iff s : JS.truthy s = true <-> s <> "".
Proof. destruct s; simpl; split; congruence. Qed.

Lemma fetches_app a b : fetches (a ++ b) = fetches a ++ fetches b.
Proof. apply omap_app. Qed.

(** The operations of a submittable form. *)
Lemma handleStartAnalysis_submittable r w file :
  submittable w file ->
  UploadPage.handleStartAnalysis r w
  = [SetIsLoading true; SetAnalysisLoading true] ++
    try_catch
      (Fetch (upload_request w file) ::
       match read_json r with
       | inl m => [Throw m]
       | inr data =>
           [SetUploadAnalysisData
              (Some (mkUploadAnalysisData (UploadPage.ur_sessionId data)
                       (JS.or_empty (UploadPage.ur_executiveSummary data))
                       (default [] (UploadPage.ur_newsArticles data))
                       (Some (UploadPage.spread (uploadMetadata (ctx w))))
                       (Some (file_name file))));
            SetAnalysisData
              (Some (mkAnalysisData (UploadPage.ur_sessionId data)
                       (JS.or_empty (UploadPage.ur_executiveSummary data))
                       (default [] (UploadPage.ur_newsArticles data))
                       [] (Some "upload")));
            SetSubmittedMetadata (Some (UploadPage.spread (uploadMetadata (ctx w))));
            SetSubmittedFileName (Some (file_name file));
            Navigate "/analysis" true]
       end)
      (fun m => [ConsoleError "Failed to start upload analysis:";
                 SetIsLoading false]) ++
    [SetAnalysisLoading false].
Proof.
  intros [Hf Hn]. unfold UploadPage.handleStartAnalysis, upload_request.
  cbv zeta. rewrite Hf, Hn. reflexivity.
Qed.

Lemma handleStartAnalysis_no_file r w :
  selectedUploadFile (ctx w) = None ->
  UploadPage.handleStartAnalysis r w
  = [SetFileError (Some "Please select a file to upload.")].
Proof.
  intros Hf. unfold UploadPage.handleStartAnalysis. cbv zeta. rewrite Hf. reflexivity.
Qed.

Lemma handleStartAnalysis_no_name r w file :
  selectedUploadFile (ctx w) = Some file ->
  UploadPage.trimmed (uploadMetadata (ctx w)) um_companyName = "" ->
  UploadPage.handleStartAnalysis r w = [Alert "Please enter a company name."].
Proof.
  intros Hf Hn. unfold UploadPage.handleStartAnalysis. cbv zeta.
  rewrite Hf, Hn. reflexivity.
Qed.

Lemma handleStartAnalysis_fetches r w file :
  selectedUploadFile (ctx w) = Some file ->
  UploadPage.trimmed (uploadMetadata (ctx w)) um_companyName <> "" ->
  fetches (UploadPage.handleStartAnalysis r w) = [upload_request w file].
Proof.
  intros Hf Hn.
  rewrite (handleStartAnalysis_submittable r w file)
    by (split; [exact Hf | apply truthy_iff, Hn]).
  destruct (read_json r); reflexivity.
Qed.

(** X1.  The upload page issues its create call exactly when a file is
    selected and the company name, trimmed, is not empty; the call then
    carries that file and the trimmed name.  Without a file only the file
    error is set, and a missing name is reported by an alert only once a
    file is there. *)
Theorem upload_needs_file_and_name r w :
  let ops := UploadPage.handleStartAnalysis r w in
  let name := UploadPage.trimmed (uploadMetadata (ctx w)) um_companyName in
  (fetches ops <> [] <-> is_Some (selectedUploadFile (ctx w)) /\ name <> "")
  /\ (forall file, selectedUploadFile (ctx w) = Some file -> name <> "" ->
        fetches ops = [upload_request w file])
  /\ (selectedUploadFile (ctx w) = None ->
        ops = [SetFileError (Some "Please select a file to upload.")])
  /\ (is_Some (selectedUploadFile (ctx w)) -> name = "" ->
        ops = [Alert "Please enter a company name."]).
Proof.
  intros ops name. subst ops name.
  split; [|split; [|split]].
  - split.
    + intros Hne. destruct (selectedUploadFile (ctx w)) as [file|] eqn:Hf.
      * split; [eauto|]. intros Hn. apply Hne.
        rewrite (handleStartAnalysis_no_name r w file Hf Hn). reflexivity.
      * exfalso. apply Hne. rewrite (handleStartAnalysis_no_file r w Hf). reflexivity.
    + intros [[file Hf] Hn]. rewrite (handleStartAnalysis_fetches r w file Hf Hn).
      discriminate.
  - intros file. apply handleStartAnalysis_fetches.
  - apply handleStartAnalysis_no_file.
  - intros [file Hf]. apply (handleStartAnalysis_no_name r w file Hf).
Qed.

(** X2.  A create call that fails leaves the upload page as it was: the
    form and the selected file are kept, no session is committed, nothing
    is stored, no error is set on the page and no alert is shown.  The
    failure is written to the console; both loading flags are released. *)
Theorem failed_upload_changes_nothing r w file m :
  submittable w file ->
  read_json r = inl m ->
  let w' := fire (UploadPage.handleStartAnalysis r) w in
  ctx w' = ctx (run [SetAnalysisLoading false] w)
  /\ localStorage w' = localStorage w
  /\ upl w' = upl (run [SetIsLoading false] w)
  /\ uncaught w' = uncaught w
  /\ log w' = log w ++ [EvFetch (upload_request w file);
                        EvConsoleError "Failed to start upload analysis:"].
Proof.
  intros Hsub Hr w'. subst w'. unfold fire.
  rewrite (handleStartAnalysis_submittable r w file Hsub), Hr.
  destruct w as [c s l u p1 p2 p3], c, p3. cbn. repeat split.
  rewrite <- app_assoc. reflexivity.
Qed.

Lemma failed_upload_changes_nothing_witness :
  let r : HttpResult UploadPage.UploadResponse := HttpError 500 (inr None) in
  let w' := fire (UploadPage.handleStartAnalysis r) Scenario.filling in
  submittable Scenario.filling Scenario.report
  /\ uploadMetadata (ctx w') = Some Scenario.form
  /\ selectedUploadFile (ctx w') = Some Scenario.report
  /\ analysisData (ctx w') = None
  /\ isLoading (upl w') = false.
Proof.
  cbv zeta.
  assert (H : submittable Scenario.filling Scenario.report) by (split; reflexivity).
  split; [exact H|].
  pose proof (failed_upload_changes_nothing (HttpError 500 (inr None))
                Scenario.filling Scenario.report "HTTP error! status: 500"
                H eq_refl) as E.
  cbv zeta in E. destruct E as (Ec & _ & Eu & _).
  rewrite Ec, Eu. repeat split.
Defined.

(* ================================================================== *)
(** * The upload form after a session was created *)
(* ================================================================== *)

(** A form compared with its own copy is not dirty. *)
Lemma trimmed_spread m field :
  field (mkUploadMeta None None None None) = None ->
  UploadPage.trimmed (Some (UploadPage.spread m)) field = UploadPage.trimmed m field.
Proof.
  intros E. destruct m; [reflexivity|].
  unfold UploadPage.trimmed. cbn. rewrite E. reflexivity.
Qed.

Lemma year_string_spread m :
  UploadPage.year_string (Some (UploadPage.spread m)) = UploadPage.year_string m.
Proof. destruct m; reflexivity. Qed.

(** Mounting the page with an active upload session whose submitted form
    is on record: the form stays, the record is taken over. *)
Lemma mount_active w ua m :
  uploadAnalysisData (ctx w) = Some ua ->
  JS.truthy (ua_sessionId ua) = true ->
  isUploadSourceType (ctx w) = true ->
  ua_submittedMetadata ua = Some m ->
  UploadPage.mount w
  = with_upl w (mkUplPage (Some m) (Some (JS.or_empty (ua_submittedFileName ua)))
                  false None false "").
Proof.
  intros Hua Hsid Hup Hm. unfold UploadPage.mount. cbv zeta.
  set (w0 := with_upl w (mkUplPage None None false None false "")).
  assert (Hc : ctx w0 = ctx w) by reflexivity.
  assert (Ha : UploadPage.hasActiveAnalysis (ctx w0) = true).
  { unfold UploadPage.hasActiveAnalysis. rewrite Hc, Hua. exact Hsid. }
  assert (E1 : UploadPage.clear_on_mount w0 = []).
  { unfold UploadPage.clear_on_mount. cbv zeta. rewrite Ha, Hc, Hup. reflexivity. }
  rewrite E1. change (run [] w0) with w0.
  assert (E2 : UploadPage.sync_submitted w0
               = [SetSubmittedMetadata (Some m);
                  SetSubmittedFileName (Some (JS.or_empty (ua_submittedFileName ua)))]).
  { unfold UploadPage.sync_submitted. cbv zeta. rewrite Ha, Hc, Hup, Hua. cbn.
    rewrite Hm. reflexivity. }
  rewrite E2. subst w0. destruct w as [c s l u p1 p2 p3]. reflexivity.
Qed.

(** Mounting it without one: the form is emptied. *)
Lemma mount_inactive w :
  UploadPage.hasActiveAnalysis (ctx w) && isUploadSourceType (ctx w) = false ->
  UploadPage.mount w
  = run [SetUploadMetadata None; SetSelectedUploadFile None]
      (with_upl w (mkUplPage None None false None false "")).
Proof.
  intros Hno. unfold UploadPage.mount. cbv zeta.
  set (w0 := with_upl w (mkUplPage None None false None false "")).
  assert (Hc : ctx w0 = ctx w) by reflexivity.
  assert (E1 : UploadPage.clear_on_mount w0
               = [SetUploadMetadata None; SetSelectedUploadFile None;
                  SetSubmittedMetadata None; SetSubmittedFileName None]).
  { unfold UploadPage.clear_on_mount. cbv zeta. rewrite Hc.
    rewrite <- negb_andb, Hno. reflexivity. }
  rewrite E1.
  set (w1 := run _ w0).
  assert (Hc1 : UploadPage.hasActiveAnalysis (ctx w1) = UploadPage.hasActiveAnalysis (ctx w)
                /\ isUploadSourceType (ctx w1) = isUploadSourceType (ctx w)).
  { subst w1 w0. destruct w as [c s l u p1 p2 p3], c. split; reflexivity. }
  destruct Hc1 as [Ha1 Hu1].
  assert (E2 : UploadPage.sync_submitted w1
               = [SetSubmittedMetadata None; SetSubmittedFileName None]).
  { unfold UploadPage.sync_submitted. cbv zeta. rewrite Ha1, Hu1, Hno. reflexivity. }
  rewrite E2. subst w1 w0. destruct w as [c s l u p1 p2 p3], c. reflexivity.
Qed.

(** The state that a successful create call leaves. *)
Lemma upload_created r w file data :
  submittable w file ->
  read_json r = inr data ->
  let w1 := fire (UploadPage.handleStartAnalysis r) w in
  let m := UploadPage.spread (uploadMetadata (ctx w)) in
  uploadAnalysisData (ctx w1)
  = Some (mkUploadAnalysisData (UploadPage.ur_sessionId data)
            (JS.or_empty (UploadPage.ur_executiveSummary data))
            (default [] (UploadPage.ur_newsArticles data))
            (Some m) (Some (file_name file)))
  /\ analysisData (ctx w1)
     = Some (mkAnalysisData (UploadPage.ur_sessionId data)
               (JS.or_empty (UploadPage.ur_executiveSummary data))
               (default [] (UploadPage.ur_newsArticles data)) [] (Some "upload"))
  /\ uploadMetadata (ctx w1) = uploadMetadata (ctx w)
  /\ selectedUploadFile (ctx w1) = selectedUploadFile (ctx w)
  /\ secWorkflowData (ctx w1) = secWorkflowData (ctx w)
  /\ selectionMetadata (ctx w1) = selectionMetadata (ctx w)
  /\ localStorage w1 = localStorage w
  /\ uncaught w1 = uncaught w
  /\ log w1 = log w ++ [EvFetch (upload_request w file); EvNavigate "/analysis" true].
Proof.
  intros Hsub Hr w1 m. subst w1 m. unfold fire.
  rewrite (handleStartAnalysis_submittable r w file Hsub), Hr.
  destruct w as [c s l u p1 p2 p3], c, p3. cbn. repeat split.
  rewrite <- app_assoc. reflexivity.
Qed.

Lemma isUploadSourceType_upload c a :
  analysisData c = Some a -> ad_sourceType a = Some "upload" ->
  isUploadSourceType c = true.
Proof. unfold isUploadSourceType. intros -> ->. reflexivity. Qed.

(** X3.  After a create call that succeeded with a session id, coming
    back to the upload page finds the form as it was submitted: the form
    is not dirty, the button reads Resume Analysis, and pressing it issues
    no call and changes neither the session nor the form. *)
Theorem upload_then_return_offers_resume r w file data :
  submittable w file ->
  read_json r = inr data ->
  JS.truthy (UploadPage.ur_sessionId data) = true ->
  let w1 := UploadPage.mount (fire (UploadPage.handleStartAnalysis r) w) in
  uploadMetadata (ctx w1) = uploadMetadata (ctx w)
  /\ selectedUploadFile (ctx w1) = Some file
  /\ (ad_sessionId <$> analysisData (ctx w1)) = Some (UploadPage.ur_sessionId data)
  /\ UploadPage.isDirty w1 = false
  /\ UploadPage.buttonText w1 = UploadPage.ResumeAnalysisText
  /\ forall r', let w2 := fire (UploadPage.handleButtonClick r') w1 in
       requests (log w2) = requests (log w1) /\ ctx w2 = ctx w1
       /\ localStorage w2 = localStorage w1.
Proof.
  intros Hsub Hr Hsid w1.
  destruct (upload_created r w file data Hsub Hr)
    as (Hua & Had & Hum & Hfile & _).
  set (w0 := fire (UploadPage.handleStartAnalysis r) w) in *.
  pose proof (isUploadSourceType_upload (ctx w0) _ Had eq_refl) as Hup.
  assert (Hw1 : w1 = with_upl w0 (mkUplPage
                       (Some (UploadPage.spread (uploadMetadata (ctx w))))
                       (Some (file_name file)) false None false "")).
  { subst w1. rewrite (mount_active w0 _ _ Hua Hsid Hup eq_refl). reflexivity. }
  assert (Hc : ctx w1 = ctx w0) by (rewrite Hw1; reflexivity).
  assert (Ha : UploadPage.hasActiveAnalysis (ctx w1) = true).
  { unfold UploadPage.hasActiveAnalysis. rewrite Hc, Hua. exact Hsid. }
  assert (Hd : UploadPage.isDirty w1 = false).
  { unfold UploadPage.isDirty. cbv zeta. rewrite Ha, Hc, Hup.
    unfold UploadPage.currentFileName. rewrite Hfile, Hum, (proj1 Hsub).
    rewrite Hw1. unfold with_upl.
    cbn [upl submittedMetadata submittedFileName JS.or_empty default].
    rewrite !trimmed_spread, year_string_spread, !String.eqb_refl by reflexivity.
    reflexivity. }
  assert (Hb : UploadPage.buttonText w1 = UploadPage.ResumeAnalysisText).
  { unfold UploadPage.buttonText. rewrite Ha, Hd. reflexivity. }
  split; [rewrite Hc; exact Hum|].
  split; [rewrite Hc, Hfile; exact (proj1 Hsub)|].
  split; [rewrite Hc, Had; reflexivity|].
  split; [exact Hd|]. split; [exact Hb|].
  intros r' w2. subst w2. unfold fire, UploadPage.handleButtonClick. rewrite Hb.
  clearbody w1. destruct w1 as [c1 s1 l1 u1 q1 q2 q3], c1. cbn.
  repeat split. log_simpl. reflexivity.
Qed.

Lemma upload_then_return_offers_resume_witness :
  let r : HttpResult UploadPage.UploadResponse :=
    HttpOk (inr (UploadPage.mkUploadResponse "U1" (Some "Summary") None)) in
  let w1 := UploadPage.mount (fire (UploadPage.handleStartAnalysis r) Scenario.filling) in
  submittable Scenario.filling Scenario.report
  /\ UploadPage.buttonText w1 = UploadPage.ResumeAnalysisText.
Proof.
  cbv zeta.
  assert (H : submittable Scenario.filling Scenario.report) by (split; reflexivity).
  split; [exact H|].
  pose proof (upload_then_return_offers_resume
                (HttpOk (inr (UploadPage.mkUploadResponse "U1" (Some "Summary") None)))
                Scenario.filling Scenario.report
                (UploadPage.mkUploadResponse "U1" (Some "Summary") None)
                H eq_refl eq_refl) as E.
  cbv zeta in E. destruct E as (_ & _ & _ & _ & E & _). exact E.
Defined.

(** The state that a successful replace leaves: as after a create call,
    but no file is selected any more. *)
Lemma replace_created r w file data :
  submittable w file ->
  read_json r = inr data ->
  let w1 := fire (UploadPage.handleProceedWithNew r) w in
  let m := UploadPage.spread (uploadMetadata (ctx w)) in
  uploadAnalysisData (ctx w1)
  = Some (mkUploadAnalysisData (UploadPage.ur_sessionId data)
            (JS.or_empty (UploadPage.ur_executiveSummary data))
            (default [] (UploadPage.ur_newsArticles data))
            (Some m) (Some (file_name file)))
  /\ analysisData (ctx w1)
     = Some (mkAnalysisData (UploadPage.ur_sessionId data)
               (JS.or_empty (UploadPage.ur_executiveSummary data))
               (default [] (UploadPage.ur_newsArticles data)) [] (Some "upload"))
  /\ uploadMetadata (ctx w1) = uploadMetadata (ctx w)
  /\ selectedUploadFile (ctx w1) = None
  /\ requests (log w1) = requests (log w) ++ [upload_request w file].
Proof.
  intros Hsub Hr w1 m. subst w1 m. unfold fire, UploadPage.handleProceedWithNew.
  rewrite (handleStartAnalysis_submittable r w file Hsub), Hr.
  destruct (isUploadSourceType (ctx w));
    destruct w as [c s l u p1 p2 p3], c, p3; cbn; repeat split;
    log_simpl; reflexivity.
Qed.

(** X4.  The replace of the upload page clears the selected file before
    it submits the form it was rendered with.  So after a replace that
    succeeded, coming back to the upload page finds no file selected
    while the session records the name of the file it was created from:
    the form is dirty and the button reads Start New Analysis.  A second
    replace from there drops the session from the state, asks for a file
    and issues no call. *)
Theorem replace_then_return_is_dirty r w file data :
  submittable w file ->
  read_json r = inr data ->
  JS.truthy (UploadPage.ur_sessionId data) = true ->
  file_name file <> "" ->
  let w1 := UploadPage.mount (fire (UploadPage.handleProceedWithNew r) w) in
  selectedUploadFile (ctx w1) = None
  /\ submittedFileName (upl w1) = Some (file_name file)
  /\ UploadPage.hasActiveAnalysis (ctx w1) = true
  /\ UploadPage.isDirty w1 = true
  /\ UploadPage.buttonText w1 = UploadPage.StartNewAnalysisText
  /\ forall r', let w2 := fire (UploadPage.handleProceedWithNew r') w1 in
       requests (log w2) = requests (log w1)
       /\ uploadAnalysisData (ctx w2) = None
       /\ analysisData (ctx w2) = None
       /\ fileError (upl w2) = Some "Please select a file to upload.".
Proof.
  intros Hsub Hr Hsid Hname w1.
  destruct (replace_created r w file data Hsub Hr)
    as (Hua & Had & Hum & Hfile & _).
  set (w0 := fire (UploadPage.handleProceedWithNew r) w) in *.
  pose proof (isUploadSourceType_upload (ctx w0) _ Had eq_refl) as Hup.
  assert (Hw1 : w1 = with_upl w0 (mkUplPage
                       (Some (UploadPage.spread (uploadMetadata (ctx w))))
                       (Some (file_name file)) false None false "")).
  { subst w1. rewrite (mount_active w0 _ _ Hua Hsid Hup eq_refl). reflexivity. }
  assert (Hc : ctx w1 = ctx w0) by (rewrite Hw1; reflexivity).
  assert (Ha : UploadPage.hasActiveAnalysis (ctx w1) = true).
  { unfold UploadPage.hasActiveAnalysis. rewrite Hc, Hua. exact Hsid. }
  assert (Hd : UploadPage.isDirty w1 = true).
  { unfold UploadPage.isDirty. cbv zeta. rewrite Ha, Hc, Hup.
    unfold UploadPage.currentFileName. rewrite Hfile.
    rewrite Hw1. unfold with_upl.
    cbn [upl submittedMetadata submittedFileName JS.or_empty default fmap option_fmap
         option_map negb orb].
    apply negb_true_iff, andb_false_intro2, String.eqb_neq.
    intros E. apply Hname. symmetry. exact E. }
  assert (Hb : UploadPage.buttonText w1 = UploadPage.StartNewAnalysisText).
  { unfold UploadPage.buttonText. rewrite Ha, Hd. reflexivity. }
  split; [rewrite Hc; exact Hfile|].
  split; [rewrite Hw1; reflexivity|].
  split; [exact Ha|]. split; [exact Hd|]. split; [exact Hb|].
  intros r' w2. subst w2. unfold fire, UploadPage.handleProceedWithNew.
  assert (Hs : UploadPage.handleStartAnalysis r' w1
               = [SetFileError (Some "Please select a file to upload.")]).
  { unfold UploadPage.handleStartAnalysis. cbv zeta. rewrite Hc, Hfile. reflexivity. }
  rewrite Hs, Hc, Hup.
  clearbody w1. destruct w1 as [c1 s1 l1 u1 q1 q2 q3], c1. cbn.
  repeat split.
Qed.

Lemma replace_then_return_is_dirty_witness :
  let r : HttpResult UploadPage.UploadResponse :=
    HttpOk (inr (UploadPage.mkUploadResponse "U2" (Some "Summary") None)) in
  let w := Scenario.uploaded (Some Scenario.form) (Some (mkFile "acme-2025.pdf" 2048)) in
  let w1 := UploadPage.mount (fire (UploadPage.handleProceedWithNew r) w) in
  submittable w (mkFile "acme-2025.pdf" 2048)
  /\ UploadPage.buttonText w1 = UploadPage.StartNewAnalysisText.
Proof.
  cbv zeta.
  assert (H : submittable
                (Scenario.uploaded (Some Scenario.form)
                   (Some (mkFile "acme-2025.pdf" 2048)))
                (mkFile "acme-2025.pdf" 2048)) by (split; reflexivity).
  split; [exact H|].
  pose proof (replace_then_return_is_dirty
                (HttpOk (inr (UploadPage.mkUploadResponse "U2" (Some "Summary") None)))
                _ _ (UploadPage.mkUploadResponse "U2" (Some "Summary") None)
                H eq_refl eq_refl ltac:(discriminate)) as E.
  cbv zeta in E. destruct E as (_ & _ & _ & _ & E & _). exact E.
Defined.

(** X5.  Mounting the upload page without an active upload session
    empties the form: no metadata, no selected file, nothing recorded as
    submitted, and the form is not dirty.  The sessions themselves are
    left as they are, so the button still reads Resume Analysis when
    [uploadAnalysisData] carries a session id. *)
Theorem mount_without_session_empties_form w :
  UploadPage.hasActiveAnalysis (ctx w) && isUploadSourceType (ctx w) = false ->
  let w' := UploadPage.mount w in
  uploadMetadata (ctx w') = None
  /\ selectedUploadFile (ctx w') = None
  /\ submittedMetadata (upl w') = None
  /\ submittedFileName (upl w') = None
  /\ analysisData (ctx w') = analysisData (ctx w)
  /\ uploadAnalysisData (ctx w') = uploadAnalysisData (ctx w)
  /\ localStorage w' = localStorage w
  /\ log w' = log w
  /\ UploadPage.isDirty w' = false
  /\ UploadPage.buttonText w'
     = (if UploadPage.hasActiveAnalysis (ctx w) then UploadPage.ResumeAnalysisText
        else UploadPage.StartAnalysisText)
  /\ UploadPage2.hasActiveSession w' = UploadPage.hasActiveAnalysis (ctx w).
Proof.
  intros Hno w'. subst w'. rewrite (mount_inactive w Hno).
  assert (Hd : forall w0, submittedMetadata (upl w0) = None -> UploadPage.isDirty w0 = false).
  { intros w0 E. unfold UploadPage.isDirty. cbv zeta. rewrite E.
    destruct (negb _ || negb _); reflexivity. }
  set (w' := run _ _).
  assert (Ha : UploadPage.hasActiveAnalysis (ctx w') = UploadPage.hasActiveAnalysis (ctx w)).
  { subst w'. destruct w as [c s l u p1 p2 p3], c. reflexivity. }
  assert (Hs : submittedMetadata (upl w') = None).
  { subst w'. destruct w as [c s l u p1 p2 p3], c. reflexivity. }
  assert (Hb : UploadPage.buttonText w'
               = (if UploadPage.hasActiveAnalysis (ctx w)
                  then UploadPage.ResumeAnalysisText else UploadPage.StartAnalysisText)).
  { unfold UploadPage.buttonText. rewrite Ha, (Hd w' Hs). reflexivity. }
  assert (Hx : UploadPage2.hasActiveSession w' = UploadPage.hasActiveAnalysis (ctx w)).
  { unfold UploadPage2.hasActiveSession. cbv zeta. rewrite Ha.
    subst w'. destruct w as [c s l u p1 p2 p3], c. cbn.
    rewrite !orb_false_r. reflexivity. }
  split; [|split; [|split; [|split; [|split; [|split; [|split; [|split;
    [|split; [exact (Hd w' Hs)|split; [exact Hb|exact Hx]]]]]]]]]];
    subst w'; destruct w as [c s l u p1 p2 p3], c; reflexivity.
Qed.

Lemma mount_without_session_empties_form_witness :
  let w' := UploadPage.mount Scenario.filling in
  UploadPage.hasActiveAnalysis (ctx Scenario.filling)
    && isUploadSourceType (ctx Scenario.filling) = false
  /\ uploadMetadata (ctx Scenario.filling) = Some Scenario.form
  /\ uploadMetadata (ctx w') = None
  /\ selectedUploadFile (ctx w') = None.
Proof.
  cbv zeta. split; [reflexivity|]. split; [reflexivity|].
  pose proof (mount_without_session_empties_form Scenario.filling eq_refl) as E.
  cbv zeta in E. destruct E as (E1 & E2 & _). split; [exact E1 | exact E2].
Defined.

(* ================================================================== *)
(** * The upload form: the file, the fields, the way back *)
(* ================================================================== *)

(** What [handleFileSelect] decides. *)
Lemma accepted_iff f :
  JS.includes UploadPage.allowedExtensions (UploadPage.fileExtension (file_name f))
  && negb (UploadPage.maxSize <? file_size f)%N = true
  <-> acceptable f.
Proof.
  unfold acceptable. change (10 * 1024 * 1024)%N with UploadPage.maxSize.
  rewrite andb_true_iff, negb_true_iff, N.ltb_ge, extension_allowed_iff.
  reflexivity.
Qed.

Lemma handleFileSelect_selected f w :
  let w' := run (UploadPage.handleFileSelect (Some f)) w in
  selectedUploadFile (ctx w')
  = (if JS.includes UploadPage.allowedExtensions (UploadPage.fileExtension (file_name f))
        && negb (UploadPage.maxSize <? file_size f)%N
     then Some f else None)
  /\ uploadMetadata (ctx w') = uploadMetadata (ctx w).
Proof.
  unfold UploadPage.handleFileSelect.
  destruct (JS.includes _ _), (UploadPage.maxSize <? file_size f)%N;
    destruct w as [c s l u p1 p2 p3], c; split; reflexivity.
Qed.

(** X6.  Of the files dropped or picked only the first is looked at, and
    it reaches the gateway only if it is acceptable: after the selection
    of a file that is not, the form cannot be submitted and asks for a
    file; after the selection of one that is, a submit with a company
    name carries exactly that file. *)
Theorem only_accepted_file_is_uploaded f rest r w :
  let w1 := run (UploadPage2.handleFileInputChange (f :: rest)) w in
  let ops := UploadPage.handleStartAnalysis r w1 in
  (forall q, In q (fetches ops) -> acceptable f /\ q = upload_request w1 f)
  /\ (~ acceptable f ->
      ops = [SetFileError (Some "Please select a file to upload.")])
  /\ (acceptable f ->
      UploadPage.trimmed (uploadMetadata (ctx w)) um_companyName <> "" ->
      fetches ops = [upload_request w1 f]).
Proof.
  intros w1 ops. subst w1 ops. unfold UploadPage2.handleFileInputChange.
  destruct (handleFileSelect_selected f w) as [Hsel Hmeta]. cbv zeta in Hsel, Hmeta.
  set (w1 := run (UploadPage.handleFileSelect (Some f)) w) in *.
  pose proof (accepted_iff f) as Hacc.
  destruct (JS.includes _ _ && negb _) eqn:E.
  - assert (Ha : acceptable f) by (apply Hacc; reflexivity).
    split; [|split].
    + intros q Hq. split; [exact Ha|].
      destruct (UploadPage.trimmed (uploadMetadata (ctx w1)) um_companyName) eqn:Hn.
      * rewrite (handleStartAnalysis_no_name r w1 f Hsel Hn) in Hq. destruct Hq.
      * rewrite (handleStartAnalysis_fetches r w1 f Hsel) in Hq
          by (rewrite Hn; discriminate).
        destruct Hq as [<-|[]]. reflexivity.
    + intros Hno. contradiction.
    + intros _ Hn. apply handleStartAnalysis_fetches; [exact Hsel|].
      rewrite Hmeta. exact Hn.
  - assert (Hno : ~ acceptable f).
    { intros Ha. apply Hacc in Ha. discriminate Ha. }
    split; [|split].
    + intros q Hq. rewrite (handleStartAnalysis_no_file r w1 Hsel) in Hq. destruct Hq.
    + intros _. exact (handleStartAnalysis_no_file r w1 Hsel).
    + intros Ha. contradiction.
Qed.

(** X7.  Removing the selected file while a session is active, created
    from a named file, makes the form dirty: the button reads Start New
    Analysis and opens the Replace Session dialog; no error is shown and
    the session is untouched. *)
Theorem removing_the_file_dirties_the_form w submitted r :
  active_upload_session w submitted ->
  JS.or_empty (submittedFileName (upl w)) <> "" ->
  let w' := run UploadPage2.handleRemoveFile w in
  selectedUploadFile (ctx w') = None
  /\ fileError (upl w') = None
  /\ fileInputValue (upl w') = ""
  /\ uploadAnalysisData (ctx w') = uploadAnalysisData (ctx w)
  /\ analysisData (ctx w') = analysisData (ctx w)
  /\ UploadPage.isDirty w' = true
  /\ UploadPage.buttonText w' = UploadPage.StartNewAnalysisText
  /\ UploadPage.handleButtonClick r w' = [SetShowReplaceModal true].
Proof.
  intros (Hact & Hup & Hsub) Hname w'.
  assert (Hc : UploadPage.hasActiveAnalysis (ctx w') = true
               /\ isUploadSourceType (ctx w') = true
               /\ submittedMetadata (upl w') = Some submitted
               /\ submittedFileName (upl w') = submittedFileName (upl w)
               /\ selectedUploadFile (ctx w') = None).
  { subst w'. destruct w as [c s l u p1 p2 p3], c, p3. cbn in *. auto. }
  destruct Hc as (Ha & Hu & Hs & Hn & Hf).
  assert (Hd : UploadPage.isDirty w' = true).
  { unfold UploadPage.isDirty. cbv zeta. rewrite Ha, Hu, Hs, Hn.
    unfold UploadPage.currentFileName. rewrite Hf.
    cbn [negb orb fmap option_fmap option_map JS.or_empty default].
    apply negb_true_iff, andb_false_intro2, String.eqb_neq.
    intros E. apply Hname. symmetry. exact E. }
  assert (Hb : UploadPage.buttonText w' = UploadPage.StartNewAnalysisText).
  { unfold UploadPage.buttonText. rewrite Ha, Hd. reflexivity. }
  split; [exact Hf|].
  split; [subst w'; destruct w as [c s l u p1 p2 p3], c, p3; reflexivity|].
  split; [subst w'; destruct w as [c s l u p1 p2 p3], c, p3; reflexivity|].
  split; [subst w'; destruct w as [c s l u p1 p2 p3], c, p3; reflexivity|].
  split; [subst w'; destruct w as [c s l u p1 p2 p3], c, p3; reflexivity|].
  split; [exact Hd|]. split; [exact Hb|].
  unfold UploadPage.handleButtonClick. rewrite Hb. reflexivity.
Qed.

Lemma removing_the_file_dirties_the_form_witness :
  let w := Scenario.uploaded (Some Scenario.form) (Some Scenario.report) in
  active_upload_session w Scenario.form
  /\ UploadPage.isDirty w = false
  /\ UploadPage.isDirty (run UploadPage2.handleRemoveFile w) = true.
Proof.
  cbv zeta.
  assert (H : active_upload_session
                (Scenario.uploaded (Some Scenario.form) (Some Scenario.report))
                Scenario.form) by (repeat split).
  split; [exact H|]. split; [reflexivity|].
  pose proof (removing_the_file_dirties_the_form _ _ (NetworkFailure "unused") H
                ltac:(discriminate)) as E.
  cbv zeta in E. destruct E as (_ & _ & _ & _ & _ & E & _). exact E.
Defined.

(* ------------------------------------------------------------------ *)
(** ** Operations on the extended state *)

Lemma xrun_lift ops x : xrun (lift ops) x = mkXWorld (run ops (base x)) (extra x).
Proof.
  revert x. induction ops as [|o ops IH]; intros [w e]; [reflexivity|].
  destruct o; cbn; try apply IH; reflexivity.
Qed.

Lemma xrun_cons o rest x :
  xthrow_free [o] = true -> xrun (o :: rest) x = xrun rest (xstep o x).
Proof.
  destruct o as [o| | | | | | | | | | | | |]; try reflexivity.
  destruct o; try reflexivity. discriminate.
Qed.

Lemma xrun_app a b x :
  xthrow_free a = true -> xrun (a ++ b) x = xrun b (xrun a x).
Proof.
  revert x. induction a as [|o a IH]; intros x E; [reflexivity|].
  cbn [xthrow_free forallb] in E. apply andb_prop in E as [Eo Ea].
  rewrite <- app_comm_cons, !xrun_cons by (cbn; rewrite Eo; reflexivity).
  apply IH, Ea.
Qed.

Lemma xthrow_free_lift ops : xthrow_free (lift ops) = throw_free ops.
Proof.
  induction ops as [|o ops IH]; [reflexivity|].
  change (xthrow_free (lift (o :: ops)))
    with (match o with Throw _ => false | _ => true end && xthrow_free (lift ops)).
  rewrite IH. destruct o; reflexivity.
Qed.

Lemma xthrow_free_app a b : xthrow_free (a ++ b) = xthrow_free a && xthrow_free b.
Proof. apply forallb_app. Qed.

Lemma xfetches_app a b : xfetches (a ++ b) = xfetches a ++ xfetches b.
Proof. apply omap_app. Qed.

Lemma xfetches_lift ops : xfetches (lift ops) = fetches ops.
Proof.
  induction ops as [|o ops IH]; [reflexivity|].
  unfold xfetches, fetches, lift in *.
  destruct o; cbn; rewrite IH; reflexivity.
Qed.

(** X8.  Leaving the upload page through its back-warning dialog discards
    the upload session on the client only: the form, the file, the
    upload session and its two stored records are cleared and the user is
    taken to the landing page, but no call is issued, so the session is
    not ended at the gateway.  A SEC session in [analysisData] is kept.
    Afterwards the back button leaves without asking. *)
Theorem upload_back_discards_without_ending x :
  let x' := xfire UploadPage2.handleBackProceed x in
  xfetches (UploadPage2.handleBackProceed x) = []
  /\ log (base x') = log (base x) ++ [EvNavigate "/" false]
  /\ uploadAnalysisData (ctx (base x')) = None
  /\ uploadMetadata (ctx (base x')) = None
  /\ selectedUploadFile (ctx (base x')) = None
  /\ submittedMetadata (upl (base x')) = None
  /\ submittedFileName (upl (base x')) = None
  /\ analysisData (ctx (base x'))
     = (if isUploadSourceType (ctx (base x)) then None else analysisData (ctx (base x)))
  /\ localStorage (base x')
     = delete UPLOAD_META_KEY (delete UPLOAD_DATA_KEY (localStorage (base x)))
  /\ showBackWarningModal (extra x') = false
  /\ UploadPage2.hasActiveSession (base x') = false
  /\ UploadPage2.handleBackClick x' = [Base (Navigate "/" false)].
Proof.
  intros x'.
  assert (Hs : UploadPage2.hasActiveSession (base x') = false).
  { subst x'. unfold xfire, UploadPage2.handleBackProceed.
    destruct (isUploadSourceType (ctx (base x)));
      destruct x as [[c s l u p1 p2 p3] e], c; reflexivity. }
  split; [unfold UploadPage2.handleBackProceed;
          destruct (isUploadSourceType (ctx (base x))); reflexivity|].
  split; [|split; [|split; [|split; [|split; [|split; [|split; [|split; [|split;
    [|split; [exact Hs|unfold UploadPage2.handleBackClick; rewrite Hs; reflexivity]]]]]]]]]].
  all: subst x'; unfold xfire, UploadPage2.handleBackProceed;
    destruct (isUploadSourceType (ctx (base x)));
    destruct x as [[c s l u p1 p2 p3] e], c, e; cbn; rewrite <- ?app_assoc; reflexivity.
Qed.

(** [isDirty] of an active upload session. *)
Lemma isDirty_active w submitted :
  active_upload_session w submitted ->
  UploadPage.isDirty w
  = negb (String.eqb (UploadPage.trimmed (uploadMetadata (ctx w)) um_companyName)
                     (UploadPage.trimmed (Some submitted) um_companyName)
          && String.eqb (UploadPage.trimmed (uploadMetadata (ctx w)) um_docTitle)
                        (UploadPage.trimmed (Some submitted) um_docTitle)
          && String.eqb (UploadPage.trimmed (uploadMetadata (ctx w)) um_docType)
                        (UploadPage.trimmed (Some submitted) um_docType)
          && String.eqb (UploadPage.year_string (uploadMetadata (ctx w)))
                        (UploadPage.year_string (Some submitted))
          && String.eqb (UploadPage.currentFileName (ctx w))
                        (JS.or_empty (submittedFileName (upl w)))).
Proof.
  intros (Ha & Hu & Hs). unfold UploadPage.isDirty. cbv zeta.
  rewrite Ha, Hu, Hs. reflexivity.
Qed.

(** An edit replaces the form by its copy with one field set. *)
Lemma handleInputChange_effect e x :
  base (xrun (UploadPage2.handleInputChange e) x)
  = run [SetUploadMetadata (Some (apply_edit e (uploadMetadata (ctx (base x)))))]
      (base x).
Proof. destruct x as [w ex]. reflexivity. Qed.

(** X9.  Typing into a field of the upload form sets that field and
    keeps the three others, the selected file, the sessions and the
    record of what was submitted.  So on a clean form of an active
    session an edit makes the form dirty exactly when the new value,
    trimmed (the year as a string), differs from the submitted one. *)
Theorem edits_dirty_the_form x submitted :
  active_upload_session (base x) submitted ->
  UploadPage.isDirty (base x) = false ->
  let after e := base (xrun (UploadPage2.handleInputChange e) x) in
  (forall v, UploadPage.isDirty (after (EditCompanyName v))
             = negb (String.eqb (JS.trim v)
                       (UploadPage.trimmed (Some submitted) um_companyName)))
  /\ (forall v, UploadPage.isDirty (after (EditDocTitle v))
                = negb (String.eqb (JS.trim v)
                          (UploadPage.trimmed (Some submitted) um_docTitle)))
  /\ (forall v, UploadPage.isDirty (after (EditDocType v))
                = negb (String.eqb (JS.trim v)
                          (UploadPage.trimmed (Some submitted) um_docType)))
  /\ (forall y, UploadPage.isDirty (after (EditYear y))
                = negb (String.eqb
                          (UploadPage.year_string (Some (mkUploadMeta None None None y)))
                          (UploadPage.year_string (Some submitted))))
  /\ (forall e,
        selectedUploadFile (ctx (after e)) = selectedUploadFile (ctx (base x))
        /\ uploadAnalysisData (ctx (after e)) = uploadAnalysisData (ctx (base x))
        /\ analysisData (ctx (after e)) = analysisData (ctx (base x))
        /\ upl (after e) = upl (base x)
        /\ localStorage (after e) = localStorage (base x)
        /\ log (after e) = log (base x))
  /\ (forall e, uploadMetadata (ctx (after e))
                = Some (apply_edit e (uploadMetadata (ctx (base x))))).
Proof.
  intros Hact Hclean after.
  assert (Hrest : forall e,
        selectedUploadFile (ctx (after e)) = selectedUploadFile (ctx (base x))
        /\ uploadAnalysisData (ctx (after e)) = uploadAnalysisData (ctx (base x))
        /\ analysisData (ctx (after e)) = analysisData (ctx (base x))
        /\ upl (after e) = upl (base x)
        /\ localStorage (after e) = localStorage (base x)
        /\ log (after e) = log (base x)).
  { intros e. subst after. cbv beta. rewrite handleInputChange_effect.
    destruct (base x) as [c s l u p1 p2 p3], c. repeat split. }
  assert (Hmeta : forall e, uploadMetadata (ctx (after e))
                            = Some (apply_edit e (uploadMetadata (ctx (base x))))).
  { intros e. subst after. cbv beta. rewrite handleInputChange_effect.
    destruct (base x) as [c s l u p1 p2 p3], c. reflexivity. }
  assert (Hact' : forall e, active_upload_session (after e) submitted).
  { intros e. destruct (Hrest e) as (_ & Hua & Had & Hupl & _).
    destruct Hact as (Ha & Hu & Hs). repeat split.
    - unfold UploadPage.hasActiveAnalysis in *. rewrite Hua. exact Ha.
    - unfold isUploadSourceType in *. rewrite Had. exact Hu.
    - rewrite Hupl. exact Hs. }
  rewrite (isDirty_active _ _ Hact) in Hclean.
  apply negb_false_iff in Hclean.
  rewrite !andb_true_iff in Hclean.
  destruct Hclean as ((((Hn & Ht) & Hd) & Hy) & Hf).
  assert (Hfile : forall e, String.eqb (UploadPage.currentFileName (ctx (after e)))
                              (JS.or_empty (submittedFileName (upl (after e)))) = true).
  { intros e. destruct (Hrest e) as (Hsel & _ & _ & Hupl & _).
    unfold UploadPage.currentFileName in *. rewrite Hsel, Hupl. exact Hf. }
  split; [|split; [|split; [|split; [|split; [exact Hrest | exact Hmeta]]]]].
  - intros v. rewrite (isDirty_active _ _ (Hact' _)), Hfile, Hmeta.
    destruct (uploadMetadata (ctx (base x))) as [m|];
      unfold UploadPage.trimmed, UploadPage.year_string in *; cbn in *;
      rewrite Ht, Hd, Hy, !andb_true_r; reflexivity.
  - intros v. rewrite (isDirty_active _ _ (Hact' _)), Hfile, Hmeta.
    destruct (uploadMetadata (ctx (base x))) as [m|];
      unfold UploadPage.trimmed, UploadPage.year_string in *; cbn in *;
      rewrite Hn, Hd, Hy, !andb_true_r; reflexivity.
  - intros v. rewrite (isDirty_active _ _ (Hact' _)), Hfile, Hmeta.
    destruct (uploadMetadata (ctx (base x))) as [m|];
      unfold UploadPage.trimmed, UploadPage.year_string in *; cbn in *;
      rewrite Hn, Ht, Hy, !andb_true_r; reflexivity.
  - intros y. rewrite (isDirty_active _ _ (Hact' _)), Hfile, Hmeta.
    destruct (uploadMetadata (ctx (base x))) as [m|];
      unfold UploadPage.trimmed, UploadPage.year_string in *; cbn in *;
      rewrite Hn, Ht, Hd, !andb_true_r; reflexivity.
Qed.

Lemma edits_dirty_the_form_witness :
  let x := xworld (Scenario.uploaded (Some Scenario.form) (Some Scenario.report)) in
  let after e := base (xrun (UploadPage2.handleInputChange e) x) in
  active_upload_session (base x) Scenario.form
  /\ UploadPage.isDirty (after (EditCompanyName "Acme Corp ")) = false
  /\ UploadPage.isDirty (after (EditCompanyName "Acme Corporation")) = true.
Proof.
  cbv zeta.
  assert (H : active_upload_session
                (base (xworld (Scenario.uploaded (Some Scenario.form)
                                 (Some Scenario.report))))
                Scenario.form) by (repeat split).
  split; [exact H|].
  pose proof (edits_dirty_the_form _ _ H eq_refl) as E.
  cbv zeta in E. destruct E as (E & _).
  split; [rewrite (E "Acme Corp ") | rewrite (E "Acme Corporation")]; reflexivity.
Defined.

(* ================================================================== *)
(** * The search page: leaving, restoring, starting *)
(* ================================================================== *)

(** X10.  Confirming the back-warning dialog of the search page ends the
    active session, if there is one, and then clears the page and the
    session state whatever that call returned: the selection, the list of
    filings, the session, the workflow data and the stored record are
    gone, no alert is shown, and the user is taken to the landing page.
    The upload form and session are not touched.  Afterwards the back
    button leaves without asking. *)
Theorem sec_back_clears_whatever_end_returns r x :
  let ops := SECSearchPage2.handleBackConfirm r x in
  let x' := xrun ops x in
  let w := base x in
  xfetches ops
  = match analysisData (ctx w) with
    | Some a => if JS.truthy (ad_sessionId a) then [EndSession (ad_sessionId a)] else []
    | None => []
    end
  /\ requests (log (base x')) = requests (log w) ++ xfetches ops
  /\ session_empty (ctx (base x'))
  /\ localStorage (base x') = delete ACTIVE_SESSION_KEY (localStorage w)
  /\ sec (base x') = mkSecPage None [] None (showConflictDialog (sec w)) (conflictData (sec w))
  /\ searchQuery (extra x') = ""
  /\ showBackWarningDialog (extra x') = false
  /\ alerts (log (base x')) = alerts (log w)
  /\ uncaught (base x') = uncaught w
  /\ last (log (base x')) = Some (EvNavigate "/" false)
  /\ uploadMetadata (ctx (base x')) = uploadMetadata (ctx w)
  /\ uploadAnalysisData (ctx (base x')) = uploadAnalysisData (ctx w)
  /\ SECSearchPage2.handleBackClick x' = [Base (Navigate "/" false)].
Proof.
  intros ops x' w. subst ops x' w.
  unfold SECSearchPage2.handleBackClick, SECSearchPage2.handleBackConfirm.
  destruct x as [[c s l u p1 p2 p3] e], c as [wf [a|] sm um uf ua al], p1, e; cbn.
  - destruct (JS.truthy (ad_sessionId a));
      [destruct r as [m|st [m|d]|d]|]; cbn;
      repeat split; log_simpl; rewrite ?last_app; reflexivity.
  - repeat split; log_simpl; rewrite ?last_app; reflexivity.
Qed.

(** [find] returns the first element that passes the test. *)
Lemma find_first {A} (p : A -> bool) (l1 : list A) (a : A) (l2 : list A) :
  (forall b, In b l1 -> p b = false) -> p a = true ->
  List.find p (l1 ++ a :: l2) = Some a.
Proof.
  induction l1 as [|b l1 IH]; intros Hl1 Ha; cbn.
  - rewrite Ha. reflexivity.
  - rewrite (Hl1 b) by (left; reflexivity).
    apply IH; [|exact Ha]. intros c Hc. apply Hl1. right. exact Hc.
Qed.

(** X11.  Fetching the filings of a company with a filing to restore
    keeps that filing selected by its accession number: the selected
    filing is the first one of the fetched list with that number, and
    the restored filing itself when the list has none.  A failed fetch
    leaves the list and the selection as they were and shows one alert.
    Either way one call is issued and [loadingFilings] is released. *)
Theorem restore_keeps_the_filing ticker rf r x :
  ticker <> "" ->
  let x' := xrun (SECSearchPage2.handleFetchFilingsForCompany ticker (Some rf) r) x in
  loadingFilings (extra x') = false
  /\ xrequests (extra x') = xrequests (extra x) ++ [GetFilings ticker]
  /\ ctx (base x') = ctx (base x)
  /\ localStorage (base x') = localStorage (base x)
  /\ selectedCompany (sec (base x')) = selectedCompany (sec (base x))
  /\ (forall data, read_status r = inr data ->
        filings (sec (base x')) = data
        /\ alerts (log (base x')) = alerts (log (base x))
        /\ exists f, selectedFiling (sec (base x')) = Some f
             /\ accession_number f = accession_number rf
             /\ (In f data
                 \/ f = rf /\ forall g, In g data ->
                                accession_number g <> accession_number rf))
  /\ (forall m, read_status r = inl m ->
        sec (base x') = sec (base x)
        /\ alerts (log (base x'))
           = alerts (log (base x)) ++ ["Failed to fetch filings: " +:+ m])
  /\ (forall earlier f later, read_status r = inr (earlier ++ f :: later) ->
        accession_number f = accession_number rf ->
        (forall g, In g earlier -> accession_number g <> accession_number rf) ->
        selectedFiling (sec (base x')) = Some f).
Proof.
  intros Ht x'. subst x'. unfold SECSearchPage2.handleFetchFilingsForCompany.
  apply truthy_iff in Ht. rewrite Ht. cbn [negb].
  destruct x as [[c s l u p1 p2 p3] e], p1, e.
  destruct (read_status r) as [m|data] eqn:Hr.
  - cbn. do 5 (split; [reflexivity|]). split; [|split].
    + intros data E. discriminate E.
    + intros m' E. injection E as <-. split; [reflexivity|]. log_simpl. reflexivity.
    + intros earlier f later E. discriminate E.
  - assert (Hfirst : forall earlier f later, data = earlier ++ f :: later ->
              accession_number f = accession_number rf ->
              (forall g, In g earlier -> accession_number g <> accession_number rf) ->
              List.find (fun f => String.eqb (accession_number f) (accession_number rf))
                data = Some f).
    { intros earlier f later -> Hacc Hearlier. apply find_first.
      - intros g Hg. apply String.eqb_neq. apply Hearlier. exact Hg.
      - apply String.eqb_eq. exact Hacc. }
    destruct (List.find _ data) as [g|] eqn:Hfind; cbn;
      (do 5 (split; [reflexivity|]));
      (split; [|split; [intros m E; discriminate E|]]).
    + intros data' E. injection E as <-.
      split; [reflexivity|]. split; [log_simpl; reflexivity|].
      apply find_some in Hfind as [Hin Heq]. apply String.eqb_eq in Heq.
      exists g. repeat split; auto.
    + intros earlier f later E Hacc Hearlier. injection E as E.
      rewrite (Hfirst earlier f later E Hacc Hearlier). reflexivity.
    + intros data' E. injection E as <-.
      split; [reflexivity|]. split; [log_simpl; reflexivity|].
      exists rf. repeat split. right. split; [reflexivity|].
      intros g Hin Heq.
      pose proof (find_none _ _ Hfind g Hin) as Hne. cbv beta in Hne.
      apply String.eqb_neq in Hne. contradiction.
    + intros earlier f later E Hacc Hearlier. injection E as E.
      discriminate (Hfirst earlier f later E Hacc Hearlier).
Qed.

Lemma restore_keeps_the_filing_witness :
  let relisted := mkFiling "0001-23" "10-K/A" "2024-03-15" in
  let r : HttpResult (list Filing) := HttpOk (inr [Scenario.filing2; relisted]) in
  let x := xworld (Scenario.chatting "") in
  let x' := xrun (SECSearchPage2.handleFetchFilingsForCompany "ACME"
                    (Some Scenario.filing1) r) x in
  loadingFilings (extra x') = false
  /\ selectedFiling (sec (base x')) = Some relisted.
Proof.
  cbv zeta.
  pose proof (restore_keeps_the_filing "ACME" Scenario.filing1
                (HttpOk (inr [Scenario.filing2;
                              mkFiling "0001-23" "10-K/A" "2024-03-15"]))
                (xworld (Scenario.chatting "")) ltac:(discriminate)) as E.
  cbv zeta in E. destruct E as (E & _). split; [exact E | reflexivity].
Defined.

(** X12.  When the search page mounts with the workflow data of an
    active session in the context, it selects that company again and
    fetches its filings; once they arrive the session's filing is
    selected and the page recognises the session: with a non-empty list
    the button reads Resume Analysis.  The restoration runs once. *)
Theorem restored_selection_offers_resume r x wf f a data :
  secWorkflowData (ctx (base x)) = Some wf ->
  wf_selected_filing wf = Some f ->
  JS.truthy (wf_company_name wf) = true ->
  JS.truthy (wf_ticker wf) = true ->
  hasRestoredFromContext (extra x) = false ->
  analysisData (ctx (base x)) = Some a ->
  selection_in_step (ctx (base x)) ->
  read_status r = inr data ->
  let x' := xfire (SECSearchPage2.restore_from_context r) x in
  selectedCompany (sec (base x')) = Some (mkCompany (wf_company_name wf) (wf_ticker wf))
  /\ searchQuery (extra x') = wf_company_name wf +:+ " (" +:+ wf_ticker wf +:+ ")"
  /\ filings (sec (base x')) = data
  /\ xrequests (extra x') = xrequests (extra x) ++ [GetFilings (wf_ticker wf)]
  /\ ctx (base x') = ctx (base x)
  /\ SECSearchPage.hasAnalysisForCurrentSelection (base x') = true
  /\ (data <> [] ->
      SECSearchPage.SECSearchPage_button (base x')
      = Some SECSearchPage.ResumeAnalysisButton)
  /\ (forall r', SECSearchPage2.restore_from_context r' x' = []).
Proof.
  intros Hwf Hf Hname Hticker Hnot Ha Hstep Hr x'.
  assert (Hops : SECSearchPage2.restore_from_context r x
                 = [SetHasRestoredFromContext true;
                    SetSelectedCompany
                      (Some (mkCompany (wf_company_name wf) (wf_ticker wf)));
                    SetSearchQuery
                      (wf_company_name wf +:+ " (" +:+ wf_ticker wf +:+ ")");
                    SetLoadingFilings true; XFetch (GetFilings (wf_ticker wf));
                    SetFilings data;
                    SetSelectedFiling
                      (Some (default f
                               (List.find
                                  (fun g => String.eqb (accession_number g)
                                              (accession_number f)) data)));
                    SetLoadingFilings false]).
  { unfold SECSearchPage2.restore_from_context,
      SECSearchPage2.handleFetchFilingsForCompany.
    rewrite Hwf, Hnot, Hname, Hticker, Hf, Hr. cbn [negb andb].
    destruct (List.find _ data); reflexivity. }
  assert (Hacc : accession_number
                   (default f (List.find
                                 (fun g => String.eqb (accession_number g)
                                             (accession_number f)) data))
                 = accession_number f).
  { destruct (List.find _ data) as [g|] eqn:Hfind; [|reflexivity].
    apply find_some in Hfind as [_ Heq]. apply String.eqb_eq in Heq. exact Heq. }
  subst x'. unfold xfire. rewrite Hops. clear Hops.
  unfold selection_in_step in Hstep. rewrite Hwf in Hstep.
  destruct x as [[c s l u p1 p2 p3] e], c, p1, e. cbn in *. subst.
  unfold SECSearchPage.SECSearchPage_button, SECSearchPage.hasAnalysisForCurrentSelection.
  cbn. rewrite Hf. cbn. rewrite Hacc.
  unfold strict_eq. rewrite !bool_decide_eq_true_2 by reflexivity. cbn.
  repeat split.
  intros Hne. destruct data; [contradiction|reflexivity].
Qed.

Lemma restored_selection_offers_resume_witness :
  let r : HttpResult (list Filing) :=
    HttpOk (inr [Scenario.filing1; Scenario.filing2]) in
  let x := xworld (Scenario.chatting "") in
  let x' := xfire (SECSearchPage2.restore_from_context r) x in
  selection_in_step (ctx (base x))
  /\ selectedFiling (sec (base x)) = None
  /\ selectedFiling (sec (base x')) = Some Scenario.filing1
  /\ SECSearchPage.SECSearchPage_button (base x')
     = Some SECSearchPage.ResumeAnalysisButton.
Proof.
  cbv zeta. split; [reflexivity|]. split; [reflexivity|]. split; [reflexivity|].
  pose proof (restored_selection_offers_resume
                (HttpOk (inr [Scenario.filing1; Scenario.filing2]))
                (xworld (Scenario.chatting "")) Scenario.origin Scenario.filing1
                Scenario.S1 [Scenario.filing1; Scenario.filing2]
                eq_refl eq_refl eq_refl eq_refl eq_refl eq_refl eq_refl eq_refl) as E.
  cbv zeta in E. destruct E as (_ & _ & _ & _ & _ & _ & E & _).
  apply E. discriminate.
Defined.

(** X13.  The conflict dialog of the search page compares the pending
    selection with [selectionMetadata].  A session without it, which is
    what the upload page creates, is therefore no conflict: pressing
    Start Analysis ends that session at the gateway and clears it from
    [analysisData] without asking.  [uploadAnalysisData] and the upload
    form are left behind, so the upload page still counts an active
    analysis. *)
Theorem sec_start_ends_upload_session_unasked r w company filing a :
  selectedCompany (sec w) = Some company ->
  selectedFiling (sec w) = Some filing ->
  analysisData (ctx w) = Some a ->
  JS.truthy (ad_sessionId a) = true ->
  selectionMetadata (ctx w) = None ->
  let w' := fire (SECSearchPage.handleStartAnalysis r) w in
  SECSearchPage.hasAnalysisForCurrentSelection w = false
  /\ showConflictDialog (sec w') = false
  /\ requests (log w') = requests (log w) ++ [EndSession (ad_sessionId a)]
  /\ alerts (log w') = alerts (log w)
  /\ analysisData (ctx w') = None
  /\ secWorkflowData (ctx w')
     = Some (mkSecWorkflowData (co_ticker company) (co_company_name company)
               (Some filing))
  /\ uploadAnalysisData (ctx w') = uploadAnalysisData (ctx w)
  /\ uploadMetadata (ctx w') = uploadMetadata (ctx w)
  /\ UploadPage.hasActiveAnalysis (ctx w') = UploadPage.hasActiveAnalysis (ctx w).
Proof.
  intros Hc Hf Ha Hsid Hsm w'.
  split.
  { unfold SECSearchPage.hasAnalysisForCurrentSelection. rewrite Ha, Hsm. reflexivity. }
  destruct (end_old_session_effect (ad_sessionId a) r w)
    as (_ & Hctx & Hsto & Hsec & Hana & Hupl & Hreq & Hal).
  cbv zeta in Hctx, Hsto, Hsec, Hana, Hupl, Hreq, Hal.
  assert (Hops : SECSearchPage.handleStartAnalysis r w
                 = SECSearchPage.end_old_session (ad_sessionId a) r ++
                   [SetAnalysisData None] ++ updateSecWorkflowData None ++
                   [RemoveItem "finscope_active_session"] ++
                   updateSecWorkflowData
                     (Some (mkSecWorkflowData (co_ticker company)
                              (co_company_name company) (Some filing))) ++
                   [SetShowConflictDialog false; SetConflictData None;
                    Navigate "/analysis" false]).
  { unfold SECSearchPage.handleStartAnalysis, SECSearchPage.conflict_detected,
      SECSearchPage.proceedWithNewAnalysis.
    rewrite Hc, Hf, Ha, Hsm, Hsid. reflexivity. }
  subst w'. unfold fire. rewrite Hops, run_app by apply end_old_session_throw_free.
  set (w1 := run (SECSearchPage.end_old_session (ad_sessionId a) r) w) in *.
  clearbody w1. unfold UploadPage.hasActiveAnalysis. cbn. rewrite Hctx.
  repeat split.
  - log_simpl. rewrite Hreq. reflexivity.
  - log_simpl. exact Hal.
Qed.

Lemma sec_start_ends_upload_session_unasked_witness :
  let w := with_sec (Scenario.uploaded (Some Scenario.form) (Some Scenario.report))
             (mkSecPage (Some Scenario.acme) [Scenario.filing1] (Some Scenario.filing1)
                false None) in
  let w' := fire (SECSearchPage.handleStartAnalysis (HttpOk (inr tt))) w in
  selectionMetadata (ctx w) = None
  /\ requests (log w') = [EndSession "U1"]
  /\ UploadPage.hasActiveAnalysis (ctx w') = true.
Proof.
  cbv zeta. split; [reflexivity|].
  pose proof (sec_start_ends_upload_session_unasked (HttpOk (inr tt))
                (with_sec (Scenario.uploaded (Some Scenario.form) (Some Scenario.report))
                   (mkSecPage (Some Scenario.acme) [Scenario.filing1]
                      (Some Scenario.filing1) false None))
                Scenario.acme Scenario.filing1 Scenario.U1
                eq_refl eq_refl eq_refl eq_refl eq_refl) as E.
  cbv zeta in E. destruct E as (_ & _ & E1 & _ & _ & _ & _ & _ & E2).
  split; [exact E1 | rewrite E2; reflexivity].
Defined.

(* ================================================================== *)
(** * The analysis page: references, teasers, the transcript *)
(* ================================================================== *)

(** X14.  Toggling the references of a message flips that message and no
    other; toggling twice gives the set back. *)
Theorem toggleReferences_flips_one (i : nat) (s : gset nat) :
  (i ∈ AnalysisPage2.toggleReferences i s <-> i ∉ s)
  /\ (forall j, j <> i -> (j ∈ AnalysisPage2.toggleReferences i s <-> j ∈ s))
  /\ AnalysisPage2.toggleReferences i (AnalysisPage2.toggleReferences i s) = s.
Proof.
  unfold AnalysisPage2.toggleReferences.
  destruct (decide (i ∈ s)) as [Hin|Hout].
  - assert (Hi : i ∉ s ∖ {[i]}).
    { rewrite elem_of_difference, elem_of_singleton. tauto. }
    split; [tauto|]. split.
    + intros j Hj. rewrite elem_of_difference, elem_of_singleton. tauto.
    + destruct (decide (i ∈ s ∖ {[i]})) as [H|_]; [contradiction|].
      apply set_eq. intros j.
      rewrite elem_of_union, elem_of_difference, elem_of_singleton.
      destruct (decide (j = i)) as [->|]; tauto.
  - assert (Hi : i ∈ s ∪ {[i]}).
    { rewrite elem_of_union, elem_of_singleton. tauto. }
    split; [tauto|]. split.
    + intros j Hj. rewrite elem_of_union, elem_of_singleton. tauto.
    + destruct (decide (i ∈ s ∪ {[i]})) as [_|H]; [|contradiction].
      apply set_eq. intros j.
      rewrite elem_of_difference, elem_of_union, elem_of_singleton.
      destruct (decide (j = i)) as [->|]; tauto.
Qed.

Lemma loadingTeasers_length c :
  length (AnalysisPage2.loadingTeasers c)
  = if AnalysisPage2.isUploadWorkflow c then 5%nat else 4%nat.
Proof.
  unfold AnalysisPage2.loadingTeasers.
  destruct (AnalysisPage2.isUploadWorkflow c); reflexivity.
Qed.

(** X15.  The loading teasers rotate through their list: after [n] ticks
    from the first one the index is [n] modulo the length of the list in
    use, five for an upload and four for a filing, so a teaser is always
    shown. *)
Theorem teasers_rotate c (n : nat) :
  let i := Nat.iter n (AnalysisPage2.next_teaser c) 0%nat in
  i = (n mod length (AnalysisPage2.loadingTeasers c))%nat
  /\ is_Some (AnalysisPage2.teaser_shown c i).
Proof.
  cbv zeta.
  assert (Hpos : length (AnalysisPage2.loadingTeasers c) <> 0%nat).
  { rewrite loadingTeasers_length. destruct (AnalysisPage2.isUploadWorkflow c); lia. }
  assert (Hi : Nat.iter n (AnalysisPage2.next_teaser c) 0%nat
               = (n mod length (AnalysisPage2.loadingTeasers c))%nat).
  { induction n as [|n IH].
    - cbn. symmetry. apply Nat.Div0.mod_0_l.
    - rewrite Nat.iter_succ, IH. unfold AnalysisPage2.next_teaser.
      rewrite Nat.Div0.add_mod_idemp_l. f_equal. lia. }
  split; [exact Hi|]. rewrite Hi. unfold AnalysisPage2.teaser_shown.
  apply lookup_lt_is_Some. apply Nat.mod_upper_bound. exact Hpos.
Qed.

(** The operations of a send that passes the guard. *)
Lemma handleSendMessage_can_send now1 now2 r w :
  can_send (ana w) ->
  AnalysisPage.handleSendMessage now1 now2 r w
  = [SetUserInput "";
     AppendChatMessage (mkMessage user (JS.trim (userInput (ana w))) None false now1);
     SetSendingMessage true;
     Fetch (Chat (sessionId (ana w)) (JS.trim (userInput (ana w))))] ++
    match read_json r with
    | inl m =>
        [ConsoleError "Failed to send message:";
         AppendChatMessage (mkMessage assistant ("Error: " +:+ m) None true now2)]
    | inr data =>
        [AppendChatMessageSynced
           (mkMessage assistant (assistantResponse data)
              (Some (JS.or_empty (chat_references data))) false now2)]
    end ++
    [SetSendingMessage false].
Proof.
  intros (Hi & Hs & Hl). unfold AnalysisPage.handleSendMessage. cbv zeta.
  rewrite Hi, Hs, Hl. cbn [negb orb]. destruct (read_json r); reflexivity.
Qed.

(** X16.  For an upload session the page displays the transcript held in
    [analysisData], which a send updates only when the reply arrives.  So
    the user's message is not displayed while the call is in flight, and
    after a failed send neither it nor the error message is displayed,
    though both are in [chatMessages].  A later send that succeeds
    displays the whole of [chatMessages], these included. *)
Theorem upload_chat_displays_only_after_a_reply now1 now2 r w a :
  can_send (ana w) ->
  analysisData (ctx w) = Some a ->
  isUploadSourceType (ctx w) = true ->
  let ops := AnalysisPage.handleSendMessage now1 now2 r w in
  let userMsg := mkMessage user (JS.trim (userInput (ana w))) None false now1 in
  AnalysisPage.displayChatMessages w = ad_chatMessages a
  /\ AnalysisPage.displayChatMessages (run (until_fetch ops) w) = ad_chatMessages a
  /\ (forall m, read_json r = inl m ->
        AnalysisPage.displayChatMessages (run ops w) = ad_chatMessages a
        /\ chatMessages (ana (run ops w))
           = chatMessages (ana w)
             ++ [userMsg; mkMessage assistant ("Error: " +:+ m) None true now2])
  /\ (forall data, read_json r = inr data ->
        AnalysisPage.displayChatMessages (run ops w) = chatMessages (ana (run ops w))
        /\ chatMessages (ana (run ops w))
           = chatMessages (ana w)
             ++ [userMsg;
                 mkMessage assistant (assistantResponse data)
                   (Some (JS.or_empty (chat_references data))) false now2]).
Proof.
  intros Hcan Ha Hup ops userMsg. subst ops userMsg.
  rewrite (handleSendMessage_can_send now1 now2 r w Hcan).
  unfold AnalysisPage.displayChatMessages, isUploadSourceType in *.
  destruct w as [c s l u p1 p2 p3], c, p2. cbn in Ha, Hup |- *. subst.
  cbn in Hup. rewrite Hup.
  split; [reflexivity|]. split; [reflexivity|]. split.
  - intros m ->. cbn. rewrite Hup, <- app_assoc. split; reflexivity.
  - intros data ->. cbn. rewrite Hup, <- app_assoc. split; reflexivity.
Qed.

Lemma upload_chat_displays_only_after_a_reply_witness :
  let w := with_ana (Scenario.uploaded (Some Scenario.form) (Some Scenario.report))
             (mkAnaPage false None "U1" "Summary of the report" [] None []
                "What is the revenue?" false false false) in
  let w' := run (AnalysisPage.handleSendMessage "t1" "t2" (NetworkFailure "offline") w) w in
  can_send (ana w)
  /\ AnalysisPage.displayChatMessages w' = []
  /\ length (chatMessages (ana w')) = 2%nat.
Proof.
  cbv zeta.
  assert (H : can_send
                (ana (with_ana
                        (Scenario.uploaded (Some Scenario.form) (Some Scenario.report))
                        (mkAnaPage false None "U1" "Summary of the report" [] None []
                           "What is the revenue?" false false false))))
    by (repeat split).
  split; [exact H|].
  pose proof (upload_chat_displays_only_after_a_reply "t1" "t2"
                (NetworkFailure "offline") _ Scenario.U1 H eq_refl eq_refl) as E.
  cbv zeta in E. destruct E as (_ & _ & E & _).
  destruct (E "offline" eq_refl) as [E1 E2].
  split; [exact E1 | rewrite E2; reflexivity].
Defined.

(** X17.  A send that passes the guard always comes to an end: whatever
    the chat call returns, no exception escapes, [sendingMessage] is
    released, the input is empty, exactly one call was issued, and
    nothing was alerted or stored.  A second send on the emptied input
    does nothing. *)
Theorem send_settles now1 now2 r w :
  can_send (ana w) ->
  let w' := run (AnalysisPage.handleSendMessage now1 now2 r w) w in
  sendingMessage (ana w') = false
  /\ userInput (ana w') = ""
  /\ sessionId (ana w') = sessionId (ana w)
  /\ uncaught w' = uncaught w
  /\ requests (log w')
     = requests (log w) ++ [Chat (sessionId (ana w)) (JS.trim (userInput (ana w)))]
  /\ alerts (log w') = alerts (log w)
  /\ localStorage w' = localStorage w
  /\ length (chatMessages (ana w')) = (length (chatMessages (ana w)) + 2)%nat
  /\ forall now3 now4 r', AnalysisPage.handleSendMessage now3 now4 r' w' = [].
Proof.
  intros Hcan w'. subst w'.
  rewrite (handleSendMessage_can_send now1 now2 r w Hcan).
  unfold AnalysisPage.handleSendMessage.
  destruct w as [c s l u p1 p2 p3], p2.
  destruct (read_json r) as [m|data]; cbn; rewrite ?length_app; cbn;
    repeat split; try (log_simpl; reflexivity); lia.
Qed.

Lemma send_settles_witness :
  let w := Scenario.chatting "  What changed?  " in
  let w' := run (AnalysisPage.handleSendMessage "t1" "t2"
                   (HttpError 500 (inl "Unexpected token")) w) w in
  can_send (ana w)
  /\ sendingMessage (ana w') = false
  /\ requests (log w') = [Chat "S1" "What changed?"].
Proof.
  cbv zeta.
  assert (H : can_send (ana (Scenario.chatting "  What changed?  ")))
    by (repeat split).
  split; [exact H|].
  pose proof (send_settles "t1" "t2" (HttpError 500 (inl "Unexpected token")) _ H) as E.
  cbv zeta in E. destruct E as (E1 & _ & _ & _ & E2 & _).
  split; [exact E1 | exact E2].
Defined.

(* ================================================================== *)
(** * The analysis page: creating and restoring a session *)
(* ================================================================== *)

(** The calls that fetching the news adds are history calls for the new
    session. *)
Lemma news_of_fetches data h :
  fetches (snd (AnalysisPage.news_of data h)) = []
  \/ fetches (snd (AnalysisPage.news_of data h)) = [ChatHistory (sa_sessionId data)].
Proof.
  unfold AnalysisPage.news_of.
  destruct (sa_newsArticles data); [left; reflexivity|right].
  destruct h as [m|st e|[m|hd]]; try reflexivity.
  destruct (hist_news_articles hd); reflexivity.
Qed.

Lemma news_of_effect data h w :
  let w' := run (snd (AnalysisPage.news_of data h)) w in
  throw_free (snd (AnalysisPage.news_of data h)) = true
  /\ ctx w' = ctx w /\ localStorage w' = localStorage w
  /\ error (ana w') = error (ana w) /\ sessionId (ana w') = sessionId (ana w)
  /\ loading (ana w') = loading (ana w)
  /\ requests (log w') = requests (log w) ++ fetches (snd (AnalysisPage.news_of data h)).
Proof.
  unfold AnalysisPage.news_of.
  destruct w as [c s l u p1 p2 p3], p2.
  destruct (sa_newsArticles data);
    [|destruct h as [m|st e|[m|hd]]; [| | |destruct (hist_news_articles hd)]];
    cbn; repeat split; log_simpl; reflexivity.
Qed.

(** The SEC part with nothing cached, when the create call succeeds. *)
Lemma startAnalysis_sec_fresh r h w ticker name filing data :
  secWorkflowData (ctx w) = Some (mkSecWorkflowData ticker name (Some filing)) ->
  analysisData (ctx w) = None ->
  read_json r = inr data ->
  AnalysisPage.startAnalysis_sec r h w
  = [SetLoading true; SetError None;
     Fetch (StartAnalysis ticker name (accession_number filing));
     SetSessionId (sa_sessionId data);
     SetExecutiveSummary (JS.or_empty (sa_executiveSummary data));
     SetCompanyInfo (Some (mkCompanyInfo ticker name filing))] ++
    snd (AnalysisPage.news_of data h) ++
    [SetAnalysisData
       (Some (mkAnalysisData (sa_sessionId data)
                (JS.or_empty (sa_executiveSummary data))
                (fst (AnalysisPage.news_of data h)) [] None));
     SetLoading false].
Proof.
  intros Hwf Ha Hr.
  unfold AnalysisPage.startAnalysis_sec. rewrite Hwf, Ha, Hr. cbv zeta.
  unfold AnalysisPage.news_of.
  destruct (sa_newsArticles data) as [news|]; [reflexivity|].
  destruct h as [m|st e|[m|hd]]; try reflexivity.
  destruct (hist_news_articles hd); reflexivity.
Qed.

Lemma startAnalysis_sec_created r h w ticker name filing data :
  secWorkflowData (ctx w) = Some (mkSecWorkflowData ticker name (Some filing)) ->
  analysisData (ctx w) = None ->
  read_json r = inr data ->
  let w1 := fire (AnalysisPage.startAnalysis_sec r h) w in
  ctx w1
  = step_ctx (SetAnalysisData
                (Some (mkAnalysisData (sa_sessionId data)
                         (JS.or_empty (sa_executiveSummary data))
                         (fst (AnalysisPage.news_of data h)) [] None)))
      (ctx w)
  /\ error (ana w1) = None
  /\ loading (ana w1) = false
  /\ sessionId (ana w1) = sa_sessionId data
  /\ requests (log w1)
     = requests (log w) ++ StartAnalysis ticker name (accession_number filing)
                           :: fetches (snd (AnalysisPage.news_of data h)).
Proof.
  intros Hwf Ha Hr w1. subst w1. unfold fire.
  rewrite (startAnalysis_sec_fresh r h w ticker name filing data Hwf Ha Hr).
  destruct (news_of_effect data h
              (run [SetLoading true; SetError None;
                    Fetch (StartAnalysis ticker name (accession_number filing));
                    SetSessionId (sa_sessionId data);
                    SetExecutiveSummary (JS.or_empty (sa_executiveSummary data));
                    SetCompanyInfo (Some (mkCompanyInfo ticker name filing))] w))
    as (Htf & Hc & _ & He & Hs & _ & Hq).
  cbv zeta in Hc, He, Hs, Hq.
  rewrite (run_app _ (snd _ ++ _) w) by reflexivity.
  rewrite run_app by exact Htf.
  set (w0 := run [SetLoading true; _; _; _; _; _] w) in *.
  assert (H0 : ctx w0 = ctx w /\ error (ana w0) = None
               /\ sessionId (ana w0) = sa_sessionId data
               /\ requests (log w0)
                  = requests (log w)
                    ++ [StartAnalysis ticker name (accession_number filing)]).
  { subst w0. destruct w as [c s l u p1 p2 p3], p2. cbn. repeat split.
    log_simpl. reflexivity. }
  destruct H0 as (Hc0 & He0 & Hs0 & Hq0).
  rewrite Hc0 in Hc. rewrite He0 in He. rewrite Hs0 in Hs. rewrite Hq0 in Hq.
  set (wn := run (snd (AnalysisPage.news_of data h)) w0) in *. clearbody wn w0.
  destruct wn as [cn sn ln un q1 q2 q3], q2. cbn in *. subst.
  repeat split. log_simpl. rewrite Hq, <- app_assoc. reflexivity.
Qed.

(** X18.  [startAnalysis] runs again whenever the session state changes.
    After the create call of a new SEC selection has succeeded, that next
    run finds the session it has just stored: with a session id in the
    response it restores the page from it and issues no call.  A
    response without a session id is stored as well, is not recognised,
    and the next run clears it and issues the create call again. *)
Theorem created_session_is_restored_on_rerun r h w ticker name filing data :
  secWorkflowData (ctx w) = Some (mkSecWorkflowData ticker name (Some filing)) ->
  selection_in_step (ctx w) ->
  analysisData (ctx w) = None ->
  read_json r = inr data ->
  let w1 := fire (AnalysisPage.startAnalysis_sec r h) w in
  (ad_sessionId <$> analysisData (ctx w1)) = Some (sa_sessionId data)
  /\ (exists rest,
        requests (log w1)
        = requests (log w) ++ StartAnalysis ticker name (accession_number filing) :: rest
        /\ forall q, In q rest -> q = ChatHistory (sa_sessionId data))
  /\ forall r' h',
       let w2 := fire (AnalysisPage.startAnalysis_sec r' h') w1 in
       (JS.truthy (sa_sessionId data) = true ->
        requests (log w2) = requests (log w1)
        /\ analysisData (ctx w2) = analysisData (ctx w1)
        /\ sessionId (ana w2) = sa_sessionId data
        /\ loading (ana w2) = false
        /\ error (ana w2) = None)
       /\ (JS.truthy (sa_sessionId data) = false ->
           until_fetch (AnalysisPage.startAnalysis_sec r' h' w1)
           = [SetAnalysisData None; SetLoading true; SetError None;
              Fetch (StartAnalysis ticker name (accession_number filing))]).
Proof.
  intros Hwf Hstep Ha Hr w1.
  destruct (startAnalysis_sec_created r h w ticker name filing data Hwf Ha Hr)
    as (Hc & He & Hl & Hs & Hq).
  fold w1 in Hc, He, Hl, Hs, Hq. clearbody w1.
  unfold selection_in_step in Hstep. rewrite Hwf in Hstep.
  assert (Hc1 : secWorkflowData (ctx w1)
                = Some (mkSecWorkflowData ticker name (Some filing))
                /\ selectionMetadata (ctx w1)
                   = Some (selection_of (mkSecWorkflowData ticker name (Some filing)))
                /\ analysisData (ctx w1)
                   = Some (mkAnalysisData (sa_sessionId data)
                             (JS.or_empty (sa_executiveSummary data))
                             (fst (AnalysisPage.news_of data h)) [] None)).
  { rewrite Hc. destruct (ctx w). cbn in *. subst. repeat split. }
  destruct Hc1 as (Hwf1 & Hsm1 & Ha1).
  split; [rewrite Ha1; reflexivity|]. split.
  { exists (fetches (snd (AnalysisPage.news_of data h))). split; [exact Hq|].
    intros q Hin. destruct (news_of_fetches data h) as [E|E]; rewrite E in Hin.
    - destruct Hin.
    - destruct Hin as [<-|[]]. reflexivity. }
  intros r' h' w2. subst w2. unfold fire, AnalysisPage.startAnalysis_sec.
  rewrite Hwf1, Hsm1, Ha1. cbn [ad_sessionId sm_ticker selection_of sm_selected_filing
                                 wf_ticker wf_selected_filing fmap option_fmap option_map].
  unfold strict_eq. rewrite !bool_decide_eq_true_2 by reflexivity.
  rewrite !andb_true_r. split.
  - intros ->. destruct w1 as [c1 s1 l1 u1 q1 q2 q3], q2. cbn in *. subst.
    repeat split.
  - intros ->. destruct (read_json r'); reflexivity.
Qed.

Lemma created_session_is_restored_on_rerun_witness :
  let w := mkWorld
             (mkContext (Some Scenario.origin) None (Some (selection_of Scenario.origin))
                None None None false)
             ∅ [] None (mkSecPage None [] None false None)
             Scenario.blank_ana Scenario.blank_upl in
  let r : HttpResult StartAnalysisData :=
    HttpOk (inr (mkStartAnalysisData "S1" (Some "Summary of 0001-23") (Some []))) in
  let w1 := fire (AnalysisPage.startAnalysis_sec r (NetworkFailure "unused")) w in
  let w2 := fire (AnalysisPage.startAnalysis_sec (NetworkFailure "offline")
                    (NetworkFailure "offline")) w1 in
  selection_in_step (ctx w)
  /\ requests (log w2) = [StartAnalysis "ACME" "Acme Corp" "0001-23"]
  /\ sessionId (ana w2) = "S1".
Proof.
  cbv zeta. split; [reflexivity|].
  pose proof (created_session_is_restored_on_rerun
                (HttpOk (inr (mkStartAnalysisData "S1" (Some "Summary of 0001-23")
                                (Some []))))
                (NetworkFailure "unused")
                (mkWorld
                   (mkContext (Some Scenario.origin) None
                      (Some (selection_of Scenario.origin)) None None None false)
                   ∅ [] None (mkSecPage None [] None false None)
                   Scenario.blank_ana Scenario.blank_upl)
                "ACME" "Acme Corp" Scenario.filing1
                (mkStartAnalysisData "S1" (Some "Summary of 0001-23") (Some []))
                eq_refl eq_refl eq_refl eq_refl) as E.
  cbv zeta in E. destruct E as (_ & _ & E).
  destruct (E (NetworkFailure "offline") (NetworkFailure "offline")) as [E1 _].
  destruct (E1 eq_refl) as (Eq & _ & Es & _).
  split; [rewrite Eq; reflexivity | exact Es].
Defined.

(** The calls of the SEC part: the create call for the selection in
    [secWorkflowData], and history calls. *)
Lemma startAnalysis_sec_fetches r h w q :
  In q (fetches (AnalysisPage.startAnalysis_sec r h w)) ->
  (exists sid, q = ChatHistory sid)
  \/ exists t n f,
       secWorkflowData (ctx w) = Some (mkSecWorkflowData t n (Some f))
       /\ q = StartAnalysis t n (accession_number f).
Proof.
  unfold AnalysisPage.startAnalysis_sec.
  destruct (secWorkflowData (ctx w)) as [[t n [f|]]|]; try (intros []).
  assert (Hcreate : In q (fetches
            (try_catch
               ([SetLoading true; SetError None;
                 Fetch (StartAnalysis t n (accession_number f))] ++
                match read_json r with
                | inl m => [Throw m]
                | inr data =>
                    [SetSessionId (sa_sessionId data);
                     SetExecutiveSummary (JS.or_empty (sa_executiveSummary data));
                     SetCompanyInfo (Some (mkCompanyInfo t n f))] ++
                    snd (AnalysisPage.news_of data h) ++
                    [SetAnalysisData
                       (Some (mkAnalysisData (sa_sessionId data)
                                (JS.or_empty (sa_executiveSummary data))
                                (fst (AnalysisPage.news_of data h)) [] None));
                     SetLoading false]
                end)
               (fun m => [ConsoleError "Failed to start analysis:";
                          SetError (Some m); SetLoading false]))) ->
          (exists sid, q = ChatHistory sid)
          \/ exists t0 n0 f0,
               Some (mkSecWorkflowData t n (Some f))
               = Some (mkSecWorkflowData t0 n0 (Some f0))
               /\ q = StartAnalysis t0 n0 (accession_number f0)).
  { destruct (read_json r) as [m|data].
    - cbn. intros [<-|[]]. right. eauto.
    - unfold AnalysisPage.news_of.
      destruct (sa_newsArticles data);
        [|destruct h as [m|st e|[m|hd]]; [| | |destruct (hist_news_articles hd)]];
        cbn; intros Hin; intuition (subst; eauto 10). }
  cbv zeta.
  destruct (analysisData (ctx w)) as [a|], (selectionMetadata (ctx w)) as [sm|];
    try exact Hcreate.
  destruct (JS.truthy (ad_sessionId a) && _ && _).
  - intros [].
  - rewrite fetches_app. exact Hcreate.
Qed.

(** X19.  Of the three parts of [startAnalysis] only the SEC part creates
    a session.  Whatever the state and whatever the gateway answers, a
    run issues no call but history calls and, in the SEC part, the
    create call for the selection in [secWorkflowData]; the two upload
    parts never alert, never store and never raise. *)
Theorem only_the_sec_part_creates i x :
  let ops := AnalysisPage2.startAnalysis i x in
  (forall q, In q (xfetches ops) ->
     (exists sid, q = ChatHistory sid)
     \/ (AnalysisPage.startAnalysis_branch (ctx (base x)) = AnalysisPage.SecWorkflow
         /\ exists t n f,
              secWorkflowData (ctx (base x)) = Some (mkSecWorkflowData t n (Some f))
              /\ q = StartAnalysis t n (accession_number f)))
  /\ (AnalysisPage.startAnalysis_branch (ctx (base x)) <> AnalysisPage.SecWorkflow ->
      secWorkflowData (ctx (base x)) = None
      /\ xthrow_free ops = true
      /\ localStorage (base (xrun ops x)) = localStorage (base x)
      /\ alerts (log (base (xrun ops x))) = alerts (log (base x))).
Proof.
  intros ops. subst ops. unfold AnalysisPage2.startAnalysis. cbv zeta.
  destruct (AnalysisPage.startAnalysis_branch (ctx (base x))) eqn:Hb.
  - (* restoring an upload session *)
    assert (Hsec : secWorkflowData (ctx (base x)) = None).
    { unfold AnalysisPage.startAnalysis_branch in Hb.
      destruct (secWorkflowData (ctx (base x))); [|reflexivity].
      rewrite !andb_false_r in Hb. cbn in Hb. discriminate Hb. }
    destruct (analysisData (ctx (base x))) as [a|];
      [|split; [intros q []|intros _; repeat split; exact Hsec]].
    unfold AnalysisPage2.startAnalysis_uploadRestore. cbv zeta.
    split.
    + intros q Hin. left. exists (ad_sessionId a).
      rewrite !xfetches_app, xfetches_lift in Hin.
      repeat (apply in_app_or in Hin as [Hin|Hin]).
      * destruct (uploadAnalysisData _) as [ua|];
          [destruct (JS.truthy (ua_sessionId ua))|]; destruct Hin.
      * destruct (JS.truthy _); [destruct Hin|].
        destruct Hin as [<-|Hin]; [reflexivity|].
        destruct (AnalysisPage2.in_history i) as [m|st e|[m|hd]]; destruct Hin.
      * destruct (negb _ && _); [|destruct Hin].
        destruct Hin as [<-|[]]. reflexivity.
      * destruct (AnalysisPage2.in_isFreshUpload i); destruct Hin.
      * destruct (negb _ && _); [|destruct Hin].
        destruct (AnalysisPage2.in_transcript i) as [m|st e|[m|hd]]; try destruct Hin.
        destruct (AnalysisPage2.ch_messages hd); [|destruct Hin].
        destruct (bool_decide _); destruct Hin.
      * destruct (AnalysisPage2.in_isFreshUpload i); destruct Hin.
    + intros _. split; [exact Hsec|].
      destruct x as [[c s l u p1 p2 p3] e], c, e. cbn in *.
      destruct uploadAnalysisData0 as [ua|];
        [destruct (JS.truthy (ua_sessionId ua))|];
        (destruct (JS.truthy _);
         [|destruct (AnalysisPage2.in_history i) as [m1|st1 e1|[m1|hd1]]]);
        destruct (AnalysisPage2.in_isFreshUpload i);
        (destruct (bool_decide (ad_chatMessages a = []));
         [destruct (AnalysisPage2.in_transcript i) as [m2|st2 e2|[m2|hd2]];
          [| | |destruct (AnalysisPage2.ch_messages hd2) as [msgs|];
                [destruct (bool_decide (map _ msgs = []))|]]|]);
        cbn; repeat split; log_simpl; reflexivity.
  - (* recovering an upload session *)
    assert (Hsec : secWorkflowData (ctx (base x)) = None).
    { unfold AnalysisPage.startAnalysis_branch in Hb.
      destruct (secWorkflowData (ctx (base x))); [|reflexivity].
      rewrite !andb_false_r in Hb. cbn in Hb. discriminate Hb. }
    destruct (uploadMetadata (ctx (base x))) as [m|] eqn:Hm;
      [|split; [intros q []|intros _; repeat split; exact Hsec]].
    unfold AnalysisPage2.startAnalysis_uploadRecover. cbv zeta.
    split.
    + intros q Hin. left.
      destruct (uploadAnalysisData _) as [ua|];
        [destruct (JS.truthy (ua_sessionId ua)); [destruct Hin|]|];
        (destruct (AnalysisPage2.in_location_sessionId i) as [lsid|]; [|destruct Hin]);
        (destruct (JS.truthy lsid); [|destruct Hin]);
        exists lsid;
        destruct (AnalysisPage2.in_history i) as [m1|st1 e1|[m1|hd1]]; cbn in Hin;
        intuition congruence.
    + intros _. split; [exact Hsec|].
      destruct x as [[c s l u p1 p2 p3] e], c, e. cbn in *.
      destruct uploadAnalysisData0 as [ua|];
        [destruct (JS.truthy (ua_sessionId ua))|];
        try (destruct (AnalysisPage2.in_location_sessionId i) as [lsid|];
             [destruct (JS.truthy lsid);
              [destruct (AnalysisPage2.in_history i) as [m1|st1 e1|[m1|hd1]]|]|]);
        cbn; repeat split; log_simpl; reflexivity.
  - (* the SEC part *)
    split; [|intros H; contradiction].
    intros q Hin. rewrite xfetches_lift in Hin.
    destruct (startAnalysis_sec_fetches _ _ _ _ Hin) as [H|H]; [left; exact H|].
    right. split; [reflexivity|exact H].
Qed.

(** The cases of a run of the first part. *)
Ltac restore_cases ua um h1 h2 fr :=
  destruct ua as [[usid ues unews um0 uf0]|];
    [destruct usid as [|c0 usid]|];
  (destruct (JS.truthy (JS.or_empty (um ≫= um_companyName)));
   [|destruct h1 as [?|? ?|[?|?]]]);
  destruct fr;
  try (destruct h2 as [?|? ?|[?|[hmeta [[|? ?]|]]]]).

(** X20.  Restoring an upload session on the analysis page keeps the two
    transcripts in step: afterwards [chatMessages] equals the transcript
    in [analysisData].  That is the cached one when it is not empty or
    the upload is fresh; else it is the one fetched from the history,
    when that call yields messages.  The session in [analysisData] is
    otherwise unchanged, no error is set, the company is shown and the
    loading screen ends.  One history call is issued when the form has
    no company name and one when the transcript is fetched. *)
Theorem upload_restore_keeps_transcripts_in_step isFreshUpload now h1 h2 a x :
  analysisData (ctx (base x)) = Some a ->
  let ops := AnalysisPage2.startAnalysis_uploadRestore isFreshUpload now h1 h2 a x in
  let x' := xrun ops x in
  let named := JS.truthy (JS.or_empty (uploadMetadata (ctx (base x)) ≫= um_companyName)) in
  let refetch := negb isFreshUpload && bool_decide (ad_chatMessages a = []) in
  (exists a', analysisData (ctx (base x')) = Some a'
     /\ ad_sessionId a' = ad_sessionId a
     /\ ad_sourceType a' = ad_sourceType a
     /\ ad_executiveSummary a' = ad_executiveSummary a
     /\ ad_chatMessages a' = chatMessages (ana (base x')))
  /\ xfetches ops
     = repeat (ChatHistory (ad_sessionId a))
         ((if named then 0 else 1) + (if refetch then 1 else 0))
  /\ (refetch = false -> chatMessages (ana (base x')) = ad_chatMessages a)
  /\ (refetch = true ->
      forall hd msgs, h2 = HttpOk (inr hd) -> AnalysisPage2.ch_messages hd = Some msgs ->
        chatMessages (ana (base x')) = map (AnalysisPage2.format_message now) msgs)
  /\ loading (ana (base x')) = false
  /\ error (ana (base x')) = error (ana (base x))
  /\ is_Some (uploadCompanyInfo (extra x'))
  /\ uncaught (base x') = uncaught (base x)
  /\ localStorage (base x') = localStorage (base x).
Proof.
  intros Ha ops x' named refetch. subst ops x' named refetch.
  unfold AnalysisPage2.startAnalysis_uploadRestore. cbv zeta.
  destruct x as [[c s l u p1 p2 p3] e], c, e, p2, a as [sid es news chat st].
  cbn in Ha. subst. cbn [base ctx uploadAnalysisData uploadMetadata ad_chatMessages
                         ad_sessionId ad_executiveSummary ad_newsArticles].
  destruct chat as [|m0 chat].
  - rewrite (bool_decide_eq_true_2 ([] = [])) by reflexivity. rewrite andb_true_r.
    split; [|split; [|split; [|split]]].
    + restore_cases uploadAnalysisData0 uploadMetadata0 h1 h2 isFreshUpload;
        cbn; eexists; repeat split.
    + restore_cases uploadAnalysisData0 uploadMetadata0 h1 h2 isFreshUpload; reflexivity.
    + restore_cases uploadAnalysisData0 uploadMetadata0 h1 h2 isFreshUpload;
        cbn; intros H; try discriminate H; reflexivity.
    + restore_cases uploadAnalysisData0 uploadMetadata0 h1 h2 isFreshUpload;
        cbn; intros H hd msgs E1 E2; try discriminate H; try discriminate E1;
        injection E1 as <-; cbn in E2; try discriminate E2;
        injection E2 as <-; reflexivity.
    + restore_cases uploadAnalysisData0 uploadMetadata0 h1 h2 isFreshUpload;
        cbn; repeat split; eauto.
  - rewrite (bool_decide_eq_false_2 (m0 :: chat = [])) by discriminate.
    rewrite andb_false_r.
    split; [|split; [|split; [|split]]].
    + restore_cases uploadAnalysisData0 uploadMetadata0 h1 h2 isFreshUpload;
        cbn; eexists; repeat split.
    + restore_cases uploadAnalysisData0 uploadMetadata0 h1 h2 isFreshUpload; reflexivity.
    + restore_cases uploadAnalysisData0 uploadMetadata0 h1 h2 isFreshUpload;
        cbn; intros _; reflexivity.
    + intros H. discriminate H.
    + restore_cases uploadAnalysisData0 uploadMetadata0 h1 h2 isFreshUpload;
        cbn; repeat split; eauto.
Qed.

Lemma upload_restore_keeps_transcripts_in_step_witness :
  let stored := AnalysisPage2.mkBackendMessage None (Some "user")
                  (Some "What is the revenue?") None None (Some "t0") in
  let h2 : HttpResult AnalysisPage2.ChatHistoryData :=
    HttpOk (inr (AnalysisPage2.mkChatHistoryData None (Some [stored]))) in
  let x := xworld (Scenario.uploaded (Some Scenario.form) (Some Scenario.report)) in
  let x' := xrun (AnalysisPage2.startAnalysis_uploadRestore false "t1"
                    (NetworkFailure "unused") h2 Scenario.U1 x) x in
  analysisData (ctx (base x)) = Some Scenario.U1
  /\ chatMessages (ana (base x'))
     = [mkMessage user "What is the revenue?" (Some "") false "t0"]
  /\ AnalysisPage.displayChatMessages (base x') = chatMessages (ana (base x')).
Proof.
  cbv zeta. split; [reflexivity|].
  pose proof (upload_restore_keeps_transcripts_in_step false "t1"
                (NetworkFailure "unused")
                (HttpOk (inr (AnalysisPage2.mkChatHistoryData None
                                (Some [AnalysisPage2.mkBackendMessage None (Some "user")
                                         (Some "What is the revenue?") None None
                                         (Some "t0")]))))
                Scenario.U1
                (xworld (Scenario.uploaded (Some Scenario.form) (Some Scenario.report)))
                eq_refl) as E.
  cbv zeta in E. destruct E as (_ & _ & _ & E & _).
  split; [exact (E eq_refl _ _ eq_refl eq_refl) | reflexivity].
Defined.

(** X21.  With the form of an upload in the context but no session in
    [analysisData], [startAnalysis] rebuilds the session from
    [uploadAnalysisData] when that carries a session id: no call is
    issued, [analysisData] becomes an upload session with an empty
    transcript, and the next run takes the restoring part.  Without it
    and without a session id in the location nothing can be shown: the
    error is set, no call is issued and [analysisData] stays as it is. *)
Theorem upload_recover_rebuilds_session i x m :
  secWorkflowData (ctx (base x)) = None ->
  uploadMetadata (ctx (base x)) = Some m ->
  AnalysisPage.has_sessionId (analysisData (ctx (base x))) = false ->
  let ops := AnalysisPage2.startAnalysis i x in
  let x' := xrun ops x in
  AnalysisPage.startAnalysis_branch (ctx (base x)) = AnalysisPage.UploadRecover
  /\ (forall ua, uploadAnalysisData (ctx (base x)) = Some ua ->
        JS.truthy (ua_sessionId ua) = true ->
        xfetches ops = []
        /\ analysisData (ctx (base x'))
           = Some (mkAnalysisData (ua_sessionId ua) (ua_executiveSummary ua)
                     (ua_newsArticles ua) [] (Some "upload"))
        /\ sessionId (ana (base x')) = ua_sessionId ua
        /\ error (ana (base x')) = error (ana (base x))
        /\ loading (ana (base x')) = false
        /\ AnalysisPage.startAnalysis_branch (ctx (base x')) = AnalysisPage.UploadRestore)
  /\ (UploadPage.hasActiveAnalysis (ctx (base x)) = false ->
      AnalysisPage2.in_location_sessionId i = None ->
      xfetches ops = []
      /\ analysisData (ctx (base x')) = analysisData (ctx (base x))
      /\ error (ana (base x'))
         = Some "Analysis data not found. Please try uploading again."
      /\ loading (ana (base x')) = false).
Proof.
  intros Hsec Hm Hno ops x'.
  assert (Hb : AnalysisPage.startAnalysis_branch (ctx (base x))
               = AnalysisPage.UploadRecover).
  { unfold AnalysisPage.startAnalysis_branch. rewrite Hsec, Hm, Hno.
    rewrite andb_false_r. reflexivity. }
  split; [exact Hb|].
  subst ops x'. unfold AnalysisPage2.startAnalysis. cbv zeta. rewrite Hb, Hm.
  unfold AnalysisPage2.startAnalysis_uploadRecover. cbv zeta.
  split.
  - intros ua Hua Hsid. rewrite Hua, Hsid.
    destruct x as [[c s l u p1 p2 p3] e], c, e, p2. cbn in *. subst.
    repeat split.
    unfold AnalysisPage.startAnalysis_branch, isUploadSourceType. cbn.
    rewrite Hsid. reflexivity.
  - intros Hact Hloc. rewrite Hloc.
    unfold UploadPage.hasActiveAnalysis in Hact.
    destruct (uploadAnalysisData (ctx (base x))) as [ua|];
      [rewrite Hact|];
      destruct x as [[c s l u p1 p2 p3] e], c, e, p2; cbn; repeat split.
Qed.

Lemma upload_recover_rebuilds_session_witness :
  let w := mkWorld
             (mkContext None None None (Some Scenario.form) None
                (Some Scenario.U1_data) false)
             ∅ [] None (mkSecPage None [] None false None)
             Scenario.blank_ana Scenario.blank_upl in
  let i := AnalysisPage2.mkStartInputs false None "t1" (NetworkFailure "unused")
             (NetworkFailure "unused") (NetworkFailure "unused")
             (NetworkFailure "unused") in
  let x' := xrun (AnalysisPage2.startAnalysis i (xworld w)) (xworld w) in
  AnalysisPage.has_sessionId (analysisData (ctx w)) = false
  /\ analysisData (ctx (base x')) = Some Scenario.U1
  /\ AnalysisPage.startAnalysis_branch (ctx (base x')) = AnalysisPage.UploadRestore.
Proof.
  cbv zeta. split; [reflexivity|].
  pose proof (upload_recover_rebuilds_session
                (AnalysisPage2.mkStartInputs false None "t1" (NetworkFailure "unused")
                   (NetworkFailure "unused") (NetworkFailure "unused")
                   (NetworkFailure "unused"))
                (xworld (mkWorld
                           (mkContext None None None (Some Scenario.form) None
                              (Some Scenario.U1_data) false)
                           ∅ [] None (mkSecPage None [] None false None)
                           Scenario.blank_ana Scenario.blank_upl))
                Scenario.form eq_refl eq_refl eq_refl) as E.
  cbv zeta in E. destruct E as (_ & E & _).
  destruct (E Scenario.U1_data eq_refl eq_refl) as (_ & E1 & _ & _ & _ & E2).
  split; [exact E1 | exact E2].
Defined.

(* ================================================================== *)
(** * The landing page: the list of past analyses *)
(* ================================================================== *)

Lemma startsWith_spec s p :
  JS2.startsWith s p = true <-> exists post, s = p +:+ post.
Proof.
  revert s. induction p as [|a p IH]; intros s.
  - split; [intros _; exists s; reflexivity|intros _; destruct s; reflexivity].
  - destruct s as [|b s]; cbn.
    + split; [discriminate|intros [post E]; discriminate E].
    + rewrite andb_true_iff, Ascii.eqb_eq, IH. split.
      * intros [-> [post ->]]. exists post. reflexivity.
      * intros [post E]. rewrite append_cons in E. injection E as -> ->. eauto.
Qed.

(** [includes] finds exactly the substrings. *)
Lemma includes_spec s sub :
  JS2.includes s sub = true <-> exists pre post, s = pre +:+ sub +:+ post.
Proof.
  induction s as [|b s IH].
  - cbn [JS2.includes]. rewrite orb_false_r, startsWith_spec. split.
    + intros [post E]. exists "", post. exact E.
    + intros (pre & post & E). destruct pre; [eauto|discriminate E].
  - cbn [JS2.includes]. rewrite orb_true_iff, startsWith_spec, IH. split.
    + intros [[post E]|(pre & post & E)].
      * exists "", post. exact E.
      * exists (String b pre), post. rewrite E. reflexivity.
    + intros (pre & post & E). destruct pre as [|c pre].
      * left. exists post. exact E.
      * right. rewrite append_cons in E. injection E as -> ->. eauto.
Qed.

Section SortFacts.
Context {A : Type} (le : A -> A -> bool).
Hypothesis le_total : forall a b, le a b = true \/ le b a = true.

Lemma insert_by_perm a l : Permutation (JS2.insert_by le a l) (a :: l).
Proof.
  induction l as [|b l IH]; [reflexivity|].
  cbn. destruct (le a b); [reflexivity|].
  rewrite IH. apply perm_swap.
Qed.

Lemma sort_by_perm l : Permutation (JS2.sort_by le l) l.
Proof.
  induction l as [|a l IH]; [reflexivity|].
  cbn. rewrite insert_by_perm. constructor. exact IH.
Qed.

Lemma insert_by_sorted a l :
  Sorted (fun x y => le x y = true) l ->
  Sorted (fun x y => le x y = true) (JS2.insert_by le a l).
Proof.
  induction 1 as [|b l Hs IH Hhd]; [repeat constructor|].
  cbn. destruct (le a b) eqn:E.
  - repeat constructor; assumption.
  - constructor; [exact IH|].
    assert (Hba : le b a = true) by (destruct (le_total a b); congruence).
    destruct Hhd as [|c l Hbc]; cbn; [repeat constructor; exact Hba|].
    destruct (le a c); constructor; assumption.
Qed.

Lemma sort_by_sorted l : Sorted (fun x y => le x y = true) (JS2.sort_by le l).
Proof.
  induction l as [|a l IH]; [constructor|].
  cbn. apply insert_by_sorted, IH.
Qed.

(** The sort is stable: on a list that is already in order it changes
    nothing. *)
Lemma sort_by_sorted_id l :
  Sorted (fun x y => le x y = true) l -> JS2.sort_by le l = l.
Proof.
  induction 1 as [|a l Hs IH Hhd]; [reflexivity|].
  cbn. fold (JS2.sort_by le l). rewrite IH.
  destruct Hhd as [|b l Hab]; [reflexivity|]. cbn. rewrite Hab. reflexivity.
Qed.

End SortFacts.

Lemma List_filter_sublist {A} (f : A -> bool) l : sublist (List.filter f l) l.
Proof.
  induction l as [|a l IH]; [constructor|].
  cbn. destruct (f a); [apply sublist_skip|apply sublist_cons]; exact IH.
Qed.

Lemma Sorted_weaken {A} (R1 R2 : A -> A -> Prop) l :
  (forall a b, R1 a b -> R2 a b) -> Sorted R1 l -> Sorted R2 l.
Proof.
  intros Himp. induction 1 as [|a l Hs IH Hhd]; constructor; [exact IH|].
  destruct Hhd; constructor. apply Himp. assumption.
Qed.

Section HistoryFacts.
Variable getTime : string -> Z.

Lemma before_total o a b :
  LandingPage.before getTime o a b = true \/ LandingPage.before getTime o b a = true.
Proof.
  unfold LandingPage.before. destruct (String.eqb o "newest");
    rewrite !Z.leb_le; lia.
Qed.

Lemma filtered_elem p item l :
  In item
    (let filtered := l in
     let filtered :=
       if JS.truthy (LandingPage.filterCompany p)
       then List.filter (LandingPage.company_matches (LandingPage.filterCompany p)) filtered
       else filtered in
     if negb (String.eqb (LandingPage.filterType p) "all")
     then List.filter (fun item => String.eqb (LandingPage.type item)
                                     (LandingPage.filterType p)) filtered
     else filtered)
  <-> In item l /\ shown_by_filters p item.
Proof.
  cbv zeta. unfold shown_by_filters.
  assert (Hc : In item
                 (if JS.truthy (LandingPage.filterCompany p)
                  then List.filter
                         (LandingPage.company_matches (LandingPage.filterCompany p)) l
                  else l)
               <-> In item l
                   /\ (LandingPage.filterCompany p = ""
                       \/ exists n pre post,
                            LandingPage.company_name item = Some n
                            /\ JS.toLowerCase n
                               = pre +:+ JS.toLowerCase (LandingPage.filterCompany p)
                                 +:+ post)).
  { destruct (JS.truthy (LandingPage.filterCompany p)) eqn:E.
    - apply truthy_iff in E. rewrite filter_In. unfold LandingPage.company_matches.
      destruct (LandingPage.company_name item) as [n|].
      + rewrite includes_spec. split.
        * intros [Hin (pre & post & Hn)]. split; [exact Hin|]. right. eauto.
        * intros [Hin [H|(n' & pre & post & Hn & Hs)]]; [contradiction|].
          injection Hn as <-. eauto.
      + split; [intros [_ H]; discriminate H|].
        intros [_ [H|(n' & pre & post & Hn & _)]]; [contradiction|discriminate Hn].
    - destruct (LandingPage.filterCompany p); [|discriminate E]. tauto. }
  destruct (String.eqb (LandingPage.filterType p) "all") eqn:E; cbn [negb].
  - apply String.eqb_eq in E. rewrite Hc. tauto.
  - apply String.eqb_neq in E. rewrite filter_In, Hc, String.eqb_eq. tauto.
Qed.

(** X22.  The list of past analyses that the landing page shows holds
    exactly the entries of the history that pass both filters: the
    company filter, when not empty, keeps the entries whose company name
    contains it, letter case apart, and drops those without a name; the
    type filter, unless it is 'all', keeps the entries of that type.
    They are ordered by date, newest first or oldest first, an entry
    without a timestamp counting as date 0; without filters, a history
    that is already in that order is shown as it is. *)
Theorem history_is_filtered_and_sorted p :
  let shown := LandingPage.filteredAndSortedHistory getTime p in
  (forall item, In item shown <-> In item (LandingPage.history p) /\ shown_by_filters p item)
  /\ (exists kept, Permutation shown kept /\ sublist kept (LandingPage.history p))
  /\ Sorted (fun a b => if String.eqb (LandingPage.sortOrder p) "newest"
                        then LandingPage.date getTime b <= LandingPage.date getTime a
                        else LandingPage.date getTime a <= LandingPage.date getTime b)
       shown
  /\ (LandingPage.filterCompany p = "" -> LandingPage.filterType p = "all" ->
      Permutation shown (LandingPage.history p)
      /\ (Sorted (fun a b => LandingPage.before getTime (LandingPage.sortOrder p) a b = true)
            (LandingPage.history p) ->
          shown = LandingPage.history p)).
Proof.
  intros shown. subst shown. unfold LandingPage.filteredAndSortedHistory. cbv zeta.
  pose proof (fun item => filtered_elem p item (LandingPage.history p)) as Helem.
  cbv zeta in Helem.
  set (filtered := if negb _ then _ else _) in *.
  assert (Hperm : Permutation (JS2.sort_by (LandingPage.before getTime
                                              (LandingPage.sortOrder p)) filtered)
                    filtered) by apply sort_by_perm.
  split; [|split; [|split]].
  - intros item. rewrite <- Helem. split; intros H.
    + eapply Permutation_in; [exact Hperm|exact H].
    + eapply Permutation_in; [symmetry; exact Hperm|exact H].
  - exists filtered. split; [exact Hperm|].
    subst filtered.
    destruct (JS.truthy _), (negb _);
      repeat (etrans; [apply List_filter_sublist|]); reflexivity.
  - pose proof (sort_by_sorted (LandingPage.before getTime (LandingPage.sortOrder p))
                  (before_total (LandingPage.sortOrder p)) filtered) as Hs.
    revert Hs. apply Sorted_weaken. intros a b. unfold LandingPage.before.
    destruct (String.eqb (LandingPage.sortOrder p) "newest");
      rewrite Z.leb_le; lia.
  - intros Hc Ht. subst filtered. rewrite Hc, Ht in *. cbn in *.
    split; [exact Hperm|]. apply sort_by_sorted_id.
Qed.

Lemma shown_in_history p item :
  In item (LandingPage.displayedHistory getTime p) -> In item (LandingPage.history p).
Proof.
  intros Hin.
  assert (Hall : In item (LandingPage.filteredAndSortedHistory getTime p)).
  { unfold LandingPage.displayedHistory in Hin.
    destruct (LandingPage.showOlder p); [exact Hin|].
    rewrite <- (take_drop 5 (LandingPage.filteredAndSortedHistory getTime p)).
    apply in_or_app. left. exact Hin. }
  unfold LandingPage.filteredAndSortedHistory in Hall. cbv zeta in Hall.
  eapply Permutation_in in Hall; [|apply sort_by_perm].
  apply (filtered_elem p item (LandingPage.history p)) in Hall. apply Hall.
Qed.

(** X23.  The landing page shows the first five entries of the filtered
    and sorted list, or all of them once the older ones are asked for.
    The button that asks for them is offered exactly when the list has
    more than five entries, that is, exactly when the short list leaves
    some out. *)
Theorem displayed_history_is_a_prefix p :
  let all := LandingPage.filteredAndSortedHistory getTime p in
  let shown := LandingPage.displayedHistory getTime p in
  shown `prefix_of` all
  /\ length shown
     = (if LandingPage.showOlder p then length all else Nat.min 5 (length all))
  /\ (LandingPage.hasMoreChats getTime p = true <-> (5 < length all)%nat)
  /\ (LandingPage.showOlder p = false ->
      (LandingPage.hasMoreChats getTime p = true <-> shown <> all)).
Proof.
  intros all shown. subst all shown.
  unfold LandingPage.displayedHistory, LandingPage.hasMoreChats.
  set (all := LandingPage.filteredAndSortedHistory getTime p).
  split; [|split; [|split]].
  - destruct (LandingPage.showOlder p); [reflexivity|].
    exists (drop 5 all). symmetry. apply take_drop.
  - destruct (LandingPage.showOlder p); [reflexivity|]. apply length_take.
  - apply Nat.ltb_lt.
  - intros ->. rewrite Nat.ltb_lt. split.
    + intros Hlen E. apply (f_equal length) in E. rewrite length_take in E. lia.
    + intros Hne. destruct (le_lt_dec (length all) 5) as [Hle|Hlt]; [|exact Hlt].
      exfalso. apply Hne. apply take_ge. exact Hle.
Qed.

(** X24.  Confirming the deletion of a past analysis issues one DELETE
    call and disables the dialog while it is in flight.  When the call
    succeeds, exactly the entries with that session id leave the history,
    the others keep their order, the dialog closes, and the entry is no
    longer shown.  When it fails the history and the dialog stay as they
    are and one alert is shown.  Either way [deletingId] is released. *)
Theorem delete_removes_only_on_success r p id :
  LandingPage.sessionToDelete p = Some id ->
  id <> "" ->
  let p' := LandingPage.handleDeleteConfirm r p in
  LandingPage.deleteCalls p' = LandingPage.deleteCalls p ++ [id]
  /\ LandingPage.deletingId p' = None
  /\ LandingPage.dialogButtons_disabled (LandingPage.deleting p) = true
  /\ LandingPage.deleteCalls (LandingPage.deleting p) = LandingPage.deleteCalls p ++ [id]
  /\ (LandingPage.delete_error r = None ->
      (forall item, In item (LandingPage.history p')
                    <-> In item (LandingPage.history p)
                        /\ LandingPage.session_id item <> id)
      /\ sublist (LandingPage.history p') (LandingPage.history p)
      /\ LandingPage.showDeleteDialog p' = false
      /\ LandingPage.sessionToDelete p' = None
      /\ LandingPage.alerted p' = LandingPage.alerted p
      /\ (forall item, In item (LandingPage.displayedHistory getTime p') ->
                       LandingPage.session_id item <> id)
      /\ forall r', LandingPage.handleDeleteConfirm r' p' = p')
  /\ (forall m, LandingPage.delete_error r = Some m ->
      LandingPage.history p' = LandingPage.history p
      /\ LandingPage.showDeleteDialog p' = LandingPage.showDeleteDialog p
      /\ LandingPage.sessionToDelete p' = Some id
      /\ LandingPage.alerted p'
         = LandingPage.alerted p ++ ["Failed to delete chat: " +:+ m]).
Proof.
  intros Hs Hid p'. apply truthy_iff in Hid.
  assert (Hp' : p' = match LandingPage.delete_error r with
                     | None =>
                         LandingPage.mkPage
                           (List.filter
                              (fun item => negb (String.eqb (LandingPage.session_id item) id))
                              (LandingPage.history p))
                           (LandingPage.loading p) (LandingPage.error p)
                           (LandingPage.showOlder p) None false None
                           (LandingPage.sortOrder p) (LandingPage.filterCompany p)
                           (LandingPage.filterType p)
                           (LandingPage.deleteCalls p ++ [id]) (LandingPage.alerted p)
                     | Some m =>
                         LandingPage.mkPage (LandingPage.history p)
                           (LandingPage.loading p) (LandingPage.error p)
                           (LandingPage.showOlder p) None
                           (LandingPage.showDeleteDialog p) (LandingPage.sessionToDelete p)
                           (LandingPage.sortOrder p) (LandingPage.filterCompany p)
                           (LandingPage.filterType p)
                           (LandingPage.deleteCalls p ++ [id])
                           (LandingPage.alerted p ++ ["Failed to delete chat: " +:+ m])
                     end).
  { subst p'. unfold LandingPage.handleDeleteConfirm. rewrite Hs, Hid. reflexivity. }
  assert (Hd : LandingPage.deleting p
               = LandingPage.mkPage (LandingPage.history p)
                   (LandingPage.loading p) (LandingPage.error p)
                   (LandingPage.showOlder p) (Some id)
                   (LandingPage.showDeleteDialog p) (LandingPage.sessionToDelete p)
                   (LandingPage.sortOrder p) (LandingPage.filterCompany p)
                   (LandingPage.filterType p)
                   (LandingPage.deleteCalls p ++ [id]) (LandingPage.alerted p)).
  { unfold LandingPage.deleting. rewrite Hs, Hid. reflexivity. }
  clearbody p'. subst p'. rewrite Hd.
  split; [destruct (LandingPage.delete_error r); reflexivity|].
  split; [destruct (LandingPage.delete_error r); reflexivity|].
  split; [reflexivity|]. split; [reflexivity|]. split.
  - intros ->.
    assert (Hin : forall item,
               In item (List.filter
                          (fun item => negb (String.eqb (LandingPage.session_id item) id))
                          (LandingPage.history p))
               <-> In item (LandingPage.history p) /\ LandingPage.session_id item <> id).
    { intros item. rewrite filter_In, negb_true_iff, String.eqb_neq. reflexivity. }
    cbn [LandingPage.history LandingPage.showDeleteDialog LandingPage.sessionToDelete
         LandingPage.alerted].
    split; [exact Hin|]. split; [apply List_filter_sublist|].
    do 3 (split; [reflexivity|]). split.
    + intros item Hshown. apply shown_in_history in Hshown.
      cbn [LandingPage.history] in Hshown. apply Hin in Hshown. apply Hshown.
    + intros r'. reflexivity.
  - intros m ->. cbn. rewrite Hs. repeat split.
Qed.

End HistoryFacts.

Lemma delete_removes_only_on_success_witness :
  let old := LandingPage.mkHistoryItem "S0" (Some "Acme Corp") "sec" (Some "2024-02-01") in
  let new := LandingPage.mkHistoryItem "U1" (Some "Acme Corp") "upload" None in
  let p := LandingPage.mkPage [old; new] false None false None true (Some "S0")
             "newest" "" "all" [] [] in
  let p' := LandingPage.handleDeleteConfirm (HttpOk (inr tt)) p in
  LandingPage.sessionToDelete p = Some "S0"
  /\ LandingPage.history p' = [new]
  /\ LandingPage.deleteCalls p' = ["S0"].
Proof.
  cbv zeta. split; [reflexivity|].
  pose proof (delete_removes_only_on_success (fun _ => 0) (HttpOk (inr tt))
                (LandingPage.mkPage
                   [LandingPage.mkHistoryItem "S0" (Some "Acme Corp") "sec"
                      (Some "2024-02-01");
                    LandingPage.mkHistoryItem "U1" (Some "Acme Corp") "upload" None]
                   false None false None true (Some "S0") "newest" "" "all" [] [])
                "S0" eq_refl ltac:(discriminate)) as E.
  cbv zeta in E. destruct E as (E & _). split; [reflexivity | exact E].
Defined.

(* ================================================================== *)
(** * The provider: what is stored and what a reload brings back *)
(* ================================================================== *)

Section StoreFacts.
Context `{JSON_session : !JSON SessionData}
        `{JSON_meta : !JSON UploadMeta}
        `{JSON_data : !JSON UploadAnalysisData}.

(** Lookups through the three records the effects write. *)
Ltac lookup_keys :=
  repeat first [ rewrite lookup_partial_alter_eq
               | rewrite lookup_partial_alter_ne by congruence ];
  reflexivity.

(** The store after the two persistence effects: each of the three keys
    is set to the JSON text of its part of the state, or removed. *)
Lemma persist_storage now w :
  let c := ctx w in
  persist now w
  = with_localStorage w
      (partial_alter (fun _ => JSON_stringify <$> uploadAnalysisData c) UPLOAD_DATA_KEY
         (partial_alter (fun _ => JSON_stringify <$> uploadMetadata c) UPLOAD_META_KEY
            (partial_alter
               (fun _ =>
                  if JS.non_null (analysisData c) || JS.non_null (selectionMetadata c)
                     || JS.non_null (secWorkflowData c)
                  then Some (JSON_stringify
                               (mkSessionData (analysisData c) (selectionMetadata c)
                                  (secWorkflowData c) now None))
                  else None)
               ACTIVE_SESSION_KEY (localStorage w)))).
Proof.
  unfold persist, persist_active_session, persist_upload.
  destruct w as [c s l u p1 p2 p3], c as [wf a sm um uf ua al].
  cbn [ctx analysisData selectionMetadata secWorkflowData uploadMetadata
       uploadAnalysisData].
  destruct (JS.non_null a || JS.non_null sm || JS.non_null wf);
    destruct um as [m|], ua as [d|]; reflexivity.
Qed.

(** X25.  After the two persistence effects the store mirrors the state:
    the form and the upload session are stored under their keys exactly
    when they are not null, as their JSON text; the session record is
    there exactly when one of its three parts is not null; no other key
    is touched.  Running the effects again, at whatever time, gives what
    a single run at that time gives: every key but the session record
    keeps its value, and the session record differs at most in its
    timestamp. *)
Theorem persist_mirrors_state now w :
  let w' := persist now w in
  let c := ctx w in
  localStorage w' !! UPLOAD_META_KEY = JSON_stringify <$> uploadMetadata c
  /\ localStorage w' !! UPLOAD_DATA_KEY = JSON_stringify <$> uploadAnalysisData c
  /\ localStorage w' !! ACTIVE_SESSION_KEY
     = (if JS.non_null (analysisData c) || JS.non_null (selectionMetadata c)
           || JS.non_null (secWorkflowData c)
        then Some (JSON_stringify
                     (mkSessionData (analysisData c) (selectionMetadata c)
                        (secWorkflowData c) now None))
        else None)
  /\ (forall k, k <> UPLOAD_META_KEY -> k <> UPLOAD_DATA_KEY -> k <> ACTIVE_SESSION_KEY ->
        localStorage w' !! k = localStorage w !! k)
  /\ ctx w' = ctx w /\ log w' = log w /\ uncaught w' = uncaught w
  /\ (forall now', persist now' w' = persist now' w)
  /\ (forall now' k, k <> ACTIVE_SESSION_KEY ->
        localStorage (persist now' w') !! k = localStorage w' !! k)
  /\ (forall now',
        localStorage (persist now' w') !! ACTIVE_SESSION_KEY
        = (if JS.non_null (analysisData c) || JS.non_null (selectionMetadata c)
              || JS.non_null (secWorkflowData c)
           then Some (JSON_stringify
                        (mkSessionData (analysisData c) (selectionMetadata c)
                           (secWorkflowData c) now' None))
           else None)).
Proof.
  intros w' c. subst w' c.
  pose proof (persist_storage now w) as E. cbv zeta in E.
  assert (Hmd : UPLOAD_DATA_KEY <> UPLOAD_META_KEY) by discriminate.
  assert (Hda : UPLOAD_DATA_KEY <> ACTIVE_SESSION_KEY) by discriminate.
  assert (Hma : UPLOAD_META_KEY <> ACTIVE_SESSION_KEY) by discriminate.
  assert (L1 : localStorage (persist now w) !! UPLOAD_META_KEY
               = JSON_stringify <$> uploadMetadata (ctx w)).
  { rewrite E. cbn [localStorage with_localStorage].
    rewrite lookup_partial_alter_ne by exact Hmd. apply lookup_partial_alter_eq. }
  assert (L2 : localStorage (persist now w) !! UPLOAD_DATA_KEY
               = JSON_stringify <$> uploadAnalysisData (ctx w)).
  { rewrite E. cbn [localStorage with_localStorage]. apply lookup_partial_alter_eq. }
  assert (L3 : localStorage (persist now w) !! ACTIVE_SESSION_KEY
               = (if JS.non_null (analysisData (ctx w))
                     || JS.non_null (selectionMetadata (ctx w))
                     || JS.non_null (secWorkflowData (ctx w))
                  then Some (JSON_stringify
                               (mkSessionData (analysisData (ctx w))
                                  (selectionMetadata (ctx w))
                                  (secWorkflowData (ctx w)) now None))
                  else None)).
  { rewrite E. cbn [localStorage with_localStorage].
    rewrite !lookup_partial_alter_ne by assumption. apply lookup_partial_alter_eq. }
  assert (L4 : forall k, k <> UPLOAD_META_KEY -> k <> UPLOAD_DATA_KEY ->
                         k <> ACTIVE_SESSION_KEY ->
                 localStorage (persist now w) !! k = localStorage w !! k).
  { intros k H1 H2 H3. rewrite E. cbn [localStorage with_localStorage].
    rewrite !lookup_partial_alter_ne by congruence. reflexivity. }
  assert (Hc : ctx (persist now w) = ctx w) by (rewrite E; reflexivity).
  split; [exact L1|]. split; [exact L2|]. split; [exact L3|]. split; [exact L4|].
  split; [exact Hc|]. split; [rewrite E; reflexivity|].
  split; [rewrite E; reflexivity|].
  assert (Hagain : forall now', persist now' (persist now w) = persist now' w).
  { intros now'. rewrite (persist_storage now' (persist now w)), Hc.
    rewrite (persist_storage now' w), E.
    destruct w as [c0 s0 l0 u0 q1 q2 q3].
    unfold with_localStorage. cbn [ctx localStorage log uncaught sec ana upl].
    f_equal. apply map_eq. intros k.
    destruct (decide (k = UPLOAD_DATA_KEY)) as [->|H2]; [lookup_keys|].
    destruct (decide (k = UPLOAD_META_KEY)) as [->|H1]; [lookup_keys|].
    destruct (decide (k = ACTIVE_SESSION_KEY)) as [->|H3]; lookup_keys. }
  split; [exact Hagain|]. split.
  - intros now' k Hk. rewrite Hagain.
    rewrite (persist_storage now' w), E. cbn [localStorage with_localStorage].
    destruct (decide (k = UPLOAD_DATA_KEY)) as [->|H2]; [lookup_keys|].
    destruct (decide (k = UPLOAD_META_KEY)) as [->|H1]; lookup_keys.
  - intros now'. rewrite Hagain, (persist_storage now' w).
    cbn [localStorage with_localStorage]. lookup_keys.
Qed.

(** X26.  The cleanup that runs when the application mounts removes the
    two keys of an earlier version and nothing else: the provider's
    three records stay, every other key keeps its value, and the session
    record, when it can be read, is stored again without its
    [uploadMetadata] field.  The state is not touched, nothing is
    alerted and nothing is raised. *)
Theorem App_cleanup_keeps_the_records w :
  let s := localStorage w in
  let w' := run (App_cleanup s) w in
  localStorage w' !! "upload_session" = None
  /\ localStorage w' !! "upload_metadata" = None
  /\ (forall k, k <> "upload_session" -> k <> "upload_metadata" ->
                k <> ACTIVE_SESSION_KEY ->
        localStorage w' !! k = s !! k)
  /\ (is_Some (localStorage w' !! ACTIVE_SESSION_KEY) <-> is_Some (s !! ACTIVE_SESSION_KEY))
  /\ (forall stored parsed,
        s !! ACTIVE_SESSION_KEY = Some stored -> JS.truthy stored = true ->
        JSON_parse stored = Some (Some parsed) ->
        localStorage w' !! ACTIVE_SESSION_KEY
        = Some (if JS.non_null (sd_uploadMetadata parsed)
                then JSON_stringify
                       (mkSessionData (sd_analysisData parsed)
                          (sd_selectionMetadata parsed) (sd_secWorkflowData parsed)
                          (sd_timestamp parsed) None)
                else stored))
  /\ ctx w' = ctx w
  /\ uncaught w' = uncaught w
  /\ alerts (log w') = alerts (log w).
Proof.
  intros s w'. subst s w'. unfold App_cleanup, ACTIVE_SESSION_KEY.
  destruct w as [c s l u p1 p2 p3]. cbn [localStorage].
  assert (Hk1 : "upload_session" <> "finscope_active_session") by discriminate.
  assert (Hk2 : "upload_metadata" <> "finscope_active_session") by discriminate.
  assert (Hk3 : "upload_metadata" <> "upload_session") by discriminate.
  destruct (s !! "finscope_active_session") as [stored|] eqn:Hs;
    [destruct (JS.truthy stored) eqn:Ht;
     [destruct (JSON_parse stored) as [[parsed|]|] eqn:Hp;
      [destruct (sd_uploadMetadata parsed) eqn:Hu|..]|]|];
    cbn;
    (split; [rewrite ?lookup_insert_ne by congruence;
             rewrite lookup_delete_ne by congruence; apply lookup_delete_eq|]);
    (split; [rewrite ?lookup_insert_ne by congruence; apply lookup_delete_eq|]);
    (split; [intros k H1 H2 H3; rewrite ?lookup_insert_ne by congruence;
             rewrite !lookup_delete_ne by congruence; reflexivity|]);
    (split; [rewrite ?lookup_insert_eq, ?lookup_insert_ne by congruence;
             rewrite ?lookup_delete_ne by congruence; rewrite ?Hs;
             split; eauto; intros [? ?]; discriminate|]);
    (split; [intros stored' parsed' E1 E2 E3;
             rewrite ?lookup_insert_eq, ?lookup_insert_ne by congruence;
             rewrite ?lookup_delete_ne by congruence; rewrite ?Hs;
             try discriminate E1; injection E1 as <-;
             rewrite ?E2 in Ht; try discriminate Ht;
             rewrite E3 in Hp; try discriminate Hp;
             injection Hp as <-; rewrite Hu; reflexivity|]);
    repeat split; log_simpl; reflexivity.
Qed.

(** The load effect on a record that can be read. *)
Lemma load_active_session_readable s stored parsed :
  s !! ACTIVE_SESSION_KEY = Some stored ->
  JS.truthy stored = true ->
  JSON_parse stored = Some (Some parsed) ->
  quiet (load_active_session s)
  = set_if_some SetAnalysisData (sd_analysisData parsed)
    ++ set_if_some SetSelectionMetadata (sd_selectionMetadata parsed).
Proof.
  intros Hs Ht Hp. unfold load_active_session. rewrite Hs, Ht, Hp.
  destruct (sd_analysisData parsed), (sd_selectionMetadata parsed),
    (sd_secWorkflowData parsed); reflexivity.
Qed.

(** X27.  A reload brings a stored session back without its workflow
    data: the provider restores [analysisData] and [selectionMetadata]
    from the record but never [secWorkflowData].  For a SEC session the
    analysis page then has nothing to start from: it shows the error
    about missing workflow data and issues no call. *)
Theorem reloaded_sec_session_cannot_be_shown s w stored parsed a :
  secWorkflowData (ctx w) = None ->
  s !! ACTIVE_SESSION_KEY = Some stored ->
  JS.truthy stored = true ->
  JSON_parse stored = Some (Some parsed) ->
  sd_analysisData parsed = Some a ->
  JS.truthy (ad_sessionId a) = true ->
  ad_sourceType a <> Some "upload" ->
  let w' := run (WorkflowProvider_mount s) w in
  analysisData (ctx w') = Some a
  /\ (is_Some (sd_selectionMetadata parsed) ->
      selectionMetadata (ctx w') = sd_selectionMetadata parsed)
  /\ secWorkflowData (ctx w') = None
  /\ forall r h,
       AnalysisPage.startAnalysis r h w'
       = Some [SetError (Some "Missing workflow data. Please start from the company search page or upload page.");
               SetLoading false].
Proof.
  intros Hwf Hs Ht Hp Ha Hsid Hsrc w'.
  assert (Hctx : analysisData (ctx w') = Some a
                 /\ (is_Some (sd_selectionMetadata parsed) ->
                     selectionMetadata (ctx w') = sd_selectionMetadata parsed)
                 /\ secWorkflowData (ctx w') = None).
  { subst w'. unfold WorkflowProvider_mount. cbv zeta.
    unfold load_active_session. rewrite Hs, Ht, Hp, Ha.
    destruct (init_uploadMetadata s) as [m lm] eqn:Em.
    destruct (init_uploadAnalysisData s) as [d ld] eqn:Ed.
    assert (Hlm : lm = [] \/ exists t, lm = [ConsoleError t]).
    { unfold init_uploadMetadata, init_from_storage in Em.
      destruct (s !! UPLOAD_META_KEY) as [x|]; [destruct (JS.truthy x);
        [destruct (JSON_parse x)|]|]; injection Em as <- <-; eauto. }
    assert (Hld : ld = [] \/ exists t, ld = [ConsoleError t]).
    { unfold init_uploadAnalysisData, init_from_storage in Ed.
      destruct (s !! UPLOAD_DATA_KEY) as [x|]; [destruct (JS.truthy x);
        [destruct (JSON_parse x)|]|]; injection Ed as <- <-; eauto. }
    destruct w as [c s0 l u p1 p2 p3], c. cbn in Hwf. subst.
    destruct Hlm as [->|[t1 ->]], Hld as [->|[t2 ->]];
      destruct (sd_selectionMetadata parsed) as [sm|],
               (sd_secWorkflowData parsed) as [wf|];
      cbn; repeat split; intros [x Hx]; discriminate Hx. }
  destruct Hctx as (Ha' & Hsm' & Hwf').
  split; [exact Ha'|]. split; [exact Hsm'|]. split; [exact Hwf'|].
  intros r h. unfold AnalysisPage.startAnalysis, AnalysisPage.startAnalysis_branch,
    AnalysisPage.startAnalysis_sec, isUploadSourceType.
  rewrite Hwf', Ha'. unfold strict_eq.
  rewrite bool_decide_eq_false_2 by exact Hsrc. cbn. rewrite Hsid.
  destruct (JS.non_null (uploadMetadata (ctx w'))); reflexivity.
Qed.

End StoreFacts.

Lemma reloaded_sec_session_cannot_be_shown_witness :
  let record := mkSessionData (Some Scenario.S1) (Some (selection_of Scenario.origin))
                  (Some Scenario.origin) "2024-02-01T10:00:00.000Z" None in
  let codec : JSON SessionData :=
    Build_JSON SessionData (fun _ => "record of S1") (fun _ => Some (Some record)) in
  let none_meta : JSON UploadMeta :=
    Build_JSON UploadMeta (fun _ => "") (fun _ => Some None) in
  let none_data : JSON UploadAnalysisData :=
    Build_JSON UploadAnalysisData (fun _ => "") (fun _ => Some None) in
  let s : gmap string string := {[ ACTIVE_SESSION_KEY := "record of S1" ]} in
  let w := mkWorld (mkContext None None None None None None false) s [] None
             (mkSecPage None [] None false None) Scenario.blank_ana Scenario.blank_upl in
  let w' := run (@WorkflowProvider_mount codec none_meta none_data s) w in
  sd_secWorkflowData record = Some Scenario.origin
  /\ analysisData (ctx w') = Some Scenario.S1
  /\ secWorkflowData (ctx w') = None.
Proof.
  cbv zeta. split; [reflexivity|].
  pose proof (@reloaded_sec_session_cannot_be_shown
                (Build_JSON SessionData (fun _ => "record of S1")
                   (fun _ => Some (Some (mkSessionData (Some Scenario.S1)
                                           (Some (selection_of Scenario.origin))
                                           (Some Scenario.origin)
                                           "2024-02-01T10:00:00.000Z" None))))
                (Build_JSON UploadMeta (fun _ => "") (fun _ => Some None))
                (Build_JSON UploadAnalysisData (fun _ => "") (fun _ => Some None))
                {[ ACTIVE_SESSION_KEY := "record of S1" ]}
                (mkWorld (mkContext None None None None None None false)
                   {[ ACTIVE_SESSION_KEY := "record of S1" ]} [] None
                   (mkSecPage None [] None false None)
                   Scenario.blank_ana Scenario.blank_upl)
                "record of S1" _ Scenario.S1
                eq_refl eq_refl eq_refl eq_refl eq_refl eq_refl
                ltac:(discriminate)) as E.
  cbv zeta in E. destruct E as (E1 & _ & E2 & _). split; [exact E1 | exact E2].
Defined.

(* ================================================================== *)
(** * Dialogs that are cancelled *)
(* ================================================================== *)

(** X28.  Opening one of the four confirmation dialogs and cancelling it
    loses nothing: the state is exactly what it was before, and no call
    was issued.  The back buttons open their dialog only when there is
    something to lose and navigate at once otherwise. *)
Theorem cancelled_dialogs_lose_nothing :
  (forall x,
     showBackWarningDialog (extra x) = false ->
     (SECSearchPage2.hasActiveSession x = true ->
      xrun (SECSearchPage2.handleBackCancel x) (xfire SECSearchPage2.handleBackClick x) = x)
     /\ (SECSearchPage2.hasActiveSession x = false ->
         SECSearchPage2.handleBackClick x = [Base (Navigate "/" false)]))
  /\ (forall x,
        showBackWarningModal (extra x) = false ->
        (UploadPage2.hasActiveSession (base x) = true ->
         xrun (UploadPage2.handleBackCancel x) (xfire UploadPage2.handleBackClick x) = x)
        /\ (UploadPage2.hasActiveSession (base x) = false ->
            UploadPage2.handleBackClick x = [Base (Navigate "/" false)]))
  /\ (forall w,
        showEndSessionDialog (ana w) = false ->
        run AnalysisPage2.handleEndSessionCancel (fire AnalysisPage.handleEndSessionClick w)
        = w)
  /\ (forall p id,
        LandingPage.showDeleteDialog p = false ->
        LandingPage.sessionToDelete p = None ->
        LandingPage.handleDeleteCancel (LandingPage.handleDeleteClick id p) = p
        /\ LandingPage.deleteCalls (LandingPage.handleDeleteClick id p)
           = LandingPage.deleteCalls p).
Proof.
  split; [|split; [|split]].
  - intros x Hd. unfold xfire, SECSearchPage2.handleBackClick. split; intros ->.
    + destruct x as [[c s l u [] p2 p3] e], e. cbn in Hd. subst. reflexivity.
    + reflexivity.
  - intros x Hd. unfold xfire, UploadPage2.handleBackClick. split; intros ->.
    + destruct x as [[c s l u [] p2 p3] e], e. cbn in Hd. subst. reflexivity.
    + reflexivity.
  - intros w Hd. unfold fire, AnalysisPage.handleEndSessionClick.
    destruct w as [c s l u p1 p2 p3], c, p2. cbn in Hd. subst.
    destruct (JS.truthy _); reflexivity.
  - intros p id Hd Hs. destruct p. cbn in Hd, Hs. subst. split; reflexivity.
Qed.

(* ================================================================== *)
(** * Replacing a session: what a failure leaves, what a success starts *)
(* ================================================================== *)

(** X29.  The replace of the upload page clears the old session before
    the new one exists and never ends it at the gateway.  When the create
    call then fails, the old session is gone from the state and its
    record from the store, no file is selected, and nothing tells the
    user: no alert and no error on the page.  The only call issued is the
    upload; the button reads Start Analysis, and a submit asks for a file
    again. *)
Theorem failed_upload_replace_loses_the_session r w file m :
  submittable w file ->
  read_json r = inl m ->
  let w' := fire (UploadPage.handleProceedWithNew r) w in
  requests (log w') = requests (log w) ++ [upload_request w file]
  /\ uploadAnalysisData (ctx w') = None
  /\ analysisData (ctx w')
     = (if isUploadSourceType (ctx w) then None else analysisData (ctx w))
  /\ selectedUploadFile (ctx w') = None
  /\ uploadMetadata (ctx w') = uploadMetadata (ctx w)
  /\ localStorage w' = delete UPLOAD_DATA_KEY (localStorage w)
  /\ alerts (log w') = alerts (log w)
  /\ fileError (upl w') = fileError (upl w)
  /\ uncaught w' = uncaught w
  /\ UploadPage.buttonText w' = UploadPage.StartAnalysisText
  /\ forall r', UploadPage.handleStartAnalysis r' w'
                = [SetFileError (Some "Please select a file to upload.")].
Proof.
  intros Hsub Hr w'.
  assert (H : requests (log w') = requests (log w) ++ [upload_request w file]
              /\ uploadAnalysisData (ctx w') = None
              /\ analysisData (ctx w')
                 = (if isUploadSourceType (ctx w) then None else analysisData (ctx w))
              /\ selectedUploadFile (ctx w') = None
              /\ uploadMetadata (ctx w') = uploadMetadata (ctx w)
              /\ localStorage w' = delete UPLOAD_DATA_KEY (localStorage w)
              /\ alerts (log w') = alerts (log w)
              /\ fileError (upl w') = fileError (upl w)
              /\ uncaught w' = uncaught w).
  { subst w'. unfold fire, UploadPage.handleProceedWithNew.
    rewrite (handleStartAnalysis_submittable r w file Hsub), Hr.
    destruct (isUploadSourceType (ctx w));
      destruct w as [c s l u p1 p2 p3], c, p3; cbn; repeat split;
      log_simpl; reflexivity. }
  destruct H as (H1 & H2 & H3 & H4 & H5 & H6 & H7 & H8 & H9).
  repeat (split; [assumption|]). split.
  - unfold UploadPage.buttonText, UploadPage.hasActiveAnalysis. rewrite H2. reflexivity.
  - intros r'. apply handleStartAnalysis_no_file. exact H4.
Qed.

Lemma failed_upload_replace_loses_the_session_witness :
  let w := Scenario.uploaded
             (Some (mkUploadMeta (Some "Acme Corp") (Some "Quarterly report")
                      (Some "10-Q") (Some 2025%Z)))
             (Some (mkFile "acme-2025.pdf" 2048)) in
  let w' := fire (UploadPage.handleProceedWithNew (NetworkFailure "offline")) w in
  submittable w (mkFile "acme-2025.pdf" 2048)
  /\ (ad_sessionId <$> analysisData (ctx w)) = Some "U1"
  /\ analysisData (ctx w') = None
  /\ uploadAnalysisData (ctx w') = None
  /\ alerts (log w') = [].
Proof.
  cbv zeta.
  assert (H : submittable
                (Scenario.uploaded
                   (Some (mkUploadMeta (Some "Acme Corp") (Some "Quarterly report")
                            (Some "10-Q") (Some 2025%Z)))
                   (Some (mkFile "acme-2025.pdf" 2048)))
                (mkFile "acme-2025.pdf" 2048)) by (split; reflexivity).
  split; [exact H|]. split; [reflexivity|].
  pose proof (failed_upload_replace_loses_the_session (NetworkFailure "offline")
                _ _ "offline" H eq_refl) as E.
  cbv zeta in E. destruct E as (_ & E2 & E3 & _ & _ & _ & E7 & _).
  split; [exact E3|]. split; [exact E2 | exact E7].
Defined.

(** X30.  Starting an analysis on the search page hands the selection to
    the analysis page: whatever the end call for an old session returns,
    [secWorkflowData] holds the selected company and filing and
    [analysisData] is null, so [startAnalysis] takes its SEC part and the
    first call it issues is the create call for exactly that selection. *)
Theorem sec_start_leads_to_create r w company filing :
  selectedCompany (sec w) = Some company ->
  selectedFiling (sec w) = Some filing ->
  let w1 := fire (SECSearchPage.proceedWithNewAnalysis r) w in
  secWorkflowData (ctx w1)
  = Some (mkSecWorkflowData (co_ticker company) (co_company_name company) (Some filing))
  /\ selection_in_step (ctx w1)
  /\ analysisData (ctx w1) = None
  /\ last (log w1) = Some (EvNavigate "/analysis" false)
  /\ AnalysisPage.startAnalysis_branch (ctx w1) = AnalysisPage.SecWorkflow
  /\ forall r' h',
       until_fetch (AnalysisPage.startAnalysis_sec r' h' w1)
       = [SetLoading true; SetError None;
          Fetch (StartAnalysis (co_ticker company) (co_company_name company)
                   (accession_number filing))].
Proof.
  intros Hc Hf w1.
  assert (H : secWorkflowData (ctx w1)
              = Some (mkSecWorkflowData (co_ticker company) (co_company_name company)
                        (Some filing))
              /\ selectionMetadata (ctx w1)
                 = Some (selection_of
                           (mkSecWorkflowData (co_ticker company)
                              (co_company_name company) (Some filing)))
              /\ analysisData (ctx w1) = None
              /\ last (log w1) = Some (EvNavigate "/analysis" false)).
  { subst w1. unfold fire, SECSearchPage.proceedWithNewAnalysis. rewrite Hc, Hf.
    set (e := match analysisData (ctx w) with
              | Some a => if JS.truthy (ad_sessionId a)
                          then SECSearchPage.end_old_session (ad_sessionId a) r else []
              | None => [] end).
    assert (He : throw_free e = true).
    { subst e. destruct (analysisData (ctx w)) as [a|]; [|reflexivity].
      destruct (JS.truthy (ad_sessionId a)); [|reflexivity].
      apply end_old_session_throw_free. }
    rewrite run_app by exact He.
    set (w0 := run e w). clearbody w0.
    destruct w0 as [c0 s0 l0 u0 q1 q2 q3], c0. cbn. repeat split.
    rewrite !last_app. reflexivity. }
  destruct H as (Hwf & Hsm & Ha & Hl).
  split; [exact Hwf|].
  split; [unfold selection_in_step; rewrite Hwf, Hsm; reflexivity|].
  split; [exact Ha|]. split; [exact Hl|]. split.
  - unfold AnalysisPage.startAnalysis_branch. rewrite Hwf. cbn.
    rewrite !andb_false_r. reflexivity.
  - intros r' h'. unfold AnalysisPage.startAnalysis_sec. rewrite Hwf, Ha.
    destruct (read_json r'); reflexivity.
Qed.

Lemma sec_start_leads_to_create_witness :
  let w1 := fire (SECSearchPage.proceedWithNewAnalysis (NetworkFailure "offline"))
              (Scenario.searching Scenario.filing2) in
  selectedFiling (sec (Scenario.searching Scenario.filing2)) = Some Scenario.filing2
  /\ until_fetch (AnalysisPage.startAnalysis_sec (NetworkFailure "offline")
                    (NetworkFailure "offline") w1)
     = [SetLoading true; SetError None; Fetch (StartAnalysis "ACME" "Acme Corp" "0002-24")].
Proof.
  cbv zeta. split; [reflexivity|].
  pose proof (sec_start_leads_to_create (NetworkFailure "offline")
                (Scenario.searching Scenario.filing2) Scenario.acme Scenario.filing2
                eq_refl eq_refl) as E.
  cbv zeta in E. destruct E as (_ & _ & _ & _ & _ & E).
  exact (E (NetworkFailure "offline") (NetworkFailure "offline")).
Defined.
